(** * ollama-chat-connect: the chat screens and their streaming reducer

    A shallow embedding of the two chat screens of the repository,

    - the streaming chat screen ([Module StreamingChat], the component
      [Chat] whose [sendMessage] reads the response body chunk by chunk), and
    - the simple chat screen [src/pages/Chat.tsx] ([Module SimpleChat], whose
      [sendMessage] awaits the whole body),

    and of the settings screen [src/pages/Settings.tsx] ([Module Settings]),
    together with the parts of the JavaScript platform their code calls:
    strings as sequences of UTF-16 code units, [TextDecoder.decode],
    [JSON.parse], property access, truthiness and string concatenation.

    React state is modelled by explicit state passing: a handler takes the
    state of the render it closes over and returns the state after its
    [set...] calls, with the list of effects it performed on its
    collaborators (preferences, router, toasts, network).  A handler is
    followed from its call to its return: what it awaits settles (a
    request or a read that stays pending for ever is not among the
    outcomes), and no other handler runs in between.  What overlapping
    turns do to the transcript is treated apart, through the sequences of
    [transcript_update]. *)

From Stdlib Require Import ZArith NArith List Bool Ascii String DecimalString Lia.
From Stdlib.Strings Require Import Byte.
From stdpp Require Import base option list strings gmap.

Local Open Scope N_scope.

(** ** JavaScript strings *)

(** A JavaScript string is a sequence of 16-bit code units. *)
Abbreviation jsstring := (list N).

(** An ASCII literal as a JavaScript string. *)
Definition str (s : string) : jsstring :=
  map N_of_ascii (list_ascii_of_string s).

(** The same, with every apostrophe of [s] standing for a double quote:
    used to write JSON texts. *)
Definition strq (s : string) : jsstring :=
  map (fun c => if c =? 39 then 34 else c) (str s).

(** [s.startsWith(p)] *)
Fixpoint startsWith (s p : jsstring) {struct p} : bool :=
  match p, s with
  | [], _ => true
  | _ :: _, [] => false
  | b :: p', a :: s' => (a =? b) && startsWith s' p'
  end.

(** [s.includes(p)] *)
Fixpoint includes (s p : jsstring) : bool :=
  startsWith s p ||
  match s with
  | [] => false
  | _ :: s' => includes s' p
  end.

(** [s.replace(pat, repl)] with a string pattern: only the first occurrence
    is replaced.  ([repl] is taken literally: the replacement used by the
    source has no [$] pattern.) *)
Fixpoint replace (s pat repl : jsstring) : jsstring :=
  if startsWith s pat then repl ++ drop (length pat) s
  else match s with
       | [] => []
       | c :: s' => c :: replace s' pat repl
       end.

(** [s.split(sep)] for a separator of one code unit: the segments between
    the separators, empty ones included. *)
Fixpoint String_split (sep : N) (s : jsstring) : list jsstring :=
  match s with
  | [] => [[]]
  | c :: s' =>
      if c =? sep then [] :: String_split sep s'
      else match String_split sep s' with
           | seg :: segs => (c :: seg) :: segs
           | [] => [[c]]
           end
  end.

(** White space and line terminators, as [String.prototype.trim] strips
    them. *)
Definition is_white_space (c : N) : bool :=
  (c =? 0x09) || (c =? 0x0A) || (c =? 0x0B) || (c =? 0x0C) || (c =? 0x0D)
  || (c =? 0x20) || (c =? 0xA0) || (c =? 0x1680)
  || ((0x2000 <=? c) && (c <=? 0x200A))
  || (c =? 0x2028) || (c =? 0x2029) || (c =? 0x202F) || (c =? 0x205F)
  || (c =? 0x3000) || (c =? 0xFEFF).

Fixpoint trimStart (s : jsstring) : jsstring :=
  match s with
  | c :: s' => if is_white_space c then trimStart s' else s
  | [] => []
  end.

(** [s.trim()] *)
Definition trim (s : jsstring) : jsstring :=
  rev (trimStart (rev (trimStart s))).

(** Truthiness of a string: the empty string is falsy. *)
Definition nonempty (s : jsstring) : bool :=
  match s with [] => false | _ :: _ => true end.

(** ** [TextDecoder]: UTF-8 to UTF-16 *)

(** The state of the UTF-8 decoder of the Encoding standard. *)
Record utf8_state := {
  code_point : N;
  bytes_seen : N;
  bytes_needed : N;
  lower_boundary : N;
  upper_boundary : N
}.

Definition utf8_initial : utf8_state :=
  {| code_point := 0; bytes_seen := 0; bytes_needed := 0;
     lower_boundary := 0x80; upper_boundary := 0xBF |}.

Definition U_FFFD : N := 0xFFFD.

(** A byte read while no sequence is open. *)
Definition utf8_lead (b : N) : list N * utf8_state :=
  if b <=? 0x7F then ([b], utf8_initial)
  else if (0xC2 <=? b) && (b <=? 0xDF) then
    ([], {| code_point := N.land b 0x1F; bytes_seen := 0; bytes_needed := 1;
            lower_boundary := 0x80; upper_boundary := 0xBF |})
  else if (0xE0 <=? b) && (b <=? 0xEF) then
    ([], {| code_point := N.land b 0xF; bytes_seen := 0; bytes_needed := 2;
            lower_boundary := if b =? 0xE0 then 0xA0 else 0x80;
            upper_boundary := if b =? 0xED then 0x9F else 0xBF |})
  else if (0xF0 <=? b) && (b <=? 0xF4) then
    ([], {| code_point := N.land b 0x7; bytes_seen := 0; bytes_needed := 3;
            lower_boundary := if b =? 0xF0 then 0x90 else 0x80;
            upper_boundary := if b =? 0xF4 then 0x8F else 0xBF |})
  else ([U_FFFD], utf8_initial).

(** One byte: the code points emitted and the next state.  A byte that
    cannot continue the open sequence ends it with U+FFFD and is read again
    as a lead byte. *)
Definition utf8_byte (st : utf8_state) (b : N) : list N * utf8_state :=
  if bytes_needed st =? 0 then utf8_lead b
  else if (b <? lower_boundary st) || (upper_boundary st <? b) then
    let '(out, st') := utf8_lead b in (U_FFFD :: out, st')
  else
    let cp := N.lor (N.shiftl (code_point st) 6) (N.land b 0x3F) in
    if bytes_seen st + 1 =? bytes_needed st then ([cp], utf8_initial)
    else ([], {| code_point := cp; bytes_seen := bytes_seen st + 1;
                 bytes_needed := bytes_needed st;
                 lower_boundary := 0x80; upper_boundary := 0xBF |}).

(** The whole input, flushed at its end: a sequence left open there is
    replaced by U+FFFD. *)
Fixpoint utf8_decode (st : utf8_state) (bs : list N) : list N :=
  match bs with
  | [] => if bytes_needed st =? 0 then [] else [U_FFFD]
  | b :: bs' => let '(out, st') := utf8_byte st b in out ++ utf8_decode st' bs'
  end.

(** A code point as UTF-16 code units. *)
Definition utf16 (cp : N) : jsstring :=
  if cp <? 0x10000 then [cp]
  else let c := cp - 0x10000 in
       [0xD800 + N.shiftr c 10; 0xDC00 + N.land c 0x3FF].

Definition strip_bom (cps : list N) : list N :=
  match cps with
  | c :: cps' => if c =? 0xFEFF then cps' else cps
  | [] => []
  end.

(** [decoder.decode(value)], called without [{stream: true}]: the decoder
    is flushed and reset at the end of every call, so each call starts from
    [utf8_initial] (and drops a leading byte order mark). *)
Definition TextDecoder_decode (value : list Byte.byte) : jsstring :=
  flat_map utf16 (strip_bom (utf8_decode utf8_initial (map Byte.to_N value))).

(** The bytes of an ASCII literal, and of one whose apostrophes stand for
    double quotes. *)
Definition bytes (s : string) : list Byte.byte := list_byte_of_string s.

Definition bytesq (s : string) : list Byte.byte :=
  map (fun b => if Byte.eqb b Byte.x27 then Byte.x22 else b) (bytes s).

(** ** JSON values *)

(** A JSON number, as its literal gives it: [mantissa * 10 ^ exponent10],
    negated when [negative].  The engine rounds it to a double. *)
Record jsnumber := {
  negative : bool;
  mantissa : N;
  exponent10 : Z
}.

#[local] Set Warnings "-register-all".

(** The values [JSON.parse] returns.  The members of an object are kept in
    the order of the text, a repeated key included. *)
Inductive json :=
  | JNull
  | JBool (b : bool)
  | JNum (n : jsnumber)
  | JStr (s : jsstring)
  | JArr (items : list json)
  | JObj (members : list (jsstring * json)).

(** ** [JSON.parse]: the lexer *)

Inductive token :=
  | TLBrace | TRBrace | TLBracket | TRBracket | TColon | TComma
  | TString (s : jsstring)
  | TNumber (n : jsnumber)
  | TTrue | TFalse | TNull.

(** Where the lexer stands inside a number literal. *)
Inductive num_phase :=
  | NSign | NZero | NInt | NPoint | NFrac | NE | NESign | NExp.

Record num_state := {
  phase : num_phase;
  num_negative : bool;
  digits : N;          (* the digits read so far, point removed *)
  frac_digits : N;     (* how many of them came after the point *)
  exp_negative : bool;
  exp_digits : N
}.

Inductive lex_state :=
  | LStart
  | LString (acc : jsstring)
  | LEscape (acc : jsstring)
  | LHex (acc : jsstring) (need : nat) (v : N)
  | LNumber (ns : num_state)
  | LWord (expect : jsstring) (t : token).

Definition is_digit (c : N) : bool := (48 <=? c) && (c <=? 57).

Definition hex_value (c : N) : option N :=
  if is_digit c then Some (c - 48)
  else if (65 <=? c) && (c <=? 70) then Some (c - 55)
  else if (97 <=? c) && (c <=? 102) then Some (c - 87)
  else None.

(** The character after a backslash, [u] apart. *)
Definition escape_char (c : N) : option N :=
  if c =? 34 then Some 34            (* quote *)
  else if c =? 92 then Some 92       (* backslash *)
  else if c =? 47 then Some 47       (* slash *)
  else if c =? 98 then Some 8        (* b *)
  else if c =? 102 then Some 12      (* f *)
  else if c =? 110 then Some 10      (* n *)
  else if c =? 114 then Some 13      (* r *)
  else if c =? 116 then Some 9       (* t *)
  else None.

Definition num_start (neg : bool) (ph : num_phase) (d : N) : num_state :=
  {| phase := ph; num_negative := neg; digits := d; frac_digits := 0;
     exp_negative := false; exp_digits := 0 |}.

Definition set_phase (ns : num_state) (ph : num_phase) : num_state :=
  {| phase := ph; num_negative := num_negative ns; digits := digits ns;
     frac_digits := frac_digits ns; exp_negative := exp_negative ns;
     exp_digits := exp_digits ns |}.

Definition is_e (c : N) : bool := (c =? 101) || (c =? 69).

(** The number literal continued by [c], or [None] when [c] cannot
    continue it. *)
Definition num_step (ns : num_state) (c : N) : option num_state :=
  let int_digit ph :=
    {| phase := ph; num_negative := num_negative ns;
       digits := digits ns * 10 + (c - 48); frac_digits := frac_digits ns;
       exp_negative := exp_negative ns; exp_digits := exp_digits ns |} in
  let frac_digit :=
    {| phase := NFrac; num_negative := num_negative ns;
       digits := digits ns * 10 + (c - 48); frac_digits := frac_digits ns + 1;
       exp_negative := exp_negative ns; exp_digits := exp_digits ns |} in
  let exp_digit :=
    {| phase := NExp; num_negative := num_negative ns;
       digits := digits ns; frac_digits := frac_digits ns;
       exp_negative := exp_negative ns;
       exp_digits := exp_digits ns * 10 + (c - 48) |} in
  match phase ns with
  | NSign =>
      if c =? 48 then Some (int_digit NZero)
      else if is_digit c then Some (int_digit NInt) else None
  | NZero =>
      if c =? 46 then Some (set_phase ns NPoint)
      else if is_e c then Some (set_phase ns NE) else None
  | NInt =>
      if is_digit c then Some (int_digit NInt)
      else if c =? 46 then Some (set_phase ns NPoint)
      else if is_e c then Some (set_phase ns NE) else None
  | NPoint => if is_digit c then Some frac_digit else None
  | NFrac =>
      if is_digit c then Some frac_digit
      else if is_e c then Some (set_phase ns NE) else None
  | NE =>
      if c =? 43 then Some (set_phase ns NESign)
      else if c =? 45 then
        Some {| phase := NESign; num_negative := num_negative ns;
                digits := digits ns; frac_digits := frac_digits ns;
                exp_negative := true; exp_digits := exp_digits ns |}
      else if is_digit c then Some exp_digit else None
  | NESign => if is_digit c then Some exp_digit else None
  | NExp => if is_digit c then Some exp_digit else None
  end.

(** The phases in which the literal read so far is a whole number. *)
Definition num_complete (ns : num_state) : bool :=
  match phase ns with
  | NZero | NInt | NFrac | NExp => true
  | NSign | NPoint | NE | NESign => false
  end.

Definition num_value (ns : num_state) : jsnumber :=
  {| negative := num_negative ns;
     mantissa := digits ns;
     exponent10 :=
       ((if exp_negative ns then - Z.of_N (exp_digits ns)
         else Z.of_N (exp_digits ns)) - Z.of_N (frac_digits ns))%Z |}.

(** A character read between tokens. *)
Definition lex_start (c : N) : option (lex_state * list token) :=
  if (c =? 0x20) || (c =? 0x09) || (c =? 0x0A) || (c =? 0x0D)
  then Some (LStart, [])
  else if c =? 123 then Some (LStart, [TLBrace])
  else if c =? 125 then Some (LStart, [TRBrace])
  else if c =? 91 then Some (LStart, [TLBracket])
  else if c =? 93 then Some (LStart, [TRBracket])
  else if c =? 58 then Some (LStart, [TColon])
  else if c =? 44 then Some (LStart, [TComma])
  else if c =? 34 then Some (LString [], [])
  else if c =? 45 then Some (LNumber (num_start true NSign 0), [])
  else if c =? 48 then Some (LNumber (num_start false NZero 0), [])
  else if is_digit c then Some (LNumber (num_start false NInt (c - 48)), [])
  else if c =? 116 then Some (LWord (str "rue") TTrue, [])
  else if c =? 102 then Some (LWord (str "alse") TFalse, [])
  else if c =? 110 then Some (LWord (str "ull") TNull, [])
  else None.

(** One character: the next state and the tokens completed by it, or
    [None] for a character the grammar does not allow there. *)
Definition lex_char (st : lex_state) (c : N) : option (lex_state * list token) :=
  match st with
  | LStart => lex_start c
  | LString acc =>
      if c =? 34 then Some (LStart, [TString acc])
      else if c =? 92 then Some (LEscape acc, [])
      else if c <? 0x20 then None
      else Some (LString (acc ++ [c]), [])
  | LEscape acc =>
      match escape_char c with
      | Some e => Some (LString (acc ++ [e]), [])
      | None => if c =? 117 then Some (LHex acc 4 0, []) else None
      end
  | LHex acc need v =>
      match hex_value c, need with
      | Some h, 1%nat => Some (LString (acc ++ [v * 16 + h]), [])
      | Some h, S n => Some (LHex acc n (v * 16 + h), [])
      | _, _ => None
      end
  | LNumber ns =>
      match num_step ns c with
      | Some ns' => Some (LNumber ns', [])
      | None =>
          if num_complete ns then
            match lex_start c with
            | Some (st', toks) => Some (st', TNumber (num_value ns) :: toks)
            | None => None
            end
          else None
      end
  | LWord expect t =>
      match expect with
      | [e] => if c =? e then Some (LStart, [t]) else None
      | e :: es => if c =? e then Some (LWord es t, []) else None
      | [] => None
      end
  end.

Definition lex_end (st : lex_state) : option (list token) :=
  match st with
  | LStart => Some []
  | LNumber ns => if num_complete ns then Some [TNumber (num_value ns)] else None
  | _ => None
  end.

Fixpoint lex (st : lex_state) (text : jsstring) : option (list token) :=
  match text with
  | [] => lex_end st
  | c :: text' =>
      match lex_char st c with
      | Some (st', toks) =>
          match lex st' text' with
          | Some more => Some (toks ++ more)
          | None => None
          end
      | None => None
      end
  end.

(** ** [JSON.parse]: the parser *)

(** An array or object whose closing bracket has not been read. *)
Inductive frame :=
  | FArray (items : list json)
  | FObject (members : list (jsstring * json)) (key : jsstring).

Inductive parse_state :=
  | PValue (stack : list frame)          (* a value must follow *)
  | PArrayStart (stack : list frame)     (* after [ *)
  | PObjectStart (stack : list frame)    (* after { *)
  | PKey (members : list (jsstring * json)) (stack : list frame)
  | PColon (members : list (jsstring * json)) (key : jsstring)
           (stack : list frame)
  | PArrayNext (items : list json) (stack : list frame)
  | PObjectNext (members : list (jsstring * json)) (stack : list frame)
  | PDone (v : json).

(** A value is complete: it goes into the innermost open container. *)
Definition reduce (v : json) (stack : list frame) : parse_state :=
  match stack with
  | [] => PDone v
  | FArray items :: stack' => PArrayNext (items ++ [v]) stack'
  | FObject members key :: stack' => PObjectNext (members ++ [(key, v)]) stack'
  end.

Definition parse_value (t : token) (stack : list frame) : option parse_state :=
  match t with
  | TString s => Some (reduce (JStr s) stack)
  | TNumber n => Some (reduce (JNum n) stack)
  | TTrue => Some (reduce (JBool true) stack)
  | TFalse => Some (reduce (JBool false) stack)
  | TNull => Some (reduce JNull stack)
  | TLBracket => Some (PArrayStart stack)
  | TLBrace => Some (PObjectStart stack)
  | _ => None
  end.

Definition parse_token (st : parse_state) (t : token) : option parse_state :=
  match st, t with
  | PValue stack, _ => parse_value t stack
  | PArrayStart stack, TRBracket => Some (reduce (JArr []) stack)
  | PArrayStart stack, _ => parse_value t (FArray [] :: stack)
  | PObjectStart stack, TRBrace => Some (reduce (JObj []) stack)
  | PObjectStart stack, TString k => Some (PColon [] k stack)
  | PKey members stack, TString k => Some (PColon members k stack)
  | PColon members k stack, TColon => Some (PValue (FObject members k :: stack))
  | PArrayNext items stack, TComma => Some (PValue (FArray items :: stack))
  | PArrayNext items stack, TRBracket => Some (reduce (JArr items) stack)
  | PObjectNext members stack, TComma => Some (PKey members stack)
  | PObjectNext members stack, TRBrace => Some (reduce (JObj members) stack)
  | _, _ => None
  end.

Fixpoint parse_tokens (st : parse_state) (ts : list token) : option json :=
  match ts with
  | [] => match st with PDone v => Some v | _ => None end
  | t :: ts' =>
      match parse_token st t with
      | Some st' => parse_tokens st' ts'
      | None => None
      end
  end.

(** [JSON.parse(text)]: the value, or [None] where it throws a
    [SyntaxError]. *)
Definition JSON_parse (text : jsstring) : option json :=
  match lex LStart text with
  | Some ts => parse_tokens (PValue []) ts
  | None => None
  end.

(** ** Values at run time *)

(** What a [throw] carries: an [Error] object with its message, or some
    other value. *)
Inductive thrown :=
  | ErrorObject (message : jsstring)
  | OtherValue.

Inductive completion (A : Type) :=
  | Normal (a : A)
  | Throw (e : thrown).
Arguments Normal {A} a.
Arguments Throw {A} e.

(** What belongs to the JavaScript engine and is not fixed by the code:
    the printing of doubles, the conversion of strings to numbers, and the
    messages of the exceptions it raises itself. *)
Record Engine := {
  (* Number::toString of the double a literal rounds to *)
  Number_toString : jsnumber -> jsstring;
  (* whether the number a string converts to is greater than 0 *)
  StringToNumber_positive : jsstring -> bool;
  (* the message of the SyntaxError of JSON.parse on a text *)
  SyntaxError_message : jsstring -> jsstring;
  (* the message of the TypeError of reading a property of null *)
  TypeError_null_message : jsstring -> jsstring;
  (* the message of the TypeError of a failed conversion to a primitive *)
  TypeError_primitive_message : jsstring
}.

(** A literal rounds to zero when it is at most half of the smallest
    positive double, 2^-1074. *)
Definition number_is_zero (n : jsnumber) : bool :=
  (mantissa n =? 0)
  || ((exponent10 n <? 0)%Z
      && (mantissa n * 2 ^ 1075 <=? 10 ^ Z.to_N (- exponent10 n))).

(** ToBoolean *)
Definition truthy (v : json) : bool :=
  match v with
  | JNull => false
  | JBool b => b
  | JNum n => negb (number_is_zero n)
  | JStr s => nonempty s
  | JArr _ | JObj _ => true
  end.

(** The same for the result of a property read, [None] being
    [undefined]. *)
Definition truthy_opt (o : option json) : bool :=
  match o with
  | Some v => truthy v
  | None => false
  end.

(** The own property [key] of an object: of two members with the same
    key, the later one wins. *)
Fixpoint own_property (key : jsstring) (members : list (jsstring * json))
  : option json :=
  match members with
  | [] => None
  | (k, v) :: members' =>
      match own_property key members' with
      | Some v' => Some v'
      | None => if bool_decide (k = key) then Some v else None
      end
  end.

Section Values.
Context (engine : Engine).

(** [v.key] for a key that no prototype defines (the source reads
    [message], [content], [done] and [models]): the own property of an
    object, [undefined] on any other value, and a [TypeError] on
    [null]. *)
Definition get_property (v : json) (key : jsstring)
  : completion (option json) :=
  match v with
  | JNull => Throw (ErrorObject (TypeError_null_message engine key))
  | JObj members => Normal (own_property key members)
  | _ => Normal None
  end.

(** The string a value contributes to a concatenation [text + v].  An
    array is joined with commas, [null] items giving nothing; an object
    is [[object Object]] unless a member named [toString] hides the
    inherited method, in which case the conversion throws. *)
Fixpoint ToString (v : json) : completion jsstring :=
  match v with
  | JNull => Normal (str "null")
  | JBool true => Normal (str "true")
  | JBool false => Normal (str "false")
  | JNum n => Normal (Number_toString engine n)
  | JStr s => Normal s
  | JArr items =>
      (fix join (first : bool) (l : list json) : completion jsstring :=
         match l with
         | [] => Normal []
         | x :: l' =>
             match match x with JNull => Normal [] | _ => ToString x end with
             | Throw e => Throw e
             | Normal s =>
                 match join false l' with
                 | Throw e => Throw e
                 | Normal r => Normal ((if first then [] else [44]) ++ s ++ r)
                 end
             end
         end) true items
  | JObj members =>
      match own_property (str "toString") members with
      | Some _ => Throw (ErrorObject (TypeError_primitive_message engine))
      | None => Normal (str "[object Object]")
      end
  end.

(** [v > 0] *)
Definition greater_than_zero (v : json) : completion bool :=
  match v with
  | JNull => Normal false
  | JBool b => Normal b
  | JNum n => Normal (negb (negative n) && negb (number_is_zero n))
  | JStr s => Normal (StringToNumber_positive engine s)
  | JArr _ | JObj _ =>
      match ToString v with
      | Normal s => Normal (StringToNumber_positive engine s)
      | Throw e => Throw e
      end
  end.

(** [v.length > 0] for a truthy [v]: the length of an array or of a
    string, the member [length] of an object, [undefined] otherwise. *)
Definition length_positive (v : json) : completion bool :=
  match v with
  | JArr items => Normal (match items with [] => false | _ :: _ => true end)
  | JStr s => Normal (nonempty s)
  | JObj members =>
      match own_property (str "length") members with
      | Some l => greater_than_zero l
      | None => Normal false
      end
  | _ => Normal false
  end.
End Values.

(** An engine to run examples with.  Its number printing is the decimal of
    the digits of the literal, which is the engine's only for positive
    integer literals below 2^53 written without exponent, and its test of
    strings as numbers is constantly false; no example meets a number or
    compares a string. *)
Definition example_engine : Engine :=
  {| Number_toString := fun n =>
       (if negative n then [45] else [])
       ++ str (NilZero.string_of_uint (N.to_uint (mantissa n)));
     StringToNumber_positive := fun _ => false;
     SyntaxError_message := fun _ => str "Unexpected token";
     TypeError_null_message := fun _ => str "Cannot read properties of null";
     TypeError_primitive_message := str "Cannot convert object to primitive value" |}.

(** ** The data model and the collaborators *)

Inductive Role := user | assistant.

Record Message := {
  role : Role;
  content : jsstring
}.

Definition is_assistant (m : Message) : bool :=
  match role m with assistant => true | user => false end.

(** The object passed to [JSON.stringify] as the body of the chat request;
    [stream] is [None] when the object has no such member. *)
Record ChatBody := {
  model : jsstring;
  body_messages : list Message;
  stream : option bool
}.

Inductive request :=
  | GET (url : jsstring) (headers : list (string * string))
  | POST (url : jsstring) (headers : list (string * string)) (body : ChatBody).

(** How the body of a response arrives: the chunks [reader.read()] yields,
    then either the end of the stream or a rejected read. *)
Inductive stream_end :=
  | EndOfStream
  | ReadThrows (e : thrown).

Record body_stream := {
  chunks : list (list Byte.byte);
  ending : stream_end
}.

(** What awaiting [fetch] gives: a rejection, or a response with its
    status and its body ([None] for a response without body). *)
Inductive fetch_outcome :=
  | FetchRejects (e : thrown)
  | FetchResponse (ok : bool) (status : N) (body : option body_stream).

(** What a handler does to its collaborators. *)
Inductive effect :=
  | Navigate (path : string)
  | Toast (title : string) (destructive : bool)
  | Fetch (r : request)
  | PreferencesSet (key : string) (value : jsstring).

(** The host: the key-value store behind [Preferences], whether it can be
    read at all, and [window.location.protocol]. *)
Record Platform := {
  preferences : gmap string jsstring;
  preferences_readable : bool;
  protocol : jsstring
}.

(** [(await Preferences.get({ key })).value] *)
Definition Preferences_get (p : Platform) (key : string)
  : completion (option jsstring) :=
  if preferences_readable p then Normal (preferences p !! key)
  else Throw OtherValue.

(** The store after the effects of a handler. *)
Definition run_effect (store : gmap string jsstring) (e : effect)
  : gmap string jsstring :=
  match e with
  | PreferencesSet key value => <[key := value]> store
  | _ => store
  end.

Definition run_effects (store : gmap string jsstring) (es : list effect)
  : gmap string jsstring :=
  foldl run_effect store es.

(** Truthiness of [string | null]. *)
Definition present (o : option jsstring) : bool :=
  match o with
  | Some s => nonempty s
  | None => false
  end.

(** A status in a template literal. *)
Definition status_text (status : N) : jsstring :=
  str (NilZero.string_of_uint (N.to_uint status)).

(** [await response.text()]: the whole body decoded, or the rejection of
    the read that failed. *)
Definition Response_text (body : option body_stream) : completion jsstring :=
  match body with
  | None => Normal []
  | Some b =>
      match ending b with
      | EndOfStream => Normal (TextDecoder_decode (concat (chunks b)))
      | ReadThrows e => Throw e
      end
  end.

(** [await response.json()] *)
Definition Response_json (engine : Engine) (body : option body_stream)
  : completion json :=
  match Response_text body with
  | Throw e => Throw e
  | Normal text =>
      match JSON_parse text with
      | Some v => Normal v
      | None => Throw (ErrorObject (SyntaxError_message engine text))
      end
  end.

(** [error instanceof Error ? error.message : 'Unknown error occurred'] *)
Definition errorMessage_of (e : thrown) : jsstring :=
  match e with
  | ErrorObject message => message
  | OtherValue => str "Unknown error occurred"
  end.

(** [chunk.split('\n').filter(line => line.trim() !== '')] *)
Definition lines_of (chunk : jsstring) : list jsstring :=
  filter (fun line => nonempty (trim line) = true) (String_split 10 chunk).

(** ** The streaming chat screen *)

Module StreamingChat.

(** The state variables of the component [Chat]. *)
Record ChatState := {
  messages : list Message;
  input : jsstring;
  isLoading : bool;
  serverUrl : jsstring;
  selectedModel : jsstring;
  localModels : json;
  error : option jsstring
}.

(** The state of the first render. *)
Definition initialState : ChatState :=
  {| messages := []; input := []; isLoading := false; serverUrl := [];
     selectedModel := []; localModels := JArr []; error := None |}.

Definition setMessages (f : list Message -> list Message) (st : ChatState) :=
  {| messages := f (messages st); input := input st;
     isLoading := isLoading st; serverUrl := serverUrl st;
     selectedModel := selectedModel st; localModels := localModels st;
     error := error st |}.

Definition setInput (v : jsstring) (st : ChatState) :=
  {| messages := messages st; input := v; isLoading := isLoading st;
     serverUrl := serverUrl st; selectedModel := selectedModel st;
     localModels := localModels st; error := error st |}.

Definition setIsLoading (v : bool) (st : ChatState) :=
  {| messages := messages st; input := input st; isLoading := v;
     serverUrl := serverUrl st; selectedModel := selectedModel st;
     localModels := localModels st; error := error st |}.

Definition setServerUrl (v : jsstring) (st : ChatState) :=
  {| messages := messages st; input := input st; isLoading := isLoading st;
     serverUrl := v; selectedModel := selectedModel st;
     localModels := localModels st; error := error st |}.

Definition setSelectedModel (v : jsstring) (st : ChatState) :=
  {| messages := messages st; input := input st; isLoading := isLoading st;
     serverUrl := serverUrl st; selectedModel := v;
     localModels := localModels st; error := error st |}.

Definition setLocalModels (v : json) (st : ChatState) :=
  {| messages := messages st; input := input st; isLoading := isLoading st;
     serverUrl := serverUrl st; selectedModel := selectedModel st;
     localModels := v; error := error st |}.

Definition setError (v : option jsstring) (st : ChatState) :=
  {| messages := messages st; input := input st; isLoading := isLoading st;
     serverUrl := serverUrl st; selectedModel := selectedModel st;
     localModels := localModels st; error := v |}.

Definition models_error_text : jsstring :=
  str "Unable to connect to Ollama server or fetch models. Please ensure:"
  ++ [10] ++ str "1. Ollama server is running (ollama serve --cors)"
  ++ [10] ++ str "2. Server URL is correct and accessible"
  ++ [10] ++ str "3. Check server logs for errors if issues persist."
  ++ [10] ++ str "4. The server URL in settings matches your Ollama server".

(** The function passed to [setMessages] after a fragment.  React calls it
    with the latest transcript, and it reads the variable
    [assistantMessageContent] when it is called.  The handlers below apply
    it at once; [run_batches] further down lets React call the functions
    queued since its last render together, after the last of them was
    queued, and more than once. *)
Definition updater (assistantMessageContent : jsstring)
    (prevMessages : list Message) : list Message :=
  let updatedMessages := prevMessages in
  match last updatedMessages with
  | Some lastMessage =>
      if is_assistant lastMessage
         && negb (startsWith (content lastMessage) assistantMessageContent)
      then <[(length updatedMessages - 1)%nat :=
               {| role := role lastMessage;
                  content := assistantMessageContent |}]> updatedMessages
      else if negb (is_assistant lastMessage)
      then updatedMessages
             ++ [{| role := assistant; content := assistantMessageContent |}]
      else prevMessages
  | None =>
      updatedMessages
        ++ [{| role := assistant; content := assistantMessageContent |}]
  end.

(** The constant [finalUrl] of [loadServerConfig]. *)
Definition finalUrl (p : Platform) (url : jsstring) : jsstring :=
  if bool_decide (protocol p = str "https:")
  then replace url (str "http:") (str "https:")
  else url.

(** How the read loop was left: by the [return] after a [done] event, by
    the [break] at the end of the stream, or by an exception. *)
Inductive loop_exit :=
  | Returned
  | Finished
  | Threw (e : thrown).

Record loop_result := {
  assistantMessageContent : jsstring;
  state : ChatState;
  exit : loop_exit;
  reads : nat      (* the calls of [reader.read()] that were made *)
}.

Section WithEngine.
Context (engine : Engine).

(** [fetchLocalModels(url)]: the state after it, its effects, and the
    value it returns. *)
Definition fetchLocalModels (url : jsstring) (net : fetch_outcome)
    (st : ChatState) : ChatState * list effect * json :=
  let st := setError None (setIsLoading true st) in
  let request :=
    Fetch (GET (url ++ str "/api/tags") [("Accept", "application/json")]) in
  let tried : completion (option json) :=
    match net with
    | FetchRejects e => Throw e
    | FetchResponse ok status body =>
        if negb ok then
          Throw (ErrorObject
                   (str "Failed to fetch local models: " ++ status_text status))
        else
          match Response_json engine body with
          | Throw e => Throw e
          | Normal data =>
              if truthy data then
                match get_property engine data (str "models") with
                | Throw e => Throw e
                | Normal models =>
                    if truthy_opt models then Normal models else Normal None
                end
              else Normal None
          end
    end in
  match tried with
  | Normal (Some models) =>
      (setIsLoading false (setLocalModels models st), [request], models)
  | Normal None => (setIsLoading false st, [request], JArr [])
  | Throw _ =>
      (setIsLoading false (setError (Some models_error_text) st),
       [request; Toast "Error" true], JArr [])
  end.

(** [loadServerConfig()], run by the effect of the first render; [st]
    is the state of the render whose closure it is. *)
Definition loadServerConfig (p : Platform) (net : fetch_outcome)
    (st : ChatState) : ChatState * list effect :=
  let failed st' :=
    setError
      (Some (str "Failed to load configuration. Please check settings and server connection."))
      st' in
  match Preferences_get p "ollama_server_url" with
  | Throw _ => (failed st, [])
  | Normal url =>
      match Preferences_get p "ollama_model" with
      | Throw _ => (failed st, [])
      | Normal model =>
          if negb (present url) || negb (present model) then
            (st, [Navigate "/settings"; Toast "Configuration Required" true])
          else
            let url := default [] url in
            let model := default [] model in
            let st1 := setServerUrl (finalUrl p url) st in
            let '(st2, effects, fetchedModels) :=
              fetchLocalModels (finalUrl p url) net st1 in
            match length_positive engine fetchedModels with
            | Throw _ => (failed st2, effects)
            | Normal true =>
                (setError None (setSelectedModel model st2), effects)
            | Normal false =>
                if negb (present (error st)) then
                  (setError
                     (Some (str "Could not retrieve model list from server."))
                     st2, effects)
                else (st2, effects)
            end
      end
  end.

(** The [if] of the loop body: the text to append, [None] when the
    event has no truthy [message.content]. *)
Definition fragment (parsedData : json) : completion (option jsstring) :=
  match get_property engine parsedData (str "message") with
  | Throw e => Throw e
  | Normal None => Normal None
  | Normal (Some message) =>
      if truthy message then
        match get_property engine message (str "content") with
        | Throw e => Throw e
        | Normal None => Normal None
        | Normal (Some content) =>
            if truthy content then
              match ToString engine content with
              | Throw e => Throw e
              | Normal text => Normal (Some text)
              end
            else Normal None
        end
      else Normal None
  end.

(** One line of a chunk: the accumulator and the state after it, and
    whether [sendMessage] returns there.  An exception inside the [try]
    goes to its [catch], which continues with the next line. *)
Definition processLine (acc : jsstring) (st : ChatState) (line : jsstring)
  : jsstring * ChatState * bool :=
  match JSON_parse line with
  | None => (acc, st, false)
  | Some parsedData =>
      match fragment parsedData with
      | Throw _ => (acc, st, false)
      | Normal frag =>
          let '(acc', st') :=
            match frag with
            | Some text =>
                (acc ++ text, setMessages (updater (acc ++ text)) st)
            | None => (acc, st)
            end in
          match get_property engine parsedData (str "done") with
          | Throw _ => (acc', st', false)
          | Normal done =>
              if truthy_opt done then (acc', setIsLoading false st', true)
              else (acc', st', false)
          end
      end
  end.

(** [for (const line of lines)] *)
Fixpoint processLines (acc : jsstring) (st : ChatState)
    (lines : list jsstring) : jsstring * ChatState * bool :=
  match lines with
  | [] => (acc, st, false)
  | line :: lines' =>
      let '(acc', st', returned) := processLine acc st line in
      if returned then (acc', st', true) else processLines acc' st' lines'
  end.

(** [while (true)] over the reads of the body. *)
Fixpoint readLoop (acc : jsstring) (st : ChatState)
    (values : list (list Byte.byte)) (e : stream_end) : loop_result :=
  match values with
  | [] =>
      {| assistantMessageContent := acc; state := st;
         exit := match e with
                 | EndOfStream => Finished
                 | ReadThrows x => Threw x
                 end;
         reads := 1 |}
  | value :: values' =>
      let chunk := TextDecoder_decode value in
      let '(acc', st', returned) := processLines acc st (lines_of chunk) in
      if returned then
        {| assistantMessageContent := acc'; state := st';
           exit := Returned; reads := 1 |}
      else
        let r := readLoop acc' st' values' e in
        {| assistantMessageContent := assistantMessageContent r;
           state := state r; exit := exit r; reads := S (reads r) |}
  end.

(** The [catch] and the [finally] of [sendMessage]. *)
Definition caught (e : thrown) (st : ChatState) : ChatState * list effect :=
  (setIsLoading false
     (setError (Some (errorMessage_of e)) (setIsLoading false st)),
   [Toast "Error" true]).

(** [sendMessage()] after the response has arrived. *)
Definition sendMessage_response (net : fetch_outcome) (st : ChatState)
  : ChatState * list effect :=
  match net with
  | FetchRejects e => caught e st
  | FetchResponse ok status body =>
      match (if ok then body else None) with
      | None =>
          caught (ErrorObject (str "HTTP error! status: " ++ status_text status))
                 (setIsLoading false st)
      | Some b =>
          let r := readLoop [] st (chunks b) (ending b) in
          match exit r with
          | Returned | Finished => (setIsLoading false (state r), [])
          | Threw e => caught e (state r)
          end
      end
  end.
End WithEngine.

(** [sendMessage()] up to its first [await]: [None] when the guard
    returns at once, else the state after the four setters and the
    request given to [fetch]. *)
Definition sendMessage_begin (st : ChatState) : option (ChatState * request) :=
  if negb (nonempty (trim (input st))) || negb (nonempty (serverUrl st))
     || negb (nonempty (selectedModel st))
  then None
  else
    let userMessage := {| role := user; content := trim (input st) |} in
    Some (setError None
            (setIsLoading true
               (setInput []
                  (setMessages (fun prev => prev ++ [userMessage]) st))),
          POST (serverUrl st ++ str "/api/chat")
               [("Content-Type", "application/json");
                ("Accept", "application/json")]
               {| model := selectedModel st;
                  body_messages := messages st ++ [userMessage];
                  stream := Some true |}).

(** A whole turn. *)
Definition sendMessage (engine : Engine) (st : ChatState) (net : fetch_outcome)
  : ChatState * list effect :=
  match sendMessage_begin st with
  | None => (st, [])
  | Some (st1, r) =>
      let '(st2, effects) := sendMessage_response engine net st1 in
      (st2, Fetch r :: effects)
  end.

(** [handleModelSelect(modelName)].  [Preferences.set] is called without
    [await] and outside any [try]: whether it resolves changes nothing in
    the handler, which shows its toast in both cases.  [model_written]
    tells whether the write was done; a write that is rejected leaves the
    store as it was. *)
Definition handleModelSelect (model_written : bool) (modelName : jsstring)
    (st : ChatState) : ChatState * list effect :=
  (setSelectedModel modelName st,
   (if model_written then [PreferencesSet "ollama_model" modelName] else [])
   ++ [Toast "Model Changed" false]).

(** The model selector of the render: nothing when [localModels.length > 0]
    is false, else the values [localModels.map(model => model.name)] lists;
    [None] when evaluating it throws (the length cannot be compared, the
    value has no method [map], or an item is [null]), which takes the
    screen down. *)
Definition selector (engine : Engine) (localModels : json)
  : option (list (option json)) :=
  match length_positive engine localModels with
  | Throw _ => None
  | Normal false => Some []
  | Normal true =>
      match localModels with
      | JArr items =>
          mapM (fun m =>
                  match get_property engine m (str "name") with
                  | Normal name => Some name
                  | Throw _ => None
                  end) items
      | _ => None
      end
  end.

(** The [disabled] attribute of the send button. *)
Definition disabled (st : ChatState) : bool :=
  isLoading st || negb (nonempty (trim (input st))).

(** A click on the send button: a disabled button gets no click. *)
Definition onClick (st : ChatState) : option (ChatState * request) :=
  if disabled st then None else sendMessage_begin st.

(** [onKeyPress] of the input field. *)
Definition onKeyPress (key : string) (st : ChatState)
  : option (ChatState * request) :=
  if bool_decide (key = "Enter"%string) then sendMessage_begin st else None.

(** [onChange] of the input field. *)
Definition onChange (value : jsstring) (st : ChatState) : ChatState :=
  setInput value st.

End StreamingChat.

(** ** The simple chat screen, [src/pages/Chat.tsx] *)

Module SimpleChat.

Record ChatState := {
  messages : list Message;
  input : jsstring;
  isLoading : bool;
  serverUrl : jsstring;
  selectedModel : jsstring;
  error : option jsstring
}.

Definition initialState : ChatState :=
  {| messages := []; input := []; isLoading := false; serverUrl := [];
     selectedModel := []; error := None |}.

Definition setMessages (f : list Message -> list Message) (st : ChatState) :=
  {| messages := f (messages st); input := input st;
     isLoading := isLoading st; serverUrl := serverUrl st;
     selectedModel := selectedModel st; error := error st |}.

Definition setInput (v : jsstring) (st : ChatState) :=
  {| messages := messages st; input := v; isLoading := isLoading st;
     serverUrl := serverUrl st; selectedModel := selectedModel st;
     error := error st |}.

Definition setIsLoading (v : bool) (st : ChatState) :=
  {| messages := messages st; input := input st; isLoading := v;
     serverUrl := serverUrl st; selectedModel := selectedModel st;
     error := error st |}.

Definition setServerUrl (v : jsstring) (st : ChatState) :=
  {| messages := messages st; input := input st; isLoading := isLoading st;
     serverUrl := v; selectedModel := selectedModel st; error := error st |}.

Definition setSelectedModel (v : jsstring) (st : ChatState) :=
  {| messages := messages st; input := input st; isLoading := isLoading st;
     serverUrl := serverUrl st; selectedModel := v; error := error st |}.

Definition setError (v : option jsstring) (st : ChatState) :=
  {| messages := messages st; input := input st; isLoading := isLoading st;
     serverUrl := serverUrl st; selectedModel := selectedModel st;
     error := v |}.

Definition connect_error_text : jsstring :=
  str "Unable to connect to the Ollama server. Please check:"
  ++ [10] ++ str "1. The server URL is correct"
  ++ [10] ++ str "2. The server is running"
  ++ [10] ++ str "3. CORS is enabled on the server".

(** [loadServerConfig()]; its [catch] only logs. *)
Definition loadServerConfig (p : Platform) (st : ChatState)
  : ChatState * list effect :=
  match Preferences_get p "ollama_server_url" with
  | Throw _ => (st, [])
  | Normal url =>
      match Preferences_get p "ollama_model" with
      | Throw _ => (st, [])
      | Normal model =>
          let st1 :=
            if present url then setServerUrl (default [] url) st else st in
          let st2 :=
            if present model then setSelectedModel (default [] model) st1
            else st1 in
          if negb (present url) || negb (present model) then
            (st2, [Navigate "/settings"; Toast "Configuration Required" true])
          else (st2, [])
      end
  end.

(** [sendMessage()] up to its first [await]. *)
Definition sendMessage_begin (st : ChatState) : option (ChatState * request) :=
  if negb (nonempty (trim (input st))) || negb (nonempty (serverUrl st))
     || negb (nonempty (selectedModel st))
  then None
  else
    let userMessage := {| role := user; content := trim (input st) |} in
    Some (setError None
            (setIsLoading true
               (setInput []
                  (setMessages (fun prev => prev ++ [userMessage]) st))),
          POST (serverUrl st ++ str "/api/chat")
               [("Content-Type", "application/json")]
               {| model := selectedModel st;
                  body_messages :=
                    [{| role := user; content := content userMessage |}];
                  stream := None |}).

(** The [catch] and the [finally] of [sendMessage]. *)
Definition caught (e : thrown) (st : ChatState) : ChatState * list effect :=
  let errorMessage := errorMessage_of e in
  let st1 := setError (Some errorMessage) st in
  let st2 :=
    if includes errorMessage (str "Failed to fetch")
    then setError (Some connect_error_text) st1
    else st1 in
  (setIsLoading false st2, [Toast "Error" true]).

Section WithEngine.
Context (engine : Engine).

(** The shape test on the parsed body: the content when
    [data.message] is truthy and [data.message.content] is a string. *)
Definition validate (data : json) : completion (option jsstring) :=
  match get_property engine data (str "message") with
  | Throw e => Throw e
  | Normal None => Normal None
  | Normal (Some message) =>
      if truthy message then
        match get_property engine message (str "content") with
        | Throw e => Throw e
        | Normal (Some (JStr text)) => Normal (Some text)
        | Normal _ => Normal None
        end
      else Normal None
  end.

(** [sendMessage()] after the response has arrived. *)
Definition sendMessage_response (net : fetch_outcome) (st : ChatState)
  : ChatState * list effect :=
  match net with
  | FetchRejects e => caught e st
  | FetchResponse ok status body =>
      if negb ok then
        caught (ErrorObject (str "HTTP error! status: " ++ status_text status))
               st
      else
        match Response_text body with
        | Throw e => caught e st
        | Normal responseText =>
            match JSON_parse responseText with
            | None =>
                caught (ErrorObject
                          (str "Failed to parse response: "
                           ++ SyntaxError_message engine responseText)) st
            | Some data =>
                match validate data with
                | Throw e => caught e st
                | Normal None =>
                    caught (ErrorObject
                              (str "Invalid response format from server")) st
                | Normal (Some text) =>
                    (setIsLoading false
                       (setMessages
                          (fun prev =>
                             prev ++ [{| role := assistant; content := text |}])
                          st), [])
                end
            end
        end
  end.

(** A whole turn. *)
Definition sendMessage (st : ChatState) (net : fetch_outcome)
  : ChatState * list effect :=
  match sendMessage_begin st with
  | None => (st, [])
  | Some (st1, r) =>
      let '(st2, effects) := sendMessage_response net st1 in
      (st2, Fetch r :: effects)
  end.
End WithEngine.

(** The [disabled] attribute of the send button. *)
Definition disabled (st : ChatState) : bool :=
  isLoading st || negb (nonempty (trim (input st))).

Definition onClick (st : ChatState) : option (ChatState * request) :=
  if disabled st then None else sendMessage_begin st.

Definition onKeyPress (key : string) (st : ChatState)
  : option (ChatState * request) :=
  if bool_decide (key = "Enter"%string) then sendMessage_begin st else None.

End SimpleChat.

(** ** The settings screen, [src/pages/Settings.tsx] *)

Module Settings.

(** The state variables of the component [Settings].  The items of
    [availableModels] are what [m.name] gave, [None] being [undefined]. *)
Record SettingsState := {
  serverUrl : jsstring;
  modelName : jsstring;
  availableModels : list (option json);
  isLoading : bool
}.

Definition initialState : SettingsState :=
  {| serverUrl := []; modelName := []; availableModels := [];
     isLoading := false |}.

Definition setServerUrl (v : jsstring) (st : SettingsState) :=
  {| serverUrl := v; modelName := modelName st;
     availableModels := availableModels st; isLoading := isLoading st |}.

Definition setModelName (v : jsstring) (st : SettingsState) :=
  {| serverUrl := serverUrl st; modelName := v;
     availableModels := availableModels st; isLoading := isLoading st |}.

Definition setAvailableModels (v : list (option json)) (st : SettingsState) :=
  {| serverUrl := serverUrl st; modelName := modelName st;
     availableModels := v; isLoading := isLoading st |}.

Definition setIsLoading (v : bool) (st : SettingsState) :=
  {| serverUrl := serverUrl st; modelName := modelName st;
     availableModels := availableModels st; isLoading := v |}.

Section WithEngine.
Context (engine : Engine).

(** [data.models.map((m: any) => m.name)], [None] where it throws: when
    [data] is [null], when [data.models] is not an array (it is then
    [undefined], [null], or a value without a method [map]), or when an
    item is [null]. *)
Definition model_names (data : json) : option (list (option json)) :=
  match get_property engine data (str "models") with
  | Normal (Some (JArr items)) =>
      mapM (fun m =>
              match get_property engine m (str "name") with
              | Normal name => Some name
              | Throw _ => None
              end) items
  | _ => None
  end.

(** [fetchModels(url)]: its [catch] does not look at what was thrown. *)
Definition fetchModels (url : jsstring) (net : fetch_outcome)
    (st : SettingsState) : SettingsState * list effect :=
  let st := setIsLoading true st in
  let request := Fetch (GET (url ++ str "/api/tags") []) in
  let tried : option (list (option json)) :=
    match net with
    | FetchRejects _ => None
    | FetchResponse ok status body =>
        if negb ok then None
        else
          match Response_json engine body with
          | Throw _ => None
          | Normal data => model_names data
          end
    end in
  match tried with
  | Some names => (setIsLoading false (setAvailableModels names st), [request])
  | None => (setIsLoading false st, [request; Toast "Error" true])
  end.

(** [loadSettings()], run by the effect of the first render.  It has no
    [try]: a read of the preferences that throws ends it there. *)
Definition loadSettings (p : Platform) (net : fetch_outcome)
    (st : SettingsState) : SettingsState * list effect :=
  match Preferences_get p "ollama_server_url" with
  | Throw _ => (st, [])
  | Normal url =>
      match Preferences_get p "ollama_model" with
      | Throw _ => (st, [])
      | Normal model =>
          let '(st1, effects) :=
            if present url then
              fetchModels (default [] url) net (setServerUrl (default [] url) st)
            else (st, []) in
          (if present model then setModelName (default [] model) st1 else st1,
           effects)
      end
  end.
End WithEngine.

(** [saveSettings()]; [url_written] and [model_written] tell whether the
    first and the second [Preferences.set] resolve.  The second is only
    called after the first has resolved. *)
Definition saveSettings (url_written model_written : bool)
    (st : SettingsState) : SettingsState * list effect :=
  if negb (nonempty (trim (serverUrl st)))
     || negb (nonempty (trim (modelName st)))
  then (st, [Toast "Error" true])
  else if negb url_written then (st, [Toast "Error" true])
  else if negb model_written then
    (st, [PreferencesSet "ollama_server_url" (trim (serverUrl st));
          Toast "Error" true])
  else
    (st, [PreferencesSet "ollama_server_url" (trim (serverUrl st));
          PreferencesSet "ollama_model" (trim (modelName st));
          Toast "Success" false;
          Navigate "/chat"]).

End Settings.

(** ** Vocabulary of the statements *)

(** What one line of the stream amounts to for the read loop: nothing when
    the [try] around it ends in its [catch], else the text it appends (if
    any) and whether it carries a truthy [done]. *)
Inductive event :=
  | Skipped
  | Event (text : option jsstring) (done : bool).

Definition line_event (engine : Engine) (line : jsstring) : event :=
  match JSON_parse line with
  | None => Skipped
  | Some parsedData =>
      match StreamingChat.fragment engine parsedData with
      | Throw _ => Skipped
      | Normal text =>
          match get_property engine parsedData (str "done") with
          | Throw _ => Event text false
          | Normal done => Event text (truthy_opt done)
          end
      end
  end.

(** The texts delivered by a sequence of events, up to and including the
    first event that is [done]. *)
Fixpoint delivered (events : list event) : list jsstring :=
  match events with
  | [] => []
  | Skipped :: events' => delivered events'
  | Event text done :: events' =>
      match text with Some t => [t] | None => [] end
      ++ (if done then [] else delivered events')
  end.

(** Whether some event is [done]. *)
Fixpoint completed (events : list event) : bool :=
  match events with
  | [] => false
  | Skipped :: events' => completed events'
  | Event _ done :: events' => done || completed events'
  end.

(** The transcript when React runs the queued updates batch by batch.  A
    batch is the texts appended between two renders; each text queued one
    update, and when the batch is run every update of it sees the text
    accumulated at the end of the batch. *)
Fixpoint run_batches (acc : jsstring) (msgs : list Message)
    (batches : list (list jsstring)) : list Message :=
  match batches with
  | [] => msgs
  | batch :: batches' =>
      let acc' := acc ++ concat batch in
      run_batches acc'
        (Nat.iter (length batch) (StreamingChat.updater acc') msgs) batches'
  end.

(** The lines the read loop sees: those of each chunk, decoded and split
    on its own. *)
Definition stream_lines (values : list (list Byte.byte)) : list jsstring :=
  flat_map (fun value => lines_of (TextDecoder_decode value)) values.

(** The assistant entry a turn adds for the texts it was delivered. *)
Definition assistant_entry (texts : list jsstring) : list Message :=
  match texts with
  | [] => []
  | _ :: _ => [{| role := assistant; content := concat texts |}]
  end.

(** The model-list fetch fails: the request is rejected, the status is not
    a success, or the body is not JSON with a truthy [models]. *)
Inductive models_fetch_fails (engine : Engine) : fetch_outcome -> Prop :=
  | tags_rejected e :
      models_fetch_fails engine (FetchRejects e)
  | tags_status status body :
      models_fetch_fails engine (FetchResponse false status body)
  | tags_unreadable status body e :
      Response_json engine body = Throw e ->
      models_fetch_fails engine (FetchResponse true status body)
  | tags_falsy status body data :
      Response_json engine body = Normal data ->
      truthy data = false ->
      models_fetch_fails engine (FetchResponse true status body)
  | tags_no_models status body data models :
      Response_json engine body = Normal data ->
      get_property engine data (str "models") = Normal models ->
      truthy_opt models = false ->
      models_fetch_fails engine (FetchResponse true status body).

(** The model-list fetch delivers [models]: the response is a success
    whose body is the JSON text of a truthy value with a truthy [models].
    Every outcome of the fetch either fails in the sense above or delivers
    some value. *)
Inductive models_fetched (engine : Engine) : fetch_outcome -> json -> Prop :=
  | tags_models status body data models :
      Response_json engine body = Normal data ->
      truthy data = true ->
      get_property engine data (str "models") = Normal (Some models) ->
      truthy models = true ->
      models_fetched engine (FetchResponse true status body) models.

(** An item of the model list is as [interface LocalModel] says, for what
    the screen reads of it: an object whose [name] is a string, and one
    that is not empty, the selector using it as the value of an item. *)
Definition is_LocalModel (item : json) : bool :=
  match item with
  | JObj fields =>
      match own_property (str "name") fields with
      | Some (JStr name) => nonempty name
      | _ => false
      end
  | _ => false
  end.

(** An item of [availableModels] is as its type [string[]] says. *)
Definition is_string_name (name : option json) : bool :=
  match name with
  | Some (JStr _) => true
  | _ => false
  end.

(** The functions the streaming screen passes to [setMessages]: the one
    that appends the user message of a turn, and the one that folds the
    text a turn has accumulated.  React applies each to the transcript it
    holds then, so whatever the turns in flight and however their steps
    interleave, the transcript goes through a sequence of these. *)
Inductive transcript_update :=
  | AppendUser (text : jsstring)
  | FoldText (assistantMessageContent : jsstring).

Definition apply_update (msgs : list Message) (u : transcript_update)
  : list Message :=
  match u with
  | AppendUser text => msgs ++ [{| role := user; content := text |}]
  | FoldText acc => StreamingChat.updater acc msgs
  end.

Definition apply_updates (msgs : list Message) (us : list transcript_update)
  : list Message :=
  foldl apply_update msgs us.

(** A chat request fails before any of its body is read: it is rejected,
    or answered with a status that is not a success, or without body. *)
Inductive request_fails : fetch_outcome -> Prop :=
  | chat_rejected e :
      request_fails (FetchRejects e)
  | chat_status status body :
      request_fails (FetchResponse false status body)
  | chat_no_body ok status :
      request_fails (FetchResponse ok status None).

(** A turn of the simple chat screen fails: the request is rejected, the
    status is not a success, the body cannot be read or parsed, or the
    parsed body has no [message] with a string [content]. *)
Inductive simple_turn_fails (engine : Engine) : fetch_outcome -> Prop :=
  | simple_rejected e :
      simple_turn_fails engine (FetchRejects e)
  | simple_status status body :
      simple_turn_fails engine (FetchResponse false status body)
  | simple_unread status body e :
      Response_text body = Throw e ->
      simple_turn_fails engine (FetchResponse true status body)
  | simple_unparseable status body text :
      Response_text body = Normal text ->
      JSON_parse text = None ->
      simple_turn_fails engine (FetchResponse true status body)
  | simple_no_message status body text data message :
      Response_text body = Normal text ->
      JSON_parse text = Some data ->
      get_property engine data (str "message") = Normal message ->
      truthy_opt message = false ->
      simple_turn_fails engine (FetchResponse true status body)
  | simple_null status body text data e :
      Response_text body = Normal text ->
      JSON_parse text = Some data ->
      get_property engine data (str "message") = Throw e ->
      simple_turn_fails engine (FetchResponse true status body)
  | simple_content status body text data message content :
      Response_text body = Normal text ->
      JSON_parse text = Some data ->
      get_property engine data (str "message") = Normal (Some message) ->
      truthy message = true ->
      get_property engine message (str "content") = Normal content ->
      (forall s, content <> Some (JStr s)) ->
      simple_turn_fails engine (FetchResponse true status body).

(** ** Inputs of the examples *)

(** The lines of the stream of three events: a fragment [a], a fragment
    [b], and the completion. *)
Definition line_a : jsstring := strq "{'message':{'content':'a'}}".
Definition line_b : jsstring := strq "{'message':{'content':'b'}}".
Definition line_done : jsstring := strq "{'done':true}".

(** A line that is not JSON. *)
Definition line_bad : jsstring := strq "{'message':".

(** A chunk holding one line: its bytes and a line feed. *)
Definition chunk_of (line : string) : list Byte.byte :=
  bytesq line ++ [Byte.x0a].

Definition chunk_a : list Byte.byte := chunk_of "{'message':{'content':'a'}}".
Definition chunk_b : list Byte.byte := chunk_of "{'message':{'content':'b'}}".
Definition chunk_done : list Byte.byte := chunk_of "{'done':true}".
Definition chunk_bad : list Byte.byte := chunk_of "{'message':".

(** One line in one chunk, and the same bytes cut in two inside the
    line. *)
Definition chunk_hi : list Byte.byte := chunk_of "{'message':{'content':'hi'}}".
Definition chunk_hi_1 : list Byte.byte := bytesq "{'message':{'con".
Definition chunk_hi_2 : list Byte.byte := chunk_of "tent':'hi'}}".

(** A line whose content is the letter e with acute accent, bytes C3 A9,
    and the same bytes cut between the two. *)
Definition chunk_e_acute : list Byte.byte :=
  bytesq "{'message':{'content':'" ++ [Byte.xc3; Byte.xa9]
  ++ bytesq "'}}" ++ [Byte.x0a].
Definition chunk_e_acute_1 : list Byte.byte :=
  bytesq "{'message':{'content':'" ++ [Byte.xc3].
Definition chunk_e_acute_2 : list Byte.byte :=
  [Byte.xa9] ++ bytesq "'}}" ++ [Byte.x0a].

(** A response that streams the given chunks and ends. *)
Definition streamed (values : list (list Byte.byte)) : fetch_outcome :=
  FetchResponse true 200 (Some {| chunks := values; ending := EndOfStream |}).

(** The streaming screen, configured, with [hi] typed in. *)
Definition ready : StreamingChat.ChatState :=
  {| StreamingChat.messages := [];
     StreamingChat.input := str "hi";
     StreamingChat.isLoading := false;
     StreamingChat.serverUrl := str "http://localhost:11434";
     StreamingChat.selectedModel := str "llama3";
     StreamingChat.localModels := JArr [];
     StreamingChat.error := None |}.

(** The same screen after one exchange, with a second input typed in. *)
Definition second_turn : StreamingChat.ChatState :=
  {| StreamingChat.messages :=
       [{| role := user; content := str "hi" |};
        {| role := assistant; content := str "hello" |}];
     StreamingChat.input := str "more";
     StreamingChat.isLoading := false;
     StreamingChat.serverUrl := str "http://localhost:11434";
     StreamingChat.selectedModel := str "llama3";
     StreamingChat.localModels := JArr [];
     StreamingChat.error := None |}.

(** The screen while its first turn is in flight, with [again] typed
    in. *)
Definition in_flight : StreamingChat.ChatState :=
  {| StreamingChat.messages := [{| role := user; content := str "hi" |}];
     StreamingChat.input := str "again";
     StreamingChat.isLoading := true;
     StreamingChat.serverUrl := str "http://localhost:11434";
     StreamingChat.selectedModel := str "llama3";
     StreamingChat.localModels := JArr [];
     StreamingChat.error := None |}.

(** The simple screen in the same two situations. *)
Definition simple_ready : SimpleChat.ChatState :=
  {| SimpleChat.messages := [];
     SimpleChat.input := str "hi";
     SimpleChat.isLoading := false;
     SimpleChat.serverUrl := str "http://localhost:11434";
     SimpleChat.selectedModel := str "llama3";
     SimpleChat.error := None |}.

Definition simple_second_turn : SimpleChat.ChatState :=
  {| SimpleChat.messages :=
       [{| role := user; content := str "hi" |};
        {| role := assistant; content := str "hello" |}];
     SimpleChat.input := str "more";
     SimpleChat.isLoading := false;
     SimpleChat.serverUrl := str "http://localhost:11434";
     SimpleChat.selectedModel := str "llama3";
     SimpleChat.error := None |}.

(** A store with both settings, one with the server URL only, and hosts
    around them, served over http or over https. *)
Definition configured : gmap string jsstring :=
  <["ollama_server_url"%string := str "http://localhost:11434"]>
    (<["ollama_model"%string := str "llama3"]> ∅).

Definition url_only : gmap string jsstring :=
  <["ollama_server_url"%string := str "http://localhost:11434"]> ∅.

Definition host (store : gmap string jsstring) (scheme : string) : Platform :=
  {| preferences := store; preferences_readable := true;
     protocol := str scheme |}.

(** A model list as the server sends it. *)
Definition tags_body : fetch_outcome :=
  streamed [bytesq "{'models':[{'name':'llama3'}]}"].


(** A chunk whose event has the empty string as content. *)
Definition chunk_empty_content : list Byte.byte :=
  chunk_of "{'message':{'role':'assistant','content':''},'done':false}".

(** An input of white space only, and one with white space around its
    text. *)
Definition blank_text : jsstring := [0x20; 0x09; 0xA0; 0x20].
Definition padded_text : jsstring := str "  hi there  ".

(** ** Facts about strings *)

Lemma startsWith_refl (s : jsstring) : startsWith s s = true.
Proof. induction s as [|c s IH]; simpl; [done|]. by rewrite N.eqb_refl. Qed.

Lemma startsWith_length (s p : jsstring) :
  startsWith s p = true -> (length p <= length s)%nat.
Proof.
  revert s. induction p as [|b p IH]; intros s; [simpl; lia|].
  destruct s as [|a s]; simpl; [discriminate|].
  intros [_ H]%andb_true_iff. apply IH in H. lia.
Qed.

Lemma startsWith_app (s p t : jsstring) :
  (length p <= length s)%nat -> startsWith (s ++ t) p = startsWith s p.
Proof.
  revert s. induction p as [|b p IH]; intros s; [done|].
  destruct s as [|a s]; simpl; [lia|].
  intros H. rewrite IH; [done | lia].
Qed.

Lemma startsWith_own_extension (s t : jsstring) :
  startsWith s (s ++ t) = true -> t = [].
Proof.
  intros H%startsWith_length. rewrite length_app in H.
  destruct t; [done | simpl in H; lia].
Qed.

Lemma includes_cons_false (c : N) (s p : jsstring) :
  includes (c :: s) p = false -> startsWith (c :: s) p = false /\ includes s p = false.
Proof. simpl. intros H%orb_false_iff. done. Qed.

Lemma replace_unfold (s pat repl : jsstring) :
  replace s pat repl =
  if startsWith s pat then repl ++ drop (length pat) s
  else match s with
       | [] => []
       | c :: s' => c :: replace s' pat repl
       end.
Proof. by destruct s. Qed.

(** [replace] rewrites the first occurrence of the pattern: the one before
    which no occurrence starts. *)
Lemma replace_first (pre pat post repl : jsstring) :
  pat <> [] ->
  includes (pre ++ removelast pat) pat = false ->
  replace (pre ++ pat ++ post) pat repl = pre ++ repl ++ post.
Proof.
  intros Hpat. induction pre as [|c pre IH]; intros Hno.
  - rewrite replace_unfold. simpl.
    rewrite startsWith_app by done. rewrite startsWith_refl.
    by rewrite drop_app_length.
  - change ((c :: pre) ++ removelast pat) with (c :: (pre ++ removelast pat)) in Hno.
    apply includes_cons_false in Hno as [Hhere Hlater].
    assert (Hlen : (length pat <= length (c :: pre ++ removelast pat))%nat).
    { simpl. rewrite length_app.
      destruct pat as [|x pat' _] using rev_ind; [done|].
      rewrite removelast_last, length_app. simpl. lia. }
    assert (Hs : startsWith ((c :: pre) ++ pat ++ post) pat = false).
    { rewrite (app_removelast_last 0 Hpat) at 1.
      rewrite <- (app_assoc (removelast pat)), (app_assoc (c :: pre)).
      change ((c :: pre) ++ removelast pat) with (c :: pre ++ removelast pat).
      by rewrite startsWith_app. }
    rewrite replace_unfold, Hs. simpl. f_equal. by apply IH.
Qed.

Lemma replace_absent (s pat repl : jsstring) :
  includes s pat = false -> replace s pat repl = s.
Proof.
  induction s as [|c s IH]; simpl.
  - intros H%orb_false_iff. destruct H as [H _]. destruct pat; simpl in *; [done|done].
  - intros [H1 H2]%orb_false_iff. rewrite H1. f_equal. by apply IH.
Qed.

(** ** The transcript update *)

Section Updater.
Import StreamingChat.

Lemma updater_nil (a : jsstring) :
  updater a [] = [{| role := assistant; content := a |}].
Proof. done. Qed.

Lemma updater_push (a : jsstring) (msgs : list Message) (m : Message) :
  is_assistant m = false ->
  updater a (msgs ++ [m]) = msgs ++ [m; {| role := assistant; content := a |}].
Proof.
  intros Hm. unfold updater. rewrite last_snoc, Hm. simpl.
  by rewrite <- app_assoc.
Qed.

Lemma updater_replace (a c : jsstring) (msgs : list Message) :
  startsWith c a = false ->
  updater a (msgs ++ [{| role := assistant; content := c |}])
  = msgs ++ [{| role := assistant; content := a |}].
Proof.
  intros Hc. unfold updater. rewrite last_snoc. simpl. rewrite Hc. simpl.
  rewrite length_app. simpl.
  replace (length msgs + 1 - 1)%nat with (length msgs + 0)%nat by lia.
  by rewrite insert_app_r.
Qed.

Lemma updater_skip (a c : jsstring) (msgs : list Message) :
  startsWith c a = true ->
  updater a (msgs ++ [{| role := assistant; content := c |}])
  = msgs ++ [{| role := assistant; content := c |}].
Proof.
  intros Hc. unfold updater. rewrite last_snoc. simpl. by rewrite Hc.
Qed.

Lemma updater_extend (a t : jsstring) (msgs : list Message) :
  updater (a ++ t) (msgs ++ [{| role := assistant; content := a |}])
  = msgs ++ [{| role := assistant; content := a ++ t |}].
Proof.
  destruct (startsWith a (a ++ t)) eqn:Hc.
  - rewrite updater_skip by done.
    apply startsWith_own_extension in Hc. subst t. by rewrite app_nil_r.
  - by apply updater_replace.
Qed.

Lemma updater_idempotent (a : jsstring) (msgs : list Message) :
  updater a (updater a msgs) = updater a msgs.
Proof.
  destruct msgs as [|m0 msgs0] using rev_ind.
  - simpl. rewrite updater_nil. 
    change [ {| role := assistant; content := a |} ] with ([] ++ [ {| role := assistant; content := a |} ]).
    apply updater_skip, startsWith_refl.
  - clear IHmsgs0. destruct m0 as [[] c].
    + rewrite updater_push by done.
      change [ {| role := user; content := c |}; {| role := assistant; content := a |} ]
        with ([ {| role := user; content := c |} ] ++ [ {| role := assistant; content := a |} ]).
      rewrite app_assoc. apply updater_skip, startsWith_refl.
    + destruct (startsWith c a) eqn:Hc.
      * rewrite updater_skip by done. by apply updater_skip.
      * rewrite updater_replace by done. apply updater_skip, startsWith_refl.
Qed.

Lemma concat_snoc (ts : list jsstring) (t : jsstring) :
  concat (ts ++ [t]) = concat ts ++ t.
Proof. rewrite concat_app. simpl. by rewrite app_nil_r. Qed.

(** After the texts [ts] the transcript is the base followed by their
    assistant entry; one more text keeps it so. *)
Lemma updater_delivered (ts : list jsstring) (t : jsstring)
    (prev : list Message) (m : Message) :
  is_assistant m = false ->
  updater (concat ts ++ t) ((prev ++ [m]) ++ assistant_entry ts)
  = (prev ++ [m]) ++ assistant_entry (ts ++ [t]).
Proof.
  intros Hm. destruct ts as [|t0 ts].
  - simpl. rewrite app_nil_r, updater_push by done.
    rewrite app_nil_r. by rewrite <- app_assoc.
  - change (assistant_entry (t0 :: ts)) with [ {| role := assistant; content := concat (t0 :: ts) |} ].
    rewrite updater_extend. f_equal.
    change ((t0 :: ts) ++ [t]) with (t0 :: (ts ++ [t])).
    unfold assistant_entry. 
    rewrite <- concat_snoc. done.
Qed.
(** Run again with the same accumulated text, the update changes
    nothing more. *)
Lemma updater_batched (a : jsstring) (n : nat) (msgs : list Message) :
  Nat.iter (S n) (updater a) msgs = updater a msgs.
Proof.
  induction n as [|n IH]; [done|].
  change (Nat.iter (S (S n)) (updater a) msgs)
    with (updater a (Nat.iter (S n) (updater a) msgs)).
  by rewrite IH, updater_idempotent.
Qed.

Lemma updater_batch (ts batch : list jsstring) (prev : list Message)
    (m : Message) :
  is_assistant m = false ->
  Nat.iter (length batch) (updater (concat ts ++ concat batch))
    ((prev ++ [m]) ++ assistant_entry ts)
  = (prev ++ [m]) ++ assistant_entry (ts ++ batch).
Proof.
  intros Hm. destruct batch as [|t batch]; [simpl; by rewrite app_nil_r|].
  cbn [length]. rewrite updater_batched.
  assert (Hentry : assistant_entry (ts ++ t :: batch)
                   = [{| role := assistant;
                         content := concat ts ++ concat (t :: batch) |}]).
  { rewrite <- concat_app. by destruct ts. }
  rewrite Hentry. destruct ts as [|t0 ts].
  - cbn [assistant_entry]. rewrite app_nil_r, updater_push by done.
    by rewrite <- app_assoc.
  - apply updater_extend.
Qed.

(** However React groups the updates into batches, the transcript ends as
    the handlers, which apply each update at once, leave it: the base
    followed by the assistant entry of all the texts. *)
Lemma run_batches_delivered (batches : list (list jsstring))
    (ts : list jsstring) (prev : list Message) (m : Message) :
  is_assistant m = false ->
  run_batches (concat ts) ((prev ++ [m]) ++ assistant_entry ts) batches
  = (prev ++ [m]) ++ assistant_entry (ts ++ concat batches).
Proof.
  intros Hm. revert ts.
  induction batches as [|batch batches IH]; intros ts; simpl.
  - by rewrite app_nil_r.
  - rewrite updater_batch by done.
    rewrite <- concat_app, IH. by rewrite <- (app_assoc ts).
Qed.

End Updater.

(** ** The read loop *)

Section Fold.
Import StreamingChat.
Context (engine : Engine).

(** A line acts on the loop through its event alone. *)
Lemma processLine_event (acc : jsstring) (st : ChatState) (line : jsstring) :
  processLine engine acc st line =
  match line_event engine line with
  | Skipped => (acc, st, false)
  | Event text done =>
      let '(acc', st') :=
        match text with
        | Some t => (acc ++ t, setMessages (updater (acc ++ t)) st)
        | None => (acc, st)
        end in
      if done then (acc', setIsLoading false st', true) else (acc', st', false)
  end.
Proof.
  unfold processLine, line_event.
  destruct (JSON_parse line) as [d|]; [|done].
  destruct (fragment engine d) as [text|]; [|done].
  destruct (get_property engine d (str "done")) as [o|]; [|by destruct text].
  destruct text; by destruct (truthy_opt o).
Qed.

Lemma processLines_app (acc : jsstring) (st : ChatState)
    (lines1 lines2 : list jsstring) :
  processLines engine acc st (lines1 ++ lines2) =
  let '(acc', st', returned) := processLines engine acc st lines1 in
  if returned then (acc', st', true)
  else processLines engine acc' st' lines2.
Proof.
  revert acc st. induction lines1 as [|line lines1 IH]; intros acc st; [done|].
  simpl. destruct (processLine engine acc st line) as [[acc' st'] []]; [done|].
  apply IH.
Qed.

(** The loop over the lines, in terms of the events of the lines: with
    the texts [ts] delivered so far, it leaves the accumulator at the
    concatenation of all texts delivered, the transcript at the base
    followed by their assistant entry, and returns iff an event is
    [done]. *)
Lemma processLines_delivered (lines : list jsstring) (ts : list jsstring)
    (prev : list Message) (m : Message) (st : ChatState) :
  is_assistant m = false ->
  messages st = (prev ++ [m]) ++ assistant_entry ts ->
  let events := map (line_event engine) lines in
  processLines engine (concat ts) st lines =
  (concat (ts ++ delivered events),
   {| messages := (prev ++ [m]) ++ assistant_entry (ts ++ delivered events);
      input := input st;
      isLoading := if completed events then false else isLoading st;
      serverUrl := serverUrl st; selectedModel := selectedModel st;
      localModels := localModels st; error := error st |},
   completed events).
Proof.
  intros Hm. revert ts st.
  induction lines as [|line lines IH]; intros ts st Hst; simpl.
  - rewrite app_nil_r, <- Hst. by destruct st.
  - rewrite processLine_event.
    destruct (line_event engine line) as [|text done]; [by apply IH|].
    destruct text as [t|]; simpl.
    + destruct done; simpl.
      * rewrite concat_snoc. unfold setIsLoading, setMessages; simpl.
        by rewrite Hst, updater_delivered.
      * assert (Hst' : messages (setMessages (updater (concat ts ++ t)) st)
                       = (prev ++ [m]) ++ assistant_entry (ts ++ [t])).
        { simpl. by rewrite Hst, updater_delivered. }
        pose proof (IH (ts ++ [t]) _ Hst') as IH'.
        rewrite concat_snoc in IH'. rewrite IH'.
        by rewrite <- app_assoc.
    + destruct done; simpl.
      * rewrite app_nil_r, <- Hst. by destruct st.
      * by apply IH.
Qed.

(** The read loop sees the lines of the chunks one chunk after the
    other, and nothing else of the chunks. *)
Lemma readLoop_lines (values : list (list Byte.byte)) (e : stream_end)
    (acc : jsstring) (st : ChatState) :
  let r := readLoop engine acc st values e in
  let '(acc', st', returned) :=
    processLines engine acc st (stream_lines values) in
  assistantMessageContent r = acc' /\ state r = st'
  /\ exit r = if returned then Returned
              else match e with
                   | EndOfStream => Finished
                   | ReadThrows x => Threw x
                   end.
Proof.
  revert acc st. induction values as [|value values IH]; intros acc st; [done|].
  simpl. unfold stream_lines. simpl. rewrite processLines_app.
  destruct (processLines engine acc st (lines_of (TextDecoder_decode value)))
    as [[acc' st'] []]; [done|].
  simpl. apply IH.
Qed.

(** Once a [done] event is among the lines of [values], nothing after
    [values] is read. *)
Lemma readLoop_returned (values rest : list (list Byte.byte))
    (e e' : stream_end) (acc : jsstring) (st : ChatState) :
  (processLines engine acc st (stream_lines values)).2 = true ->
  readLoop engine acc st (values ++ rest) e = readLoop engine acc st values e'
  /\ (reads (readLoop engine acc st values e') <= length values)%nat.
Proof.
  revert acc st. induction values as [|value values IH]; intros acc st; [done|].
  unfold stream_lines. simpl. rewrite processLines_app.
  destruct (processLines engine acc st (lines_of (TextDecoder_decode value)))
    as [[acc' st'] []]; simpl; [intros _; split; [done|lia]|].
  intros H. destruct (IH _ _ H) as [-> Hr]. split; [done|lia].
Qed.
End Fold.

(** ** Whole turns of the streaming screen *)

Section StreamingTurn.
Import StreamingChat.
Context (engine : Engine).

(** What the synchronous part of [sendMessage] does when its guard lets
    it pass. *)
Lemma sendMessage_begin_Some (st st1 : ChatState) (r : request) :
  sendMessage_begin st = Some (st1, r) ->
  trim (input st) <> [] /\ serverUrl st <> [] /\ selectedModel st <> []
  /\ st1 = {| messages := messages st
                          ++ [{| role := user; content := trim (input st) |}];
              input := []; isLoading := true; serverUrl := serverUrl st;
              selectedModel := selectedModel st;
              localModels := localModels st; error := None |}
  /\ r = POST (serverUrl st ++ str "/api/chat")
              [("Content-Type", "application/json");
               ("Accept", "application/json")]
              {| model := selectedModel st;
                 body_messages :=
                   messages st
                   ++ [{| role := user; content := trim (input st) |}];
                 stream := Some true |}.
Proof.
  unfold sendMessage_begin.
  destruct (trim (input st)) eqn:Hi; [done|].
  destruct (serverUrl st) eqn:Hu; [done|].
  destruct (selectedModel st) eqn:Hm; [done|].
  simpl. intros [= <- <-]. repeat split; try done.
  unfold setError, setIsLoading, setInput, setMessages; simpl. by rewrite Hu, Hm.
Qed.

Lemma sendMessage_begin_ready (st : ChatState) :
  trim (input st) <> [] -> serverUrl st <> [] -> selectedModel st <> [] ->
  exists st1 r, sendMessage_begin st = Some (st1, r).
Proof.
  intros Hi Hu Hm. unfold sendMessage_begin.
  destruct (trim (input st)); [done|].
  destruct (serverUrl st); [done|].
  destruct (selectedModel st); [done|].
  simpl. eauto.
Qed.

(** A turn whose request is answered with a body: the transcript gains
    the user message and the assistant entry of the texts delivered; an
    error is reported only when a read is rejected before any [done]. *)
Lemma sendMessage_stream (st st1 : ChatState) (r : request)
    (status : N) (values : list (list Byte.byte)) (e : stream_end) :
  sendMessage_begin st = Some (st1, r) ->
  let events := map (line_event engine) (stream_lines values) in
  let final (err : option jsstring) :=
    {| messages := messages st1 ++ assistant_entry (delivered events);
       input := []; isLoading := false; serverUrl := serverUrl st;
       selectedModel := selectedModel st; localModels := localModels st;
       error := err |} in
  sendMessage engine st
    (FetchResponse true status (Some {| chunks := values; ending := e |}))
  = match (if completed events then EndOfStream else e) with
    | EndOfStream => (final None, [Fetch r])
    | ReadThrows x =>
        (final (Some (errorMessage_of x)), [Fetch r; Toast "Error" true])
    end.
Proof.
  intros Hb events final. unfold sendMessage. rewrite Hb.
  apply sendMessage_begin_Some in Hb as (_ & _ & _ & -> & _).
  unfold sendMessage_response. simpl.
  pose proof (readLoop_lines engine values e [] 
    {| messages := messages st ++ [{| role := user; content := trim (input st) |}];
       input := []; isLoading := true; serverUrl := serverUrl st;
       selectedModel := selectedModel st; localModels := localModels st;
       error := None |}) as Hr.
  simpl in Hr.
  rewrite (processLines_delivered engine (stream_lines values) []
             (messages st) {| role := user; content := trim (input st) |}) in Hr
    by (done || by rewrite app_nil_r).
  simpl in Hr. destruct Hr as (_ & Hs & He).
  rewrite He, Hs. subst final events. simpl.
  destruct (completed _); [done|]. by destruct e.
Qed.
End StreamingTurn.

(** ** The events of the example lines *)

Lemma line_a_event (engine : Engine) :
  line_event engine line_a = Event (Some (str "a")) false.
Proof. reflexivity. Qed.

Lemma line_b_event (engine : Engine) :
  line_event engine line_b = Event (Some (str "b")) false.
Proof. reflexivity. Qed.

Lemma line_done_event (engine : Engine) :
  line_event engine line_done = Event None true.
Proof. reflexivity. Qed.

Lemma malformed_line_event (engine : Engine) (line : jsstring) :
  JSON_parse line = None -> line_event engine line = Skipped.
Proof. intros H. unfold line_event. by rewrite H. Qed.

(** A line that is the JSON text of an object whose [message.content] is
    a non-empty string is a fragment carrying that string. *)
Lemma fragment_line_event (engine : Engine) (line text : jsstring)
    (members inner : list (jsstring * json)) :
  JSON_parse line = Some (JObj members) ->
  own_property (str "message") members = Some (JObj inner) ->
  own_property (str "content") inner = Some (JStr text) ->
  text <> [] ->
  line_event engine line
  = Event (Some text) (truthy_opt (own_property (str "done") members)).
Proof.
  intros Hp Hm Hc Ht. unfold line_event, StreamingChat.fragment.
  rewrite Hp. simpl. rewrite Hm. simpl. rewrite Hc. simpl.
  by destruct text.
Qed.

(** Lines that are all fragments deliver their texts, and none of them
    ends the turn. *)
Lemma fragments_delivered (engine : Engine) (lines texts : list jsstring) :
  Forall2 (fun line text => line_event engine line = Event (Some text) false)
          lines texts ->
  delivered (map (line_event engine) lines) = texts
  /\ completed (map (line_event engine) lines) = false.
Proof.
  induction 1 as [|line text lines texts Hl _ [IHd IHc]]; [done|].
  simpl. rewrite Hl. simpl. by rewrite IHd, IHc.
Qed.

Lemma stream_lines_app (values rest : list (list Byte.byte)) :
  stream_lines (values ++ rest) = stream_lines values ++ stream_lines rest.
Proof. apply flat_map_app. Qed.

(** ** The streaming fold *)

(** C3, completion termination.  A stream whose lines are the fragment
    [a], the fragment [b] and the completion, each whole inside a chunk,
    leaves exactly one assistant message, with content [ab], after the
    user message; the turn ends without error, and nothing that follows
    the completion is looked at: neither further lines [more] of the same
    chunk, nor further chunks [rest], nor the way the stream ends, and no
    read is made beyond the chunks that hold the three lines. *)
Theorem completion_termination (engine : Engine)
    (st st1 : StreamingChat.ChatState) (r : request) (status : N)
    (values rest : list (list Byte.byte)) (more : list jsstring)
    (e : stream_end) :
  StreamingChat.sendMessage_begin st = Some (st1, r) ->
  stream_lines values = [line_a; line_b; line_done] ++ more ->
  StreamingChat.sendMessage engine st
    (FetchResponse true status
       (Some {| chunks := values ++ rest; ending := e |}))
  = ({| StreamingChat.messages :=
          StreamingChat.messages st
          ++ [{| role := user; content := trim (StreamingChat.input st) |};
              {| role := assistant; content := str "ab" |}];
        StreamingChat.input := [];
        StreamingChat.isLoading := false;
        StreamingChat.serverUrl := StreamingChat.serverUrl st;
        StreamingChat.selectedModel := StreamingChat.selectedModel st;
        StreamingChat.localModels := StreamingChat.localModels st;
        StreamingChat.error := None |},
     [Fetch r])
  /\ (StreamingChat.reads
        (StreamingChat.readLoop engine [] st1 (values ++ rest) e)
      <= length values)%nat.
Proof.
  intros Hb Hl. split.
  - rewrite (sendMessage_stream engine st st1 r) by done.
    rewrite stream_lines_app, Hl. cbn [app map].
    rewrite line_a_event, line_b_event, line_done_event.
    cbn [delivered completed app orb assistant_entry concat].
    apply sendMessage_begin_Some in Hb as (_ & _ & _ & -> & _). simpl.
    by rewrite <- app_assoc.
  - apply sendMessage_begin_Some in Hb as (_ & _ & _ & Hst1 & _).
    destruct (readLoop_returned engine values rest e EndOfStream [] st1) as [-> Hr];
      [|done].
    rewrite (processLines_delivered engine (stream_lines values) []
               (StreamingChat.messages st)
               {| role := user; content := trim (StreamingChat.input st) |})
      by (done || by rewrite Hst1, app_nil_r).
    rewrite Hl. cbn [app map snd].
    by rewrite line_a_event, line_b_event, line_done_event.
Qed.

Lemma completion_termination_witness :
  exists st1 r,
    StreamingChat.sendMessage_begin ready = Some (st1, r)
    /\ stream_lines [chunk_a; chunk_b ++ chunk_done ++ chunk_a]
       = [line_a; line_b; line_done] ++ [line_a]
    /\ StreamingChat.sendMessage example_engine ready
         (FetchResponse true 200
            (Some {| chunks := [chunk_a; chunk_b ++ chunk_done ++ chunk_a]
                               ++ [chunk_b];
                     ending := ReadThrows OtherValue |}))
       = ({| StreamingChat.messages :=
               [{| role := user; content := str "hi" |};
                {| role := assistant; content := str "ab" |}];
             StreamingChat.input := [];
             StreamingChat.isLoading := false;
             StreamingChat.serverUrl := str "http://localhost:11434";
             StreamingChat.selectedModel := str "llama3";
             StreamingChat.localModels := JArr [];
             StreamingChat.error := None |},
          [Fetch r])
    /\ (StreamingChat.reads
          (StreamingChat.readLoop example_engine [] st1
             ([chunk_a; chunk_b ++ chunk_done ++ chunk_a] ++ [chunk_b])
             (ReadThrows OtherValue))
        <= 2)%nat.
Proof.
  eexists _, _.
  assert (Hb : StreamingChat.sendMessage_begin ready = Some (_, _))
    by reflexivity.
  assert (Hl : stream_lines [chunk_a; chunk_b ++ chunk_done ++ chunk_a]
               = [line_a; line_b; line_done] ++ [line_a])
    by (vm_compute; reflexivity).
  split; [exact Hb|]. split; [exact Hl|].
  exact (completion_termination example_engine ready _ _ 200 _ [chunk_b] _
           (ReadThrows OtherValue) Hb Hl).
Defined.

(** C7, malformed line tolerance.  When the lines of a stream are a
    fragment line, a line that is not valid JSON, and a second fragment
    line (which may also carry the completion), the invalid line is skipped
    and the turn ends without error: the transcript gains the user message
    and one assistant message whose content is the text of the first
    fragment followed by the text of the second. *)
Theorem malformed_line_tolerance (engine : Engine)
    (st st1 : StreamingChat.ChatState) (r : request) (status : N)
    (values : list (list Byte.byte)) (l1 bad l2 t1 t2 : jsstring)
    (done2 : bool) :
  StreamingChat.sendMessage_begin st = Some (st1, r) ->
  stream_lines values = [l1; bad; l2] ->
  line_event engine l1 = Event (Some t1) false ->
  JSON_parse bad = None ->
  line_event engine l2 = Event (Some t2) done2 ->
  StreamingChat.sendMessage engine st
    (FetchResponse true status
       (Some {| chunks := values; ending := EndOfStream |}))
  = ({| StreamingChat.messages :=
          StreamingChat.messages st
          ++ [{| role := user; content := trim (StreamingChat.input st) |};
              {| role := assistant; content := t1 ++ t2 |}];
        StreamingChat.input := [];
        StreamingChat.isLoading := false;
        StreamingChat.serverUrl := StreamingChat.serverUrl st;
        StreamingChat.selectedModel := StreamingChat.selectedModel st;
        StreamingChat.localModels := StreamingChat.localModels st;
        StreamingChat.error := None |},
     [Fetch r]).
Proof.
  intros Hb Hl H1 Hbad H2.
  rewrite (sendMessage_stream engine st st1 r) by done.
  rewrite Hl. cbn [map]. rewrite H1, (malformed_line_event _ _ Hbad), H2.
  apply sendMessage_begin_Some in Hb as (_ & _ & _ & -> & _).
  cbn [delivered completed app orb assistant_entry concat].
  destruct done2; cbn; by rewrite <- app_assoc, !app_nil_r.
Qed.

Lemma malformed_line_tolerance_witness :
  exists st1 r,
    StreamingChat.sendMessage_begin ready = Some (st1, r)
    /\ stream_lines [chunk_a ++ chunk_bad; chunk_b] = [line_a; line_bad; line_b]
    /\ line_event example_engine line_a = Event (Some (str "a")) false
    /\ JSON_parse line_bad = None
    /\ line_event example_engine line_b = Event (Some (str "b")) false
    /\ StreamingChat.sendMessage example_engine ready
         (FetchResponse true 200
            (Some {| chunks := [chunk_a ++ chunk_bad; chunk_b];
                     ending := EndOfStream |}))
       = ({| StreamingChat.messages :=
               [{| role := user; content := str "hi" |};
                {| role := assistant; content := str "ab" |}];
             StreamingChat.input := [];
             StreamingChat.isLoading := false;
             StreamingChat.serverUrl := str "http://localhost:11434";
             StreamingChat.selectedModel := str "llama3";
             StreamingChat.localModels := JArr [];
             StreamingChat.error := None |},
          [Fetch r]).
Proof.
  eexists _, _.
  assert (Hb : StreamingChat.sendMessage_begin ready = Some (_, _))
    by reflexivity.
  assert (Hl : stream_lines [chunk_a ++ chunk_bad; chunk_b]
               = [line_a; line_bad; line_b])
    by (vm_compute; reflexivity).
  assert (H1 : line_event example_engine line_a = Event (Some (str "a")) false)
    by reflexivity.
  assert (Hbad : JSON_parse line_bad = None) by reflexivity.
  assert (H2 : line_event example_engine line_b = Event (Some (str "b")) false)
    by reflexivity.
  split; [exact Hb|]. repeat (split; [assumption|]).
  exact (malformed_line_tolerance example_engine ready _ _ 200 _ _ _ _ _ _ _
           Hb Hl H1 Hbad H2).
Defined.

(** C1, as the code has it.  When every line of a stream is a fragment,
    the turn leaves one assistant message whose content is the
    concatenation of the texts of all the fragments in the order of their
    delivery, a text delivered twice being there twice.  What the prefix
    test skips is an update whose accumulated text the stored content
    already starts with, which makes the update idempotent: applied twice
    with the same accumulated text it acts once. *)
Theorem fragments_are_concatenated (engine : Engine)
    (st st1 : StreamingChat.ChatState) (r : request) (status : N)
    (values : list (list Byte.byte)) (texts : list jsstring) :
  StreamingChat.sendMessage_begin st = Some (st1, r) ->
  Forall2 (fun line text => line_event engine line = Event (Some text) false)
          (stream_lines values) texts ->
  StreamingChat.sendMessage engine st
    (FetchResponse true status
       (Some {| chunks := values; ending := EndOfStream |}))
  = ({| StreamingChat.messages :=
          (StreamingChat.messages st
           ++ [{| role := user; content := trim (StreamingChat.input st) |}])
          ++ assistant_entry texts;
        StreamingChat.input := [];
        StreamingChat.isLoading := false;
        StreamingChat.serverUrl := StreamingChat.serverUrl st;
        StreamingChat.selectedModel := StreamingChat.selectedModel st;
        StreamingChat.localModels := StreamingChat.localModels st;
        StreamingChat.error := None |},
     [Fetch r])
  /\ (forall (a c : jsstring) (msgs : list Message),
        startsWith c a = true ->
        StreamingChat.updater a (msgs ++ [{| role := assistant; content := c |}])
        = msgs ++ [{| role := assistant; content := c |}])
  /\ (forall (a : jsstring) (msgs : list Message),
        StreamingChat.updater a (StreamingChat.updater a msgs)
        = StreamingChat.updater a msgs).
Proof.
  intros Hb Hl. split; [|split; [apply updater_skip | apply updater_idempotent]].
  rewrite (sendMessage_stream engine st st1 r) by done.
  destruct (fragments_delivered engine _ _ Hl) as [-> ->].
  by apply sendMessage_begin_Some in Hb as (_ & _ & _ & -> & _).
Qed.

Lemma fragments_are_concatenated_witness :
  exists st1 r,
    StreamingChat.sendMessage_begin ready = Some (st1, r)
    /\ StreamingChat.sendMessage example_engine ready
         (FetchResponse true 200
            (Some {| chunks := [chunk_a; chunk_b; chunk_b];
                     ending := EndOfStream |}))
       = ({| StreamingChat.messages :=
               [{| role := user; content := str "hi" |};
                {| role := assistant; content := str "abb" |}];
             StreamingChat.input := [];
             StreamingChat.isLoading := false;
             StreamingChat.serverUrl := str "http://localhost:11434";
             StreamingChat.selectedModel := str "llama3";
             StreamingChat.localModels := JArr [];
             StreamingChat.error := None |},
          [Fetch r]).
Proof.
  eexists _, _.
  assert (Hb : StreamingChat.sendMessage_begin ready = Some (_, _))
    by reflexivity.
  split; [exact Hb|].
  refine (proj1 (fragments_are_concatenated example_engine ready _ _ 200
                   [chunk_a; chunk_b; chunk_b] [str "a"; str "b"; str "b"]
                   Hb _)).
  vm_compute. repeat constructor.
Defined.

(** C1 as stated fails: the fragment [a] delivered twice in sequence is
    twice in the final assistant message. *)
Lemma repeated_fragment_is_duplicated :
  stream_lines [chunk_a; chunk_a] = [line_a; line_a]
  /\ StreamingChat.messages
       (StreamingChat.sendMessage example_engine ready
          (streamed [chunk_a; chunk_a])).1
     = [{| role := user; content := str "hi" |};
        {| role := assistant; content := str "aa" |}]
  /\ StreamingChat.messages
       (StreamingChat.sendMessage example_engine ready
          (streamed [chunk_a; chunk_a])).1
     <> [{| role := user; content := str "hi" |};
         {| role := assistant; content := str "a" |}].
Proof. repeat split; try (vm_compute; reflexivity). vm_compute. discriminate. Qed.

(** C2, as the code has it.  However the body is cut into chunks, the turn
    ends without error, and its outcome is that of the lines of each chunk
    taken on its own: every chunk is decoded from the initial state of the
    decoder and split into lines by itself, nothing of a chunk being kept
    for the next.  The assistant message is made of the fragments of the
    lines that lie whole inside one chunk, together with whatever the
    pieces of a cut line amount to as lines of their own. *)
Theorem chunks_are_handled_apart (engine : Engine)
    (st st1 : StreamingChat.ChatState) (r : request) (status : N)
    (values : list (list Byte.byte)) :
  StreamingChat.sendMessage_begin st = Some (st1, r) ->
  StreamingChat.sendMessage engine st
    (FetchResponse true status
       (Some {| chunks := values; ending := EndOfStream |}))
  = ({| StreamingChat.messages :=
          (StreamingChat.messages st
           ++ [{| role := user; content := trim (StreamingChat.input st) |}])
          ++ assistant_entry
               (delivered
                  (map (line_event engine)
                     (flat_map
                        (fun value => lines_of (TextDecoder_decode value))
                        values)));
        StreamingChat.input := [];
        StreamingChat.isLoading := false;
        StreamingChat.serverUrl := StreamingChat.serverUrl st;
        StreamingChat.selectedModel := StreamingChat.selectedModel st;
        StreamingChat.localModels := StreamingChat.localModels st;
        StreamingChat.error := None |},
     [Fetch r]).
Proof.
  intros Hb. rewrite (sendMessage_stream engine st st1 r) by done.
  apply sendMessage_begin_Some in Hb as (_ & _ & _ & -> & _).
  by destruct (completed _).
Qed.

Lemma chunks_are_handled_apart_witness :
  exists st1 r,
    StreamingChat.sendMessage_begin ready = Some (st1, r)
    /\ StreamingChat.sendMessage example_engine ready
         (FetchResponse true 200
            (Some {| chunks := [chunk_a ++ chunk_hi_1; chunk_hi_2 ++ chunk_b];
                     ending := EndOfStream |}))
       = ({| StreamingChat.messages :=
               [{| role := user; content := str "hi" |};
                {| role := assistant; content := str "ab" |}];
             StreamingChat.input := [];
             StreamingChat.isLoading := false;
             StreamingChat.serverUrl := str "http://localhost:11434";
             StreamingChat.selectedModel := str "llama3";
             StreamingChat.localModels := JArr [];
             StreamingChat.error := None |},
          [Fetch r]).
Proof.
  eexists _, _.
  assert (Hb : StreamingChat.sendMessage_begin ready = Some (_, _))
    by reflexivity.
  split; [exact Hb|].
  exact (chunks_are_handled_apart example_engine ready _ _ 200
           [chunk_a ++ chunk_hi_1; chunk_hi_2 ++ chunk_b] Hb).
Defined.

(** C2 as stated fails: a line cut in two by a chunk boundary is lost,
    whether the cut falls between two characters or inside the two bytes of
    one, where the same bytes in one chunk give the fragment. *)
Lemma split_line_is_lost :
  chunk_hi_1 ++ chunk_hi_2 = chunk_hi
  /\ StreamingChat.messages
       (StreamingChat.sendMessage example_engine ready (streamed [chunk_hi])).1
     = [{| role := user; content := str "hi" |};
        {| role := assistant; content := str "hi" |}]
  /\ StreamingChat.messages
       (StreamingChat.sendMessage example_engine ready
          (streamed [chunk_hi_1; chunk_hi_2])).1
     = [{| role := user; content := str "hi" |}]
  /\ chunk_e_acute_1 ++ chunk_e_acute_2 = chunk_e_acute
  /\ StreamingChat.messages
       (StreamingChat.sendMessage example_engine ready
          (streamed [chunk_e_acute])).1
     = [{| role := user; content := str "hi" |};
        {| role := assistant; content := [0xE9] |}]
  /\ StreamingChat.messages
       (StreamingChat.sendMessage example_engine ready
          (streamed [chunk_e_acute_1; chunk_e_acute_2])).1
     = [{| role := user; content := str "hi" |}]
  /\ TextDecoder_decode [Byte.xc3; Byte.xa9] = [0xE9]
  /\ TextDecoder_decode [Byte.xc3] ++ TextDecoder_decode [Byte.xa9]
     = [U_FFFD; U_FFFD].
Proof. repeat split; vm_compute; reflexivity. Qed.

(** ** Requests and failures *)

(** The synchronous part of [sendMessage] of the simple screen. *)
Lemma simple_sendMessage_begin_Some (st st1 : SimpleChat.ChatState)
    (r : request) :
  SimpleChat.sendMessage_begin st = Some (st1, r) ->
  st1 = {| SimpleChat.messages :=
             SimpleChat.messages st
             ++ [{| role := user; content := trim (SimpleChat.input st) |}];
           SimpleChat.input := [];
           SimpleChat.isLoading := true;
           SimpleChat.serverUrl := SimpleChat.serverUrl st;
           SimpleChat.selectedModel := SimpleChat.selectedModel st;
           SimpleChat.error := None |}
  /\ r = POST (SimpleChat.serverUrl st ++ str "/api/chat")
              [("Content-Type", "application/json")]
              {| model := SimpleChat.selectedModel st;
                 body_messages :=
                   [{| role := user; content := trim (SimpleChat.input st) |}];
                 stream := None |}.
Proof.
  unfold SimpleChat.sendMessage_begin.
  destruct (_ || _); [done|]. by intros [= <- <-].
Qed.

(** C4, as the code has it.  In streaming mode the request is a POST to
    the server URL followed by [/api/chat] whose body has the selected
    model, the whole transcript with the user message just appended, and
    [stream: true].  The simple screen posts to the same path a body with
    the selected model and, as [messages], the user message just appended
    alone; its body has no [stream] member. *)
Theorem chat_request_body
    (st st1 : StreamingChat.ChatState) (r : request)
    (sst sst1 : SimpleChat.ChatState) (sr : request) :
  StreamingChat.sendMessage_begin st = Some (st1, r) ->
  SimpleChat.sendMessage_begin sst = Some (sst1, sr) ->
  (r = POST (StreamingChat.serverUrl st ++ str "/api/chat")
            [("Content-Type", "application/json");
             ("Accept", "application/json")]
            {| model := StreamingChat.selectedModel st;
               body_messages := StreamingChat.messages st1;
               stream := Some true |}
   /\ StreamingChat.messages st1
      = StreamingChat.messages st
        ++ [{| role := user; content := trim (StreamingChat.input st) |}])
  /\ (sr = POST (SimpleChat.serverUrl sst ++ str "/api/chat")
             [("Content-Type", "application/json")]
             {| model := SimpleChat.selectedModel sst;
                body_messages :=
                  [{| role := user; content := trim (SimpleChat.input sst) |}];
                stream := None |}
      /\ SimpleChat.messages sst1
         = SimpleChat.messages sst
           ++ [{| role := user; content := trim (SimpleChat.input sst) |}]).
Proof.
  intros (_ & _ & _ & -> & ->)%sendMessage_begin_Some
         [-> ->]%simple_sendMessage_begin_Some.
  done.
Qed.

Lemma chat_request_body_witness :
  exists st1 r sst1 sr,
    StreamingChat.sendMessage_begin second_turn = Some (st1, r)
    /\ SimpleChat.sendMessage_begin simple_second_turn = Some (sst1, sr)
    /\ r = POST (str "http://localhost:11434/api/chat")
             [("Content-Type", "application/json");
              ("Accept", "application/json")]
             {| model := str "llama3";
                body_messages :=
                  [{| role := user; content := str "hi" |};
                   {| role := assistant; content := str "hello" |};
                   {| role := user; content := str "more" |}];
                stream := Some true |}
    /\ sr = POST (str "http://localhost:11434/api/chat")
              [("Content-Type", "application/json")]
              {| model := str "llama3";
                 body_messages := [{| role := user; content := str "more" |}];
                 stream := None |}.
Proof.
  eexists _, _, _, _.
  assert (Hb : StreamingChat.sendMessage_begin second_turn = Some (_, _))
    by reflexivity.
  assert (Hs : SimpleChat.sendMessage_begin simple_second_turn = Some (_, _))
    by reflexivity.
  split; [exact Hb|]. split; [exact Hs|].
  pose proof (chat_request_body second_turn _ _ simple_second_turn _ _ Hb Hs)
    as [[Hr _] [Hsr _]].
  split; [exact Hr | exact Hsr].
Defined.

(** C4 as stated fails on its second half: after one exchange, the
    request of the simple screen carries the new user message alone, not
    the transcript, and has no [stream] member. *)
Lemma simple_request_omits_transcript :
  SimpleChat.sendMessage_begin simple_second_turn
  = Some ({| SimpleChat.messages :=
               [{| role := user; content := str "hi" |};
                {| role := assistant; content := str "hello" |};
                {| role := user; content := str "more" |}];
             SimpleChat.input := [];
             SimpleChat.isLoading := true;
             SimpleChat.serverUrl := str "http://localhost:11434";
             SimpleChat.selectedModel := str "llama3";
             SimpleChat.error := None |},
          POST (str "http://localhost:11434/api/chat")
               [("Content-Type", "application/json")]
               {| model := str "llama3";
                  body_messages := [{| role := user; content := str "more" |}];
                  stream := None |})
  /\ [{| role := user; content := str "more" |}]
     <> [{| role := user; content := str "hi" |};
         {| role := assistant; content := str "hello" |};
         {| role := user; content := str "more" |}]
  /\ (None : option bool) <> Some false.
Proof. split; [reflexivity|]. split; discriminate. Qed.

(** The outcome of [fetchLocalModels] when the fetch fails. *)
Lemma fetchLocalModels_fails (engine : Engine) (url : jsstring)
    (net : fetch_outcome) (st : StreamingChat.ChatState) :
  models_fetch_fails engine net ->
  exists err toasts,
    StreamingChat.fetchLocalModels engine url net st
    = ({| StreamingChat.messages := StreamingChat.messages st;
          StreamingChat.input := StreamingChat.input st;
          StreamingChat.isLoading := false;
          StreamingChat.serverUrl := StreamingChat.serverUrl st;
          StreamingChat.selectedModel := StreamingChat.selectedModel st;
          StreamingChat.localModels := StreamingChat.localModels st;
          StreamingChat.error := err |},
       Fetch (GET (url ++ str "/api/tags") [("Accept", "application/json")])
       :: toasts,
       JArr [])
    /\ (toasts = [] \/ toasts = [Toast "Error" true]).
Proof.
  unfold StreamingChat.fetchLocalModels.
  destruct 1 as [e | status body | status body e He | status body data Hd Hf
                | status body data models Hd Hm Hf]; simpl.
  - eexists _, _. split; [reflexivity | by right].
  - eexists _, _. split; [reflexivity | by right].
  - rewrite He. eexists _, _. split; [reflexivity | by right].
  - rewrite Hd, Hf. eexists _, _. split; [reflexivity | by left].
  - rewrite Hd, Hm, Hf. destruct (truthy data);
      eexists _, _; (split; [reflexivity | by left]).
Qed.

(** [loadServerConfig] once both settings are read. *)
Lemma loadServerConfig_configured (engine : Engine) (p : Platform)
    (net : fetch_outcome) (st : StreamingChat.ChatState)
    (url model : jsstring) :
  preferences_readable p = true ->
  preferences p !! "ollama_server_url"%string = Some url -> url <> [] ->
  preferences p !! "ollama_model"%string = Some model -> model <> [] ->
  StreamingChat.loadServerConfig engine p net st
  = let '(st2, effects, fetchedModels) :=
      StreamingChat.fetchLocalModels engine (StreamingChat.finalUrl p url) net
        (StreamingChat.setServerUrl (StreamingChat.finalUrl p url) st) in
    match length_positive engine fetchedModels with
    | Throw _ =>
        (StreamingChat.setError
           (Some (str "Failed to load configuration. Please check settings and server connection."))
           st2, effects)
    | Normal true =>
        (StreamingChat.setError None (StreamingChat.setSelectedModel model st2),
         effects)
    | Normal false =>
        if negb (present (StreamingChat.error st)) then
          (StreamingChat.setError
             (Some (str "Could not retrieve model list from server.")) st2,
           effects)
        else (st2, effects)
    end.
Proof.
  intros Hread Hu Hune Hm Hmne.
  unfold StreamingChat.loadServerConfig, Preferences_get.
  rewrite Hread, Hu, Hm.
  destruct url; [done|]. by destruct model.
Qed.

(** What [fetchLocalModels] does when the fetch delivers a value. *)
Lemma fetchLocalModels_fetched (engine : Engine) (url : jsstring)
    (net : fetch_outcome) (models : json) (st : StreamingChat.ChatState) :
  models_fetched engine net models ->
  StreamingChat.fetchLocalModels engine url net st
  = ({| StreamingChat.messages := StreamingChat.messages st;
        StreamingChat.input := StreamingChat.input st;
        StreamingChat.isLoading := false;
        StreamingChat.serverUrl := StreamingChat.serverUrl st;
        StreamingChat.selectedModel := StreamingChat.selectedModel st;
        StreamingChat.localModels := models;
        StreamingChat.error := None |},
     [Fetch (GET (url ++ str "/api/tags") [("Accept", "application/json")])],
     models).
Proof.
  destruct 1 as [status body data models Hd Ht Hm Htm].
  unfold StreamingChat.fetchLocalModels. cbn [negb].
  rewrite Hd, Ht, Hm. cbn [truthy_opt]. by rewrite Htm.
Qed.

(** Every outcome of the fetch fails or delivers a value. *)
Lemma models_fetch_cases (engine : Engine) (net : fetch_outcome) :
  models_fetch_fails engine net
  \/ exists models, models_fetched engine net models.
Proof.
  destruct net as [e | [] status body]; [left; constructor | | left; constructor].
  destruct (Response_json engine body) as [data|e] eqn:Hd;
    [| left; by econstructor 3].
  destruct (truthy data) eqn:Ht; [| left; by econstructor 4].
  destruct (get_property engine data (str "models")) as [models|e] eqn:Hm;
    [| by destruct data].
  destruct (truthy_opt models) eqn:Htm; [| left; by econstructor 5].
  destruct models as [models|]; [|done].
  right. exists models. by econstructor.
Qed.

(** No input can be sent from a state without selected model. *)
Lemma no_send_without_model (st : StreamingChat.ChatState) :
  StreamingChat.selectedModel st = [] ->
  forall input : jsstring,
    StreamingChat.sendMessage_begin (StreamingChat.onChange input st) = None
    /\ StreamingChat.onKeyPress "Enter" (StreamingChat.onChange input st)
       = None
    /\ StreamingChat.onClick (StreamingChat.onChange input st) = None.
Proof.
  intros Hs input.
  assert (Hguard :
    StreamingChat.sendMessage_begin (StreamingChat.onChange input st) = None).
  { unfold StreamingChat.sendMessage_begin.
    cbn [StreamingChat.onChange StreamingChat.setInput
         StreamingChat.selectedModel].
    rewrite Hs. cbn [nonempty negb]. by rewrite orb_true_r. }
  split; [done|]. split.
  - unfold StreamingChat.onKeyPress. by rewrite bool_decide_eq_true_2.
  - unfold StreamingChat.onClick. rewrite Hguard.
    by destruct (StreamingChat.disabled _).
Qed.

(** C5, as the code has it.  With both settings stored, initialization
    tells a bad model list by the test [fetchedModels.length > 0] alone.
    (1) A model-list fetch that fails (rejected, answered with a status
    that is not a success, or with a body that cannot be read, is not
    JSON, is a falsy value or has no truthy [models]) leaves a visible
    error on the screen, but the stored model name is not taken over: the
    selected model stays empty and the list of models stays empty, so
    that no input can be sent, by the key or by the button.  (2) The same
    holds when the fetch delivers a [models] whose length is not greater
    than 0 (an empty array, or a truthy value that is no list and has no
    such length), except that this value becomes the list of models; it
    shows no selector.  (3) A body whose [models] has a length greater
    than 0 is not found bad, whatever it is (the string [none], say):
    [loadServerConfig] then sets no error and takes over the stored model
    name (what the render makes of such a value is the matter of
    [selector]).  (4) Every outcome of the fetch fails as in (1) or
    delivers a value. *)
Theorem model_list_failure (engine : Engine) (p : Platform)
    (net : fetch_outcome) (url model : jsstring) :
  preferences_readable p = true ->
  preferences p !! "ollama_server_url"%string = Some url -> url <> [] ->
  preferences p !! "ollama_model"%string = Some model -> model <> [] ->
  let st' :=
    (StreamingChat.loadServerConfig engine p net StreamingChat.initialState).1 in
  let no_send :=
    forall input : jsstring,
      StreamingChat.sendMessage_begin (StreamingChat.onChange input st') = None
      /\ StreamingChat.onKeyPress "Enter" (StreamingChat.onChange input st')
         = None
      /\ StreamingChat.onClick (StreamingChat.onChange input st') = None in
  (models_fetch_fails engine net ->
   StreamingChat.error st'
   = Some (str "Could not retrieve model list from server.")
   /\ StreamingChat.selectedModel st' = []
   /\ StreamingChat.localModels st' = JArr []
   /\ no_send)
  /\ (forall models,
        models_fetched engine net models ->
        length_positive engine models = Normal false ->
        StreamingChat.error st'
        = Some (str "Could not retrieve model list from server.")
        /\ StreamingChat.selectedModel st' = []
        /\ StreamingChat.localModels st' = models
        /\ StreamingChat.selector engine (StreamingChat.localModels st')
           = Some []
        /\ no_send)
  /\ (forall models,
        models_fetched engine net models ->
        length_positive engine models = Normal true ->
        StreamingChat.error st' = None
        /\ StreamingChat.selectedModel st' = model
        /\ StreamingChat.localModels st' = models)
  /\ (models_fetch_fails engine net
      \/ exists models, models_fetched engine net models).
Proof.
  intros Hread Hu Hune Hm Hmne st' no_send. subst st' no_send.
  rewrite (loadServerConfig_configured engine p net _ url model) by done.
  split; [|split; [|split]].
  - intros Hfail.
    destruct (fetchLocalModels_fails engine (StreamingChat.finalUrl p url) net
                (StreamingChat.setServerUrl (StreamingChat.finalUrl p url)
                   StreamingChat.initialState) Hfail)
      as (err & toasts & -> & _).
    cbn [length_positive fst StreamingChat.initialState
         StreamingChat.error present negb].
    do 3 (split; [reflexivity|]). by apply no_send_without_model.
  - intros models Hfetched Hlen.
    rewrite (fetchLocalModels_fetched engine _ net models) by done.
    rewrite Hlen.
    cbn [fst StreamingChat.initialState StreamingChat.error present negb].
    do 3 (split; [reflexivity|]). split.
    + unfold StreamingChat.selector.
      cbn [StreamingChat.localModels StreamingChat.setError].
      by rewrite Hlen.
    + by apply no_send_without_model.
  - intros models Hfetched Hlen.
    rewrite (fetchLocalModels_fetched engine _ net models) by done.
    by rewrite Hlen.
  - apply models_fetch_cases.
Qed.

Lemma model_list_failure_witness :
  preferences_readable (host configured "http:") = true
  /\ models_fetch_fails example_engine (FetchResponse false 503 None)
  /\ StreamingChat.error
       (StreamingChat.loadServerConfig example_engine (host configured "http:")
          (FetchResponse false 503 None) StreamingChat.initialState).1
     = Some (str "Could not retrieve model list from server.")
  /\ StreamingChat.selectedModel
       (StreamingChat.loadServerConfig example_engine (host configured "http:")
          (FetchResponse false 503 None) StreamingChat.initialState).1
     = []
  /\ models_fetched example_engine (streamed [bytesq "{'models':'none'}"])
       (JStr (str "none"))
  /\ StreamingChat.error
       (StreamingChat.loadServerConfig example_engine (host configured "http:")
          (streamed [bytesq "{'models':'none'}"]) StreamingChat.initialState).1
     = None
  /\ StreamingChat.selectedModel
       (StreamingChat.loadServerConfig example_engine (host configured "http:")
          (streamed [bytesq "{'models':'none'}"]) StreamingChat.initialState).1
     = str "llama3".
Proof.
  assert (Hf : models_fetch_fails example_engine (FetchResponse false 503 None))
    by constructor.
  assert (Hn : models_fetched example_engine
                 (streamed [bytesq "{'models':'none'}"]) (JStr (str "none"))).
  { apply (tags_models example_engine 200 _
             (JObj [(str "models", JStr (str "none"))]));
      vm_compute; reflexivity. }
  split; [reflexivity|]. split; [exact Hf|].
  pose proof (model_list_failure example_engine (host configured "http:")
                (FetchResponse false 503 None)
                (str "http://localhost:11434") (str "llama3")
                eq_refl eq_refl ltac:(discriminate)
                eq_refl ltac:(discriminate)) as (Hfails & _).
  destruct (Hfails Hf) as (He & Hs & _).
  split; [exact He|]. split; [exact Hs|]. split; [exact Hn|].
  pose proof (model_list_failure example_engine (host configured "http:")
                (streamed [bytesq "{'models':'none'}"])
                (str "http://localhost:11434") (str "llama3")
                eq_refl eq_refl ltac:(discriminate)
                eq_refl ltac:(discriminate)) as (_ & _ & Hgood & _).
  destruct (Hgood (JStr (str "none")) Hn eq_refl) as (He' & Hs' & _).
  split; [exact He' | exact Hs'].
Defined.

(** C5 as stated fails: with both settings stored and the model-list
    fetch rejected, the screen shows its error and cannot send: the
    selected model is empty and the guard of [sendMessage] returns. *)
Lemma no_send_after_model_list_failure :
  StreamingChat.loadServerConfig example_engine (host configured "http:")
    (FetchRejects (ErrorObject (str "Failed to fetch")))
    StreamingChat.initialState
  = ({| StreamingChat.messages := [];
        StreamingChat.input := [];
        StreamingChat.isLoading := false;
        StreamingChat.serverUrl := str "http://localhost:11434";
        StreamingChat.selectedModel := [];
        StreamingChat.localModels := JArr [];
        StreamingChat.error :=
          Some (str "Could not retrieve model list from server.") |},
     [Fetch (GET (str "http://localhost:11434/api/tags")
                 [("Accept", "application/json")]);
      Toast "Error" true])
  /\ StreamingChat.sendMessage example_engine
       (StreamingChat.onChange (str "hi")
          (StreamingChat.loadServerConfig example_engine
             (host configured "http:")
             (FetchRejects (ErrorObject (str "Failed to fetch")))
             StreamingChat.initialState).1)
       (streamed [chunk_a; chunk_done])
     = (StreamingChat.onChange (str "hi")
          (StreamingChat.loadServerConfig example_engine
             (host configured "http:")
             (FetchRejects (ErrorObject (str "Failed to fetch")))
             StreamingChat.initialState).1,
        []).
Proof. split; vm_compute; reflexivity. Qed.

(** The send button is dead while a turn is loading. *)
Lemma onClick_while_loading (st : StreamingChat.ChatState) :
  StreamingChat.isLoading st = true -> StreamingChat.onClick st = None.
Proof.
  intros H. unfold StreamingChat.onClick, StreamingChat.disabled.
  by rewrite H.
Qed.

(** The Enter key is not: [sendMessage] does not look at [isLoading]. *)
Lemma onKeyPress_while_loading (st : StreamingChat.ChatState) :
  StreamingChat.onKeyPress "Enter" st = StreamingChat.sendMessage_begin st.
Proof. done. Qed.

(** C6, at the input on which the code fails it.  The first Enter puts
    the screen in flight; with a new text typed in, the button is disabled
    but a second Enter appends a second user message and issues a second
    request while the first is still in flight. *)
Theorem enter_key_sends_while_in_flight :
  StreamingChat.onKeyPress "Enter" ready
  = Some ({| StreamingChat.messages := [{| role := user; content := str "hi" |}];
             StreamingChat.input := [];
             StreamingChat.isLoading := true;
             StreamingChat.serverUrl := str "http://localhost:11434";
             StreamingChat.selectedModel := str "llama3";
             StreamingChat.localModels := JArr [];
             StreamingChat.error := None |},
          POST (str "http://localhost:11434/api/chat")
               [("Content-Type", "application/json");
                ("Accept", "application/json")]
               {| model := str "llama3";
                  body_messages := [{| role := user; content := str "hi" |}];
                  stream := Some true |})
  /\ StreamingChat.onChange (str "again")
       {| StreamingChat.messages := [{| role := user; content := str "hi" |}];
          StreamingChat.input := [];
          StreamingChat.isLoading := true;
          StreamingChat.serverUrl := str "http://localhost:11434";
          StreamingChat.selectedModel := str "llama3";
          StreamingChat.localModels := JArr [];
          StreamingChat.error := None |}
     = in_flight
  /\ StreamingChat.isLoading in_flight = true
  /\ StreamingChat.onClick in_flight = None
  /\ StreamingChat.onKeyPress "Enter" in_flight
     = Some ({| StreamingChat.messages :=
                  [{| role := user; content := str "hi" |};
                   {| role := user; content := str "again" |}];
                StreamingChat.input := [];
                StreamingChat.isLoading := true;
                StreamingChat.serverUrl := str "http://localhost:11434";
                StreamingChat.selectedModel := str "llama3";
                StreamingChat.localModels := JArr [];
                StreamingChat.error := None |},
             POST (str "http://localhost:11434/api/chat")
                  [("Content-Type", "application/json");
                   ("Accept", "application/json")]
                  {| model := str "llama3";
                     body_messages :=
                       [{| role := user; content := str "hi" |};
                        {| role := user; content := str "again" |}];
                     stream := Some true |}).
Proof. repeat split; vm_compute; reflexivity. Qed.

(** The [catch] of the simple screen always leaves an error and shows
    its toast, and does not touch the transcript. *)
Lemma simple_caught (e : thrown) (st : SimpleChat.ChatState) :
  exists msg,
    SimpleChat.caught e st
    = ({| SimpleChat.messages := SimpleChat.messages st;
          SimpleChat.input := SimpleChat.input st;
          SimpleChat.isLoading := false;
          SimpleChat.serverUrl := SimpleChat.serverUrl st;
          SimpleChat.selectedModel := SimpleChat.selectedModel st;
          SimpleChat.error := Some msg |},
       [Toast "Error" true]).
Proof.
  unfold SimpleChat.caught.
  destruct (includes _ _); eexists; reflexivity.
Qed.

Lemma simple_turn_fails_caught (engine : Engine) (net : fetch_outcome)
    (st : SimpleChat.ChatState) :
  simple_turn_fails engine net ->
  exists e, SimpleChat.sendMessage_response engine net st = SimpleChat.caught e st.
Proof.
  unfold SimpleChat.sendMessage_response, SimpleChat.validate.
  destruct 1 as [e | status body | status body e He | status body text Ht Hp
                | status body text data message Ht Hp Hm Hf
                | status body text data e Ht Hp Hm
                | status body text data message content Ht Hp Hm Hf Hc Hs];
    simpl.
  - eauto.
  - eauto.
  - rewrite He. eauto.
  - rewrite Ht, Hp. eauto.
  - rewrite Ht, Hp, Hm. destruct message as [message|]; [|eauto].
    simpl in Hf. rewrite Hf. eauto.
  - rewrite Ht, Hp, Hm. eauto.
  - rewrite Ht, Hp, Hm, Hf, Hc.
    destruct content as [[]|]; eauto. by destruct (Hs s).
Qed.

(** C8, as the code has it.  A turn that fails at the request (the fetch
    is rejected, or answered with a status that is not a success or
    without body) and, on the simple screen, a turn that fails in any way
    (rejected, bad status, unreadable or unparseable body, no [message], a
    [content] that is not a string) reports an error, by the banner and by
    a toast, and leaves the transcript as [sendMessage] found it but for
    the user message, which is its last entry: no assistant message is
    added. *)
Theorem failed_turn_keeps_transcript (engine : Engine)
    (st st1 : StreamingChat.ChatState) (r : request) (net : fetch_outcome)
    (sst sst1 : SimpleChat.ChatState) (sr : request) (snet : fetch_outcome) :
  StreamingChat.sendMessage_begin st = Some (st1, r) ->
  request_fails net ->
  SimpleChat.sendMessage_begin sst = Some (sst1, sr) ->
  simple_turn_fails engine snet ->
  (exists msg,
     StreamingChat.sendMessage engine st net
     = ({| StreamingChat.messages :=
             StreamingChat.messages st
             ++ [{| role := user; content := trim (StreamingChat.input st) |}];
           StreamingChat.input := [];
           StreamingChat.isLoading := false;
           StreamingChat.serverUrl := StreamingChat.serverUrl st;
           StreamingChat.selectedModel := StreamingChat.selectedModel st;
           StreamingChat.localModels := StreamingChat.localModels st;
           StreamingChat.error := Some msg |},
        [Fetch r; Toast "Error" true]))
  /\ (exists msg,
        SimpleChat.sendMessage engine sst snet
        = ({| SimpleChat.messages :=
                SimpleChat.messages sst
                ++ [{| role := user; content := trim (SimpleChat.input sst) |}];
              SimpleChat.input := [];
              SimpleChat.isLoading := false;
              SimpleChat.serverUrl := SimpleChat.serverUrl sst;
              SimpleChat.selectedModel := SimpleChat.selectedModel sst;
              SimpleChat.error := Some msg |},
           [Fetch sr; Toast "Error" true])).
Proof.
  intros Hb Hn Hsb Hsn. split.
  - unfold StreamingChat.sendMessage. rewrite Hb.
    apply sendMessage_begin_Some in Hb as (_ & _ & _ & -> & _).
    destruct Hn as [e | status body | ok status]; simpl.
    + eexists; reflexivity.
    + eexists; reflexivity.
    + destruct ok; eexists; reflexivity.
  - unfold SimpleChat.sendMessage. rewrite Hsb.
    apply simple_sendMessage_begin_Some in Hsb as [-> _].
    destruct (simple_turn_fails_caught engine snet
                {| SimpleChat.messages :=
                     SimpleChat.messages sst
                     ++ [{| role := user; content := trim (SimpleChat.input sst) |}];
                   SimpleChat.input := [];
                   SimpleChat.isLoading := true;
                   SimpleChat.serverUrl := SimpleChat.serverUrl sst;
                   SimpleChat.selectedModel := SimpleChat.selectedModel sst;
                   SimpleChat.error := None |} Hsn) as [e ->].
    destruct (simple_caught e
                {| SimpleChat.messages :=
                     SimpleChat.messages sst
                     ++ [{| role := user; content := trim (SimpleChat.input sst) |}];
                   SimpleChat.input := [];
                   SimpleChat.isLoading := true;
                   SimpleChat.serverUrl := SimpleChat.serverUrl sst;
                   SimpleChat.selectedModel := SimpleChat.selectedModel sst;
                   SimpleChat.error := None |}) as [msg ->].
    by exists msg.
Qed.

Lemma failed_turn_keeps_transcript_witness :
  exists st1 r sst1 sr,
    StreamingChat.sendMessage_begin second_turn = Some (st1, r)
    /\ request_fails (FetchResponse false 500 None)
    /\ SimpleChat.sendMessage_begin simple_second_turn = Some (sst1, sr)
    /\ simple_turn_fails example_engine (streamed [bytesq "{'error':'no'}"])
    /\ StreamingChat.messages
         (StreamingChat.sendMessage example_engine second_turn
            (FetchResponse false 500 None)).1
       = [{| role := user; content := str "hi" |};
          {| role := assistant; content := str "hello" |};
          {| role := user; content := str "more" |}]
    /\ SimpleChat.messages
         (SimpleChat.sendMessage example_engine simple_second_turn
            (streamed [bytesq "{'error':'no'}"])).1
       = [{| role := user; content := str "hi" |};
          {| role := assistant; content := str "hello" |};
          {| role := user; content := str "more" |}].
Proof.
  eexists _, _, _, _.
  assert (Hb : StreamingChat.sendMessage_begin second_turn = Some (_, _))
    by reflexivity.
  assert (Hn : request_fails (FetchResponse false 500 None)) by constructor.
  assert (Hs : SimpleChat.sendMessage_begin simple_second_turn = Some (_, _))
    by reflexivity.
  assert (Hf : simple_turn_fails example_engine
                 (streamed [bytesq "{'error':'no'}"])).
  { eapply simple_no_message with (message := None); reflexivity. }
  split; [exact Hb|]. split; [exact Hn|]. split; [exact Hs|].
  split; [exact Hf|].
  destruct (failed_turn_keeps_transcript example_engine second_turn _ _ _
              simple_second_turn _ _ _ Hb Hn Hs Hf) as [[m1 ->] [m2 ->]].
  split; reflexivity.
Defined.

(** C8 as stated fails for a failure of the network after the response
    has begun: when a read of the body is rejected after a fragment, the
    error is reported and the assistant message of the fragment stays in
    the transcript. *)
Lemma failed_read_keeps_partial_reply :
  StreamingChat.sendMessage example_engine ready
    (FetchResponse true 200
       (Some {| chunks := [chunk_a];
                ending := ReadThrows (ErrorObject (str "network error")) |}))
  = ({| StreamingChat.messages :=
          [{| role := user; content := str "hi" |};
           {| role := assistant; content := str "a" |}];
        StreamingChat.input := [];
        StreamingChat.isLoading := false;
        StreamingChat.serverUrl := str "http://localhost:11434";
        StreamingChat.selectedModel := str "llama3";
        StreamingChat.localModels := JArr [];
        StreamingChat.error := Some (str "network error") |},
     [Fetch (POST (str "http://localhost:11434/api/chat")
                  [("Content-Type", "application/json");
                   ("Accept", "application/json")]
                  {| model := str "llama3";
                     body_messages := [{| role := user; content := str "hi" |}];
                     stream := Some true |});
      Toast "Error" true]).
Proof. vm_compute. reflexivity. Qed.

(** ** Initialization *)

(** C9, config gating.  When the server URL or the model name is absent
    from the store, initialization of either screen sends the user to the
    settings screen with a toast and does nothing else: no request is
    made, the streaming screen keeps its state, and no input can be sent
    from the state initialization leaves, on either screen. *)
Theorem config_gating (engine : Engine) (p : Platform) (net : fetch_outcome)
    (st : StreamingChat.ChatState) :
  preferences_readable p = true ->
  preferences p !! "ollama_server_url"%string = None
  \/ preferences p !! "ollama_model"%string = None ->
  StreamingChat.loadServerConfig engine p net st
  = (st, [Navigate "/settings"; Toast "Configuration Required" true])
  /\ (forall input : jsstring,
        StreamingChat.sendMessage_begin
          (StreamingChat.onChange input
             (StreamingChat.loadServerConfig engine p net
                StreamingChat.initialState).1)
        = None)
  /\ (SimpleChat.loadServerConfig p SimpleChat.initialState).2
     = [Navigate "/settings"; Toast "Configuration Required" true]
  /\ (forall input : jsstring,
        SimpleChat.sendMessage_begin
          (SimpleChat.setInput input
             (SimpleChat.loadServerConfig p SimpleChat.initialState).1)
        = None).
Proof.
  intros Hread Habsent.
  assert (Hgate : negb (present (preferences p !! "ollama_server_url"%string))
                  || negb (present (preferences p !! "ollama_model"%string))
                  = true).
  { destruct Habsent as [-> | ->]; [done | apply orb_true_r]. }
  assert (Hload : forall st0,
    StreamingChat.loadServerConfig engine p net st0
    = (st0, [Navigate "/settings"; Toast "Configuration Required" true])).
  { intros st0. unfold StreamingChat.loadServerConfig, Preferences_get.
    by rewrite Hread, Hgate. }
  split; [apply Hload|]. split.
  { intros input. rewrite Hload. unfold StreamingChat.sendMessage_begin.
    cbn [fst StreamingChat.onChange StreamingChat.setInput
         StreamingChat.initialState StreamingChat.serverUrl nonempty negb].
    by rewrite orb_true_r. }
  unfold SimpleChat.loadServerConfig, Preferences_get.
  rewrite Hread, Hgate. split; [done|].
  intros input. unfold SimpleChat.sendMessage_begin.
  cbn [fst SimpleChat.setInput SimpleChat.serverUrl SimpleChat.selectedModel
       SimpleChat.input].
  destruct Habsent as [-> | ->].
  - destruct (preferences p !! "ollama_model"%string) as [[|c s]|];
      cbn; by rewrite orb_true_r.
  - destruct (preferences p !! "ollama_server_url"%string) as [[|c s]|];
      cbn; by rewrite orb_true_r.
Qed.

Lemma config_gating_witness :
  preferences_readable (host url_only "http:") = true
  /\ (preferences (host url_only "http:") !! "ollama_server_url"%string = None
      \/ preferences (host url_only "http:") !! "ollama_model"%string = None)
  /\ StreamingChat.loadServerConfig example_engine (host url_only "http:")
       tags_body StreamingChat.initialState
     = (StreamingChat.initialState,
        [Navigate "/settings"; Toast "Configuration Required" true])
  /\ (SimpleChat.loadServerConfig (host url_only "http:")
        SimpleChat.initialState).2
     = [Navigate "/settings"; Toast "Configuration Required" true].
Proof.
  assert (Ha : preferences (host url_only "http:") !! "ollama_server_url"%string
               = None
               \/ preferences (host url_only "http:") !! "ollama_model"%string
                  = None)
    by (right; vm_compute; reflexivity).
  split; [reflexivity|]. split; [exact Ha|].
  pose proof (config_gating example_engine (host url_only "http:") tags_body
                StreamingChat.initialState eq_refl Ha) as (H1 & _ & H2 & _).
  split; [exact H1 | exact H2].
Defined.

(** What a completed [loadServerConfig] leaves of the URL and of its
    effects, whatever the model-list fetch gives. *)
Lemma fetchLocalModels_effects (engine : Engine) (url : jsstring)
    (net : fetch_outcome) (st : StreamingChat.ChatState) :
  exists st2 toasts fetched,
    StreamingChat.fetchLocalModels engine url net st
    = (st2,
       Fetch (GET (url ++ str "/api/tags") [("Accept", "application/json")])
       :: toasts, fetched)
    /\ StreamingChat.serverUrl st2 = StreamingChat.serverUrl st
    /\ (toasts = [] \/ toasts = [Toast "Error" true]).
Proof.
  unfold StreamingChat.fetchLocalModels.
  match goal with
  | |- context [match ?t with Normal _ => _ | Throw _ => _ end] =>
      destruct t as [[models|]|e]
  end; eexists _, _, _; (split; [reflexivity|]); split; auto.
Qed.

Lemma loadServerConfig_url (engine : Engine) (p : Platform)
    (net : fetch_outcome) (st : StreamingChat.ChatState)
    (url model : jsstring) :
  preferences_readable p = true ->
  preferences p !! "ollama_server_url"%string = Some url -> url <> [] ->
  preferences p !! "ollama_model"%string = Some model -> model <> [] ->
  exists st' toasts,
    StreamingChat.loadServerConfig engine p net st
    = (st',
       Fetch (GET (StreamingChat.finalUrl p url ++ str "/api/tags")
                  [("Accept", "application/json")])
       :: toasts)
    /\ StreamingChat.serverUrl st' = StreamingChat.finalUrl p url
    /\ (toasts = [] \/ toasts = [Toast "Error" true]).
Proof.
  intros Hread Hu Hune Hm Hmne.
  rewrite (loadServerConfig_configured engine p net st url model) by done.
  destruct (fetchLocalModels_effects engine (StreamingChat.finalUrl p url) net
              (StreamingChat.setServerUrl (StreamingChat.finalUrl p url) st))
    as (st2 & toasts & fetched & -> & Hs & Ht).
  destruct (length_positive engine fetched) as [[]|];
    [| destruct (negb _) |]; eexists _, _; (split; [reflexivity|]); by split.
Qed.

(** C10, the rewrite of the scheme.  With both settings stored,
    initialization on a page served over https uses the stored URL with
    its first [http:] replaced by [https:] (the stored URL itself when it
    has no [http:]), and on any other page the stored URL as it is.  That
    URL is the server URL of the screen: the model-list request goes to it
    followed by [/api/tags], and every chat request sent from the state
    initialization leaves goes to it followed by [/api/chat].  The effects
    of initialization are that request and at most a toast: the store is
    left as it was. *)
Theorem https_rewrite (engine : Engine) (p : Platform) (net : fetch_outcome)
    (st : StreamingChat.ChatState) (url model : jsstring) :
  preferences_readable p = true ->
  preferences p !! "ollama_server_url"%string = Some url -> url <> [] ->
  preferences p !! "ollama_model"%string = Some model -> model <> [] ->
  let result := StreamingChat.loadServerConfig engine p net st in
  let used := StreamingChat.serverUrl result.1 in
  (protocol p = str "https:" ->
   (forall pre post : jsstring,
      url = pre ++ str "http:" ++ post ->
      includes (pre ++ str "http") (str "http:") = false ->
      used = pre ++ str "https:" ++ post)
   /\ (includes url (str "http:") = false -> used = url))
  /\ (protocol p <> str "https:" -> used = url)
  /\ (exists toasts,
        result.2
        = Fetch (GET (used ++ str "/api/tags") [("Accept", "application/json")])
          :: toasts
        /\ (toasts = [] \/ toasts = [Toast "Error" true]))
  /\ (forall (input : jsstring) (st1 : StreamingChat.ChatState) (r : request),
        StreamingChat.sendMessage_begin (StreamingChat.onChange input result.1)
        = Some (st1, r) ->
        exists headers body, r = POST (used ++ str "/api/chat") headers body)
  /\ run_effects (preferences p) result.2 = preferences p
  /\ run_effects (preferences p) result.2 !! "ollama_server_url"%string
     = Some url.
Proof.
  intros Hread Hu Hune Hm Hmne result used. subst used result.
  destruct (loadServerConfig_url engine p net st url model)
    as (st' & toasts & -> & Hs & Ht); try done.
  cbn [fst snd]. rewrite Hs. unfold StreamingChat.finalUrl.
  split; [|split; [|split; [|split]]].
  - intros Hp. rewrite bool_decide_eq_true_2 by done. split.
    + intros pre post -> Hno. by apply replace_first.
    + apply replace_absent.
  - intros Hp. by rewrite bool_decide_eq_false_2.
  - by exists toasts.
  - intros input st1 r (_ & _ & _ & _ & ->)%sendMessage_begin_Some.
    cbn [StreamingChat.onChange StreamingChat.setInput StreamingChat.serverUrl].
    rewrite Hs. unfold StreamingChat.finalUrl. eauto.
  - assert (Hrun : run_effects (preferences p)
                     (Fetch (GET (StreamingChat.finalUrl p url ++ str "/api/tags")
                                 [("Accept", "application/json")]) :: toasts)
                   = preferences p)
      by (by destruct Ht as [-> | ->]).
    unfold StreamingChat.finalUrl in Hrun. by rewrite Hrun.
Qed.

Lemma https_rewrite_witness :
  preferences_readable (host configured "https:") = true
  /\ StreamingChat.loadServerConfig example_engine (host configured "https:")
       tags_body StreamingChat.initialState
     = ({| StreamingChat.messages := [];
           StreamingChat.input := [];
           StreamingChat.isLoading := false;
           StreamingChat.serverUrl := str "https://localhost:11434";
           StreamingChat.selectedModel := str "llama3";
           StreamingChat.localModels :=
             JArr [JObj [(str "name", JStr (str "llama3"))]];
           StreamingChat.error := None |},
        [Fetch (GET (str "https://localhost:11434/api/tags")
                    [("Accept", "application/json")])])
  /\ StreamingChat.serverUrl
       (StreamingChat.loadServerConfig example_engine (host configured "https:")
          tags_body StreamingChat.initialState).1
     = [] ++ str "https:" ++ str "//localhost:11434"
  /\ (exists st1 headers body,
        StreamingChat.sendMessage_begin
          (StreamingChat.onChange (str "hi")
             (StreamingChat.loadServerConfig example_engine
                (host configured "https:") tags_body
                StreamingChat.initialState).1)
        = Some (st1, POST (str "https://localhost:11434/api/chat") headers body))
  /\ run_effects (preferences (host configured "https:"))
       (StreamingChat.loadServerConfig example_engine (host configured "https:")
          tags_body StreamingChat.initialState).2
     !! "ollama_server_url"%string
     = Some (str "http://localhost:11434").
Proof.
  split; [reflexivity|]. split; [vm_compute; reflexivity|].
  pose proof (https_rewrite example_engine (host configured "https:") tags_body
                StreamingChat.initialState
                (str "http://localhost:11434") (str "llama3")
                eq_refl eq_refl ltac:(discriminate)
                eq_refl ltac:(discriminate)) as (Hs & _ & _ & Hchat & _ & Hstore).
  split; [|split; [|exact Hstore]].
  - exact (proj1 (Hs eq_refl) [] (str "//localhost:11434") eq_refl eq_refl).
  - eexists _, _, _. vm_compute. reflexivity.
Defined.

(** ** More facts about strings *)

Lemma trimStart_blank (s : jsstring) :
  forallb is_white_space s = true -> trimStart s = [].
Proof.
  induction s as [|c s IH]; [done|]. simpl.
  intros [Hc Hs]%andb_true_iff. rewrite Hc. by apply IH.
Qed.

Lemma trim_blank (s : jsstring) :
  forallb is_white_space s = true -> trim s = [].
Proof. intros H. unfold trim. by rewrite (trimStart_blank s H). Qed.

Lemma trimStart_head (s : jsstring) (c : N) :
  head (trimStart s) = Some c -> is_white_space c = false.
Proof.
  induction s as [|a s IH]; [done|]. simpl.
  destruct (is_white_space a) eqn:Ha; [done|]. simpl. by intros [= <-].
Qed.

Lemma trimStart_suffix (s : jsstring) :
  exists pre, s = pre ++ trimStart s /\ forallb is_white_space pre = true.
Proof.
  induction s as [|a s (pre & IH & Hpre)]; [by exists []|]. simpl.
  destruct (is_white_space a) eqn:Ha.
  - exists (a :: pre). simpl. rewrite Ha, Hpre. by rewrite <- IH.
  - by exists [].
Qed.

Lemma head_rev (s : jsstring) : head (rev s) = last s.
Proof. rewrite rev_alt. apply head_reverse. Qed.

Lemma last_rev (s : jsstring) : last (rev s) = head s.
Proof. rewrite rev_alt. apply last_reverse. Qed.

(** What [trim] returns neither begins nor ends with white space. *)
Lemma trim_ends (s : jsstring) (c : N) :
  head (trim s) = Some c \/ last (trim s) = Some c ->
  is_white_space c = false.
Proof.
  unfold trim.
  destruct (trimStart_suffix (rev (trimStart s))) as (pre & Hpre & _).
  set (v := trimStart (rev (trimStart s))) in *.
  intros [H | H].
  - rewrite head_rev in H.
    assert (Hlast : last (rev (trimStart s)) = Some c).
    { rewrite Hpre. destruct v as [|x v] using rev_ind; [done|].
      rewrite app_assoc, last_snoc. by rewrite last_snoc in H. }
    rewrite last_rev in Hlast. by apply trimStart_head in Hlast.
  - rewrite last_rev in H. by apply trimStart_head in H.
Qed.

(** [trim] cuts white space, and only white space, off both ends. *)
Lemma trim_split (s : jsstring) :
  exists before after,
    s = before ++ trim s ++ after
    /\ forallb is_white_space before = true
    /\ forallb is_white_space after = true.
Proof.
  destruct (trimStart_suffix s) as (before & Hs & Hbefore).
  destruct (trimStart_suffix (rev (trimStart s))) as (pre & Hrev & Hpre).
  exists before, (rev pre). unfold trim. split; [|split; [done|]].
  - rewrite <- rev_app_distr, <- Hrev, rev_involutive. exact Hs.
  - rewrite forallb_forall in Hpre. apply forallb_forall.
    intros c Hc. apply Hpre. by apply in_rev.
Qed.

(** ** Turns of the chat screens *)

(** What one update does to the transcript: it adds a message at the
    end, or it leaves all but the last message, which it may replace; a
    transcript that ends with a user message gets a message added. *)
Lemma apply_update_shape (msgs : list Message) (u : transcript_update) :
  (exists m, apply_update msgs u = msgs ++ [m])
  \/ (exists init m m',
        msgs = init ++ [m] /\ is_assistant m = true
        /\ apply_update msgs u = init ++ [m']).
Proof.
  destruct u as [text | acc]; [left; by eexists|].
  cbn [apply_update].
  destruct msgs as [|m0 init _] using rev_ind.
  - left. rewrite updater_nil. by eexists.
  - destruct m0 as [[] c].
    + left. rewrite updater_push by done. eexists. by rewrite <- app_assoc.
    + right. exists init, {| role := assistant; content := c |}.
      destruct (startsWith c acc) eqn:Hc.
      * rewrite updater_skip by done. by eexists.
      * rewrite updater_replace by done. by eexists.
Qed.

Lemma apply_update_length (msgs : list Message) (u : transcript_update) :
  (length msgs <= length (apply_update msgs u) <= S (length msgs))%nat.
Proof.
  destruct (apply_update_shape msgs u)
    as [[m ->] | (init & m & m' & -> & _ & ->)];
    rewrite !length_app; simpl; lia.
Qed.

Lemma apply_update_take (msgs : list Message) (u : transcript_update) :
  take (length msgs - 1) (apply_update msgs u) = take (length msgs - 1) msgs.
Proof.
  destruct (apply_update_shape msgs u)
    as [[m ->] | (init & m & m' & -> & _ & ->)].
  - rewrite take_app_le by lia. done.
  - rewrite length_app. cbn [length].
    replace (length init + 1 - 1)%nat with (length init) by lia.
    by rewrite !take_app_length.
Qed.

(** X1.  The transcript of the streaming screen changes only through the
    two functions it passes to [setMessages].  Whatever sequence of them is
    applied (any number of turns, one after another or overlapping, their
    updates in any order and any number of times), no message is ever
    removed, and no message but the last one of the transcript is ever
    changed: the transcript without its last message is a prefix of every
    later transcript, and so is the whole transcript when its last message
    is a user message. *)
Theorem transcript_prefix_is_stable (msgs : list Message)
    (updates : list transcript_update) :
  let later := apply_updates msgs updates in
  (length msgs <= length later <= length msgs + length updates)%nat
  /\ take (length msgs - 1) later = take (length msgs - 1) msgs
  /\ (forall m, last msgs = Some m -> is_assistant m = false ->
        take (length msgs) later = msgs).
Proof.
  cbn zeta. revert msgs.
  induction updates as [|u updates IH]; intros msgs.
  { cbn. split; [lia|]. split; [done|]. intros _ _ _. apply firstn_all. }
  unfold apply_updates in *. cbn [foldl length].
  pose proof (apply_update_length msgs u) as Hlen.
  pose proof (apply_update_take msgs u) as Htake.
  destruct (IH (apply_update msgs u)) as (IHlen & IHtake & _).
  split; [lia|]. split.
  - assert (Htt : forall (l : list Message) n k,
              (n <= k)%nat -> take n (take k l) = take n l)
      by (intros l n k Hnk; rewrite take_take; f_equal; lia).
    rewrite <- Htake.
    rewrite <- (Htt (foldl apply_update (apply_update msgs u) updates)
                  (length msgs - 1)%nat
                  (length (apply_update msgs u) - 1)%nat) by lia.
    rewrite IHtake. apply Htt. lia.
  - intros m Hlast Hm.
    destruct (apply_update_shape msgs u)
      as [[m1 Hu] | (init & m1 & m' & Hmsgs & Hm1 & _)].
    + rewrite Hu in IHtake. rewrite length_app in IHtake.
      cbn [length] in IHtake.
      replace (length msgs + 1 - 1)%nat with (length msgs) in IHtake by lia.
      rewrite Hu, IHtake. by rewrite take_app_length.
    + subst msgs. rewrite last_snoc in Hlast. injection Hlast as <-.
      congruence.
Qed.



(** X3.  An input made of white space only sends nothing: [sendMessage]
    returns at its guard, leaving the state as it was and making no
    request, and neither the Enter key nor the send button starts a turn,
    on both screens. *)
Theorem blank_input_sends_nothing (engine : Engine)
    (st : StreamingChat.ChatState) (net : fetch_outcome)
    (sst : SimpleChat.ChatState) (snet : fetch_outcome) :
  forallb is_white_space (StreamingChat.input st) = true ->
  forallb is_white_space (SimpleChat.input sst) = true ->
  (StreamingChat.sendMessage engine st net = (st, [])
   /\ StreamingChat.onKeyPress "Enter" st = None
   /\ StreamingChat.onClick st = None)
  /\ (SimpleChat.sendMessage engine sst snet = (sst, [])
      /\ SimpleChat.onKeyPress "Enter" sst = None
      /\ SimpleChat.onClick sst = None).
Proof.
  intros H Hs.
  assert (Hb : StreamingChat.sendMessage_begin st = None).
  { unfold StreamingChat.sendMessage_begin. by rewrite (trim_blank _ H). }
  assert (Hsb : SimpleChat.sendMessage_begin sst = None).
  { unfold SimpleChat.sendMessage_begin. by rewrite (trim_blank _ Hs). }
  split; (split; [|split]).
  - unfold StreamingChat.sendMessage. by rewrite Hb.
  - unfold StreamingChat.onKeyPress. rewrite Hb. by destruct (bool_decide _).
  - unfold StreamingChat.onClick. rewrite Hb.
    by destruct (StreamingChat.disabled st).
  - unfold SimpleChat.sendMessage. by rewrite Hsb.
  - unfold SimpleChat.onKeyPress. rewrite Hsb. by destruct (bool_decide _).
  - unfold SimpleChat.onClick. rewrite Hsb. by destruct (SimpleChat.disabled sst).
Qed.

Lemma blank_input_sends_nothing_witness :
  forallb is_white_space
    (StreamingChat.input (StreamingChat.onChange blank_text ready)) = true
  /\ forallb is_white_space
       (SimpleChat.input (SimpleChat.setInput blank_text simple_ready)) = true
  /\ StreamingChat.sendMessage example_engine
       (StreamingChat.onChange blank_text ready) (streamed [chunk_a])
     = (StreamingChat.onChange blank_text ready, [])
  /\ SimpleChat.sendMessage example_engine
       (SimpleChat.setInput blank_text simple_ready) (streamed [chunk_a])
     = (SimpleChat.setInput blank_text simple_ready, []).
Proof.
  assert (H : forallb is_white_space
                (StreamingChat.input (StreamingChat.onChange blank_text ready))
              = true) by reflexivity.
  assert (Hs : forallb is_white_space
                 (SimpleChat.input (SimpleChat.setInput blank_text simple_ready))
               = true) by reflexivity.
  split; [exact H|]. split; [exact Hs|].
  destruct (blank_input_sends_nothing example_engine
              (StreamingChat.onChange blank_text ready) (streamed [chunk_a])
              (SimpleChat.setInput blank_text simple_ready)
              (streamed [chunk_a]) H Hs) as [[H1 _] [H2 _]].
  split; [exact H1 | exact H2].
Defined.

(** X4.  The user message a turn appends is the input without the white
    space around it: it is the last entry of the transcript when the
    request is made, it is not empty, and it neither begins nor ends with
    white space; the request of the streaming screen ends with that very
    message. *)
Theorem user_message_is_trimmed (st st1 : StreamingChat.ChatState)
    (r : request) :
  StreamingChat.sendMessage_begin st = Some (st1, r) ->
  exists text url headers body,
    last (StreamingChat.messages st1) = Some {| role := user; content := text |}
    /\ r = POST url headers body
    /\ last (body_messages body) = Some {| role := user; content := text |}
    /\ text <> []
    /\ (forall c, head text = Some c -> is_white_space c = false)
    /\ (forall c, last text = Some c -> is_white_space c = false)
    /\ exists before after,
         StreamingChat.input st = before ++ text ++ after
         /\ forallb is_white_space before = true
         /\ forallb is_white_space after = true.
Proof.
  intros (Hne & _ & _ & -> & ->)%sendMessage_begin_Some.
  eexists (trim (StreamingChat.input st)), _, _, _.
  cbn [StreamingChat.messages body_messages].
  split; [apply last_snoc|]. split; [reflexivity|].
  split; [apply last_snoc|]. split; [done|].
  split; [intros c Hc; apply (trim_ends (StreamingChat.input st)); by left|].
  split; [intros c Hc; apply (trim_ends (StreamingChat.input st)); by right|].
  apply trim_split.
Qed.

Lemma user_message_is_trimmed_witness :
  exists st1 r,
    StreamingChat.sendMessage_begin (StreamingChat.onChange padded_text ready)
    = Some (st1, r)
    /\ exists text url headers body,
         last (StreamingChat.messages st1)
         = Some {| role := user; content := text |}
         /\ r = POST url headers body
         /\ last (body_messages body) = Some {| role := user; content := text |}
         /\ text <> []
         /\ (forall c, head text = Some c -> is_white_space c = false)
         /\ (forall c, last text = Some c -> is_white_space c = false)
         /\ exists before after,
              StreamingChat.input (StreamingChat.onChange padded_text ready)
              = before ++ text ++ after
              /\ forallb is_white_space before = true
              /\ forallb is_white_space after = true.
Proof.
  eexists _, _.
  assert (Hb : StreamingChat.sendMessage_begin
                 (StreamingChat.onChange padded_text ready) = Some (_, _))
    by reflexivity.
  split; [exact Hb|].
  exact (user_message_is_trimmed _ _ _ Hb).
Defined.

(** ** More on the streaming fold *)

Lemma delivered_app (events more : list event) :
  delivered (events ++ more)
  = delivered events ++ (if completed events then [] else delivered more).
Proof.
  induction events as [|[|text d] events IH]; simpl; [done .. |].
  rewrite IH. destruct d; simpl; [by rewrite !app_nil_r|].
  by rewrite app_assoc.
Qed.

Lemma completed_app (events more : list event) :
  completed (events ++ more) = completed events || completed more.
Proof.
  induction events as [|[|text d] events IH]; simpl; [done .. |].
  by rewrite IH, orb_assoc.
Qed.

(** X5.  The end of the stream completes a turn as a [done] event does: a
    body that ends without [done] leaves the state, and makes the
    requests, of the same body followed by a chunk whose only event is
    [done]. *)
Theorem end_of_stream_completes (engine : Engine)
    (st : StreamingChat.ChatState) (status : N)
    (values : list (list Byte.byte)) (final : list Byte.byte) :
  map (line_event engine) (stream_lines [final]) = [Event None true] ->
  StreamingChat.sendMessage engine st
    (FetchResponse true status
       (Some {| chunks := values; ending := EndOfStream |}))
  = StreamingChat.sendMessage engine st
      (FetchResponse true status
         (Some {| chunks := values ++ [final]; ending := EndOfStream |})).
Proof.
  intros Hfinal.
  destruct (StreamingChat.sendMessage_begin st) as [[st1 r]|] eqn:Hb.
  2:{ unfold StreamingChat.sendMessage. by rewrite Hb. }
  rewrite !(sendMessage_stream engine st st1 r) by done.
  rewrite stream_lines_app, map_app, Hfinal, delivered_app.
  cbn [delivered app].
  destruct (completed (map _ (stream_lines values)));
    rewrite app_nil_r; by destruct (completed _).
Qed.

Lemma end_of_stream_completes_witness :
  map (line_event example_engine) (stream_lines [chunk_done])
  = [Event None true]
  /\ StreamingChat.sendMessage example_engine ready
       (FetchResponse true 200
          (Some {| chunks := [chunk_a; chunk_b]; ending := EndOfStream |}))
     = StreamingChat.sendMessage example_engine ready
         (FetchResponse true 200
            (Some {| chunks := [chunk_a; chunk_b] ++ [chunk_done];
                     ending := EndOfStream |})).
Proof.
  assert (H : map (line_event example_engine) (stream_lines [chunk_done])
              = [Event None true]) by (vm_compute; reflexivity).
  split; [exact H|].
  exact (end_of_stream_completes example_engine ready 200 [chunk_a; chunk_b]
           chunk_done H).
Defined.

(** X6.  When a read of the body is rejected before any [done] event, the
    turn reports the error (banner with the message of the exception, and
    a toast) and keeps in the transcript the user message and the
    assistant message made of every text delivered until then; nothing is
    rolled back. *)
Theorem failed_read_keeps_delivered (engine : Engine)
    (st st1 : StreamingChat.ChatState) (r : request) (status : N)
    (values : list (list Byte.byte)) (x : thrown) :
  StreamingChat.sendMessage_begin st = Some (st1, r) ->
  completed (map (line_event engine) (stream_lines values)) = false ->
  StreamingChat.sendMessage engine st
    (FetchResponse true status
       (Some {| chunks := values; ending := ReadThrows x |}))
  = ({| StreamingChat.messages :=
          (StreamingChat.messages st
           ++ [{| role := user; content := trim (StreamingChat.input st) |}])
          ++ assistant_entry
               (delivered (map (line_event engine) (stream_lines values)));
        StreamingChat.input := [];
        StreamingChat.isLoading := false;
        StreamingChat.serverUrl := StreamingChat.serverUrl st;
        StreamingChat.selectedModel := StreamingChat.selectedModel st;
        StreamingChat.localModels := StreamingChat.localModels st;
        StreamingChat.error := Some (errorMessage_of x) |},
     [Fetch r; Toast "Error" true]).
Proof.
  intros Hb Hc. rewrite (sendMessage_stream engine st st1 r) by done.
  rewrite Hc. by apply sendMessage_begin_Some in Hb as (_ & _ & _ & -> & _).
Qed.

Lemma failed_read_keeps_delivered_witness :
  exists st1 r,
    StreamingChat.sendMessage_begin ready = Some (st1, r)
    /\ completed (map (line_event example_engine)
                    (stream_lines [chunk_a; chunk_bad; chunk_b])) = false
    /\ StreamingChat.sendMessage example_engine ready
         (FetchResponse true 200
            (Some {| chunks := [chunk_a; chunk_bad; chunk_b];
                     ending := ReadThrows OtherValue |}))
       = ({| StreamingChat.messages :=
               [{| role := user; content := str "hi" |};
                {| role := assistant; content := str "ab" |}];
             StreamingChat.input := [];
             StreamingChat.isLoading := false;
             StreamingChat.serverUrl := str "http://localhost:11434";
             StreamingChat.selectedModel := str "llama3";
             StreamingChat.localModels := JArr [];
             StreamingChat.error := Some (str "Unknown error occurred") |},
          [Fetch r; Toast "Error" true]).
Proof.
  eexists _, _.
  assert (Hb : StreamingChat.sendMessage_begin ready = Some (_, _))
    by reflexivity.
  assert (Hc : completed (map (line_event example_engine)
                            (stream_lines [chunk_a; chunk_bad; chunk_b]))
               = false) by (vm_compute; reflexivity).
  split; [exact Hb|]. split; [exact Hc|].
  exact (failed_read_keeps_delivered example_engine ready _ _ 200
           [chunk_a; chunk_bad; chunk_b] OtherValue Hb Hc).
Defined.

(** X7.  A turn whose lines carry no truthy content (malformed lines,
    events without [message.content], events whose content is the empty
    string) adds no assistant message at all, not even an empty one: the
    user message stays the last entry, with or without [done] and however
    the body ends.  No error is reported when the body ends or a [done]
    event comes; a read rejected before any [done] event is reported by
    the banner and a toast like any other. *)
Theorem no_content_no_assistant_message (engine : Engine)
    (st st1 : StreamingChat.ChatState) (r : request) (status : N)
    (values : list (list Byte.byte)) (e : stream_end) :
  StreamingChat.sendMessage_begin st = Some (st1, r) ->
  Forall (fun line =>
            line_event engine line = Skipped
            \/ exists done, line_event engine line = Event None done)
         (stream_lines values) ->
  let outcome :=
    if completed (map (line_event engine) (stream_lines values))
    then EndOfStream else e in
  StreamingChat.sendMessage engine st
    (FetchResponse true status (Some {| chunks := values; ending := e |}))
  = ({| StreamingChat.messages :=
          StreamingChat.messages st
          ++ [{| role := user; content := trim (StreamingChat.input st) |}];
        StreamingChat.input := [];
        StreamingChat.isLoading := false;
        StreamingChat.serverUrl := StreamingChat.serverUrl st;
        StreamingChat.selectedModel := StreamingChat.selectedModel st;
        StreamingChat.localModels := StreamingChat.localModels st;
        StreamingChat.error :=
          match outcome with
          | EndOfStream => None
          | ReadThrows x => Some (errorMessage_of x)
          end |},
     Fetch r :: match outcome with
                | EndOfStream => []
                | ReadThrows _ => [Toast "Error" true]
                end).
Proof.
  intros Hb Hlines outcome. subst outcome.
  rewrite (sendMessage_stream engine st st1 r) by done.
  assert (Hd : delivered (map (line_event engine) (stream_lines values)) = []).
  { induction Hlines as [|line lines [Hl | [d Hl]] _ IH]; simpl;
      [done | by rewrite Hl |]. rewrite Hl. simpl. by destruct d. }
  rewrite Hd.
  apply sendMessage_begin_Some in Hb as (_ & _ & _ & -> & _).
  cbn [assistant_entry]. rewrite app_nil_r.
  by destruct (if completed _ then _ else _).
Qed.

Lemma no_content_no_assistant_message_witness :
  exists st1 r,
    StreamingChat.sendMessage_begin ready = Some (st1, r)
    /\ StreamingChat.messages
         (StreamingChat.sendMessage example_engine ready
            (FetchResponse true 200
               (Some {| chunks := [chunk_empty_content; chunk_bad];
                        ending := ReadThrows OtherValue |}))).1
       = [{| role := user; content := str "hi" |}]
    /\ StreamingChat.error
         (StreamingChat.sendMessage example_engine ready
            (FetchResponse true 200
               (Some {| chunks := [chunk_empty_content; chunk_bad];
                        ending := ReadThrows OtherValue |}))).1
       = Some (str "Unknown error occurred").
Proof.
  eexists _, _.
  assert (Hb : StreamingChat.sendMessage_begin ready = Some (_, _))
    by reflexivity.
  split; [exact Hb|].
  assert (Hl : stream_lines [chunk_empty_content; chunk_bad]
               = [strq "{'message':{'role':'assistant','content':''},'done':false}";
                  line_bad]) by (vm_compute; reflexivity).
  assert (Hlines :
    Forall (fun line =>
              line_event example_engine line = Skipped
              \/ exists done, line_event example_engine line = Event None done)
           (stream_lines [chunk_empty_content; chunk_bad])).
  { rewrite Hl.
    constructor; [right; by exists false|].
    constructor; [by left|].
    constructor. }
  pose proof (no_content_no_assistant_message example_engine ready _ _ 200
                [chunk_empty_content; chunk_bad] (ReadThrows OtherValue)
                Hb Hlines) as H.
  split; [exact (f_equal (fun x => StreamingChat.messages x.1) H)
         | exact (f_equal (fun x => StreamingChat.error x.1) H)].
Defined.

(** X8.  A line whose JSON text is any value other than an object (a
    number, a string, an array, a literal, [null] included, where reading
    [message] throws) changes nothing: the accumulated text and the state
    are left as they were and the loop goes on. *)
Theorem non_object_line_is_ignored (engine : Engine) (acc : jsstring)
    (st : StreamingChat.ChatState) (line : jsstring) (v : json) :
  JSON_parse line = Some v ->
  (forall members, v <> JObj members) ->
  StreamingChat.processLine engine acc st line = (acc, st, false).
Proof.
  intros Hp Hv. unfold StreamingChat.processLine, StreamingChat.fragment.
  rewrite Hp. destruct v; try done. by destruct (Hv members).
Qed.

Lemma non_object_line_is_ignored_witness :
  JSON_parse (strq "['message', {'content':'x'}, true]")
  = Some (JArr [JStr (str "message");
                JObj [(str "content", JStr (str "x"))];
                JBool true])
  /\ StreamingChat.processLine example_engine (str "so far") ready
       (strq "['message', {'content':'x'}, true]")
     = (str "so far", ready, false).
Proof.
  assert (Hp : JSON_parse (strq "['message', {'content':'x'}, true]")
               = Some (JArr [JStr (str "message");
                             JObj [(str "content", JStr (str "x"))];
                             JBool true])) by reflexivity.
  split; [exact Hp|].
  exact (non_object_line_is_ignored example_engine (str "so far") ready _ _ Hp
           ltac:(discriminate)).
Defined.

(** ** Chunks and lines *)

Lemma String_split_app (sep : N) (a b : jsstring) :
  String_split sep (a ++ sep :: b) = String_split sep a ++ String_split sep b.
Proof.
  induction a as [|c a IH]; simpl.
  - by rewrite N.eqb_refl.
  - rewrite IH. destruct (c =? sep); [done|].
    destruct (String_split sep a) as [|seg segs] eqn:Ha; [|done].
    by destruct a; simpl in Ha; try destruct (_ =? _); try destruct (String_split _ _).
Qed.

(** The lines of a text cut after a line feed are the lines of its two
    parts. *)
Lemma lines_of_app (a b : jsstring) :
  lines_of (a ++ 10 :: b) = lines_of a ++ lines_of b.
Proof. unfold lines_of. by rewrite String_split_app, filter_app. Qed.

Lemma lines_of_newline (a : jsstring) : lines_of (a ++ [10]) = lines_of a.
Proof. rewrite lines_of_app. apply app_nil_r. Qed.

Lemma String_split_blank (sep : N) (s : jsstring) :
  forallb is_white_space s = true ->
  Forall (fun seg => forallb is_white_space seg = true) (String_split sep s).
Proof.
  induction s as [|c s IH]; simpl; [by repeat constructor|].
  intros [Hc Hs]%andb_true_iff. specialize (IH Hs).
  destruct (c =? sep); [by constructor|].
  destruct (String_split sep s) as [|seg segs]; [by repeat constructor; simpl; rewrite Hc|].
  inversion IH as [|? ? Hseg Hsegs]; subst.
  constructor; [simpl; by rewrite Hc | done].
Qed.

(** A text of white space only has no line. *)
Lemma lines_of_blank (s : jsstring) :
  forallb is_white_space s = true -> lines_of s = [].
Proof.
  intros H%(String_split_blank 10). unfold lines_of.
  induction H as [|seg segs Hseg _ IH]; [done|].
  rewrite filter_cons, (trim_blank _ Hseg). by rewrite decide_False.
Qed.

(** The outcome of a turn depends on its chunks through their lines
    only. *)
Lemma sendMessage_lines (engine : Engine) (st : StreamingChat.ChatState)
    (ok : bool) (status : N) (values values' : list (list Byte.byte))
    (e : stream_end) :
  stream_lines values = stream_lines values' ->
  StreamingChat.sendMessage engine st
    (FetchResponse ok status (Some {| chunks := values; ending := e |}))
  = StreamingChat.sendMessage engine st
      (FetchResponse ok status (Some {| chunks := values'; ending := e |})).
Proof.
  intros Hl.
  destruct (StreamingChat.sendMessage_begin st) as [[st1 r]|] eqn:Hb.
  2:{ unfold StreamingChat.sendMessage. by rewrite Hb. }
  destruct ok.
  - rewrite !(sendMessage_stream engine st st1 r) by done. by rewrite Hl.
  - unfold StreamingChat.sendMessage. by rewrite Hb.
Qed.

(** X9.  A chunk that decodes to white space only (line feeds sent to
    keep the connection alive, say) can come anywhere in the body without
    changing the outcome of the turn, however the body ends. *)
Theorem blank_chunk_is_ignored (engine : Engine)
    (st : StreamingChat.ChatState) (status : N)
    (before after : list (list Byte.byte)) (blank : list Byte.byte)
    (e : stream_end) :
  forallb is_white_space (TextDecoder_decode blank) = true ->
  StreamingChat.sendMessage engine st
    (FetchResponse true status
       (Some {| chunks := before ++ blank :: after; ending := e |}))
  = StreamingChat.sendMessage engine st
      (FetchResponse true status
         (Some {| chunks := before ++ after; ending := e |})).
Proof.
  intros H. apply sendMessage_lines.
  rewrite !stream_lines_app. f_equal.
  unfold stream_lines. cbn [flat_map]. by rewrite (lines_of_blank _ H).
Qed.

Lemma blank_chunk_is_ignored_witness :
  forallb is_white_space
    (TextDecoder_decode [Byte.x0d; Byte.x0a; Byte.x20; Byte.x0a]) = true
  /\ StreamingChat.sendMessage example_engine ready
       (FetchResponse true 200
          (Some {| chunks := [chunk_a]
                             ++ [Byte.x0d; Byte.x0a; Byte.x20; Byte.x0a]
                                :: [chunk_b];
                   ending := EndOfStream |}))
     = StreamingChat.sendMessage example_engine ready
         (FetchResponse true 200
            (Some {| chunks := [chunk_a] ++ [chunk_b];
                     ending := EndOfStream |})).
Proof.
  assert (H : forallb is_white_space
                (TextDecoder_decode [Byte.x0d; Byte.x0a; Byte.x20; Byte.x0a])
              = true) by reflexivity.
  split; [exact H|].
  exact (blank_chunk_is_ignored example_engine ready 200 [chunk_a] [chunk_b]
           _ EndOfStream H).
Defined.

(** *** The decoder at a line feed *)

(** Decoding a prefix leaves the decoder in some state, from which the
    rest is decoded; an open sequence only accepts bytes from 0x80 on. *)
Lemma utf8_decode_app (a : list N) (st : utf8_state) :
  bytes_needed st = 0 \/ 0x80 <= lower_boundary st ->
  exists out st',
    (bytes_needed st' = 0 \/ 0x80 <= lower_boundary st')
    /\ forall rest, utf8_decode st (a ++ rest) = out ++ utf8_decode st' rest.
Proof.
  revert st. induction a as [|b a IH]; intros st Hst.
  - by exists [], st.
  - assert (Hlead : forall out' st'', utf8_lead b = (out', st'') ->
              bytes_needed st'' = 0 \/ 0x80 <= lower_boundary st'').
    { unfold utf8_lead. intros out' st''.
      repeat (destruct (_ <=? _) || destruct (_ && _)); intros [= <- <-];
        cbn; try (by left); right;
        repeat destruct (_ =? _); lia. }
    destruct (utf8_byte st b) as [o s1] eqn:Hb.
    assert (Hs1 : bytes_needed s1 = 0 \/ 0x80 <= lower_boundary s1).
    { revert Hb. unfold utf8_byte.
      destruct (bytes_needed st =? 0); [apply Hlead|].
      destruct (_ || _).
      - destruct (utf8_lead b) as [o' s'] eqn:Hl. intros [= <- <-].
        by apply (Hlead o').
      - destruct (_ =? _); intros [= <- <-]; cbn; [by left | right; lia]. }
    destruct (IH s1 Hs1) as (out & st' & Hst' & Hrest).
    exists (o ++ out), st'. split; [done|]. intros rest.
    cbn [app utf8_decode]. rewrite Hb, Hrest. by rewrite app_assoc.
Qed.

(** A line feed closes whatever sequence is open and leaves the decoder in
    its initial state. *)
Lemma utf8_decode_newline (st : utf8_state) :
  bytes_needed st = 0 \/ 0x80 <= lower_boundary st ->
  exists out,
    forall rest,
      utf8_decode st (10 :: rest) = (out ++ [10]) ++ utf8_decode utf8_initial rest.
Proof.
  intros Hst. cbn [utf8_decode]. unfold utf8_byte.
  destruct (bytes_needed st =? 0) eqn:Hn.
  - by exists [].
  - destruct Hst as [Hst | Hst]; [apply N.eqb_neq in Hn; lia|].
    assert (Hlow : (10 <? lower_boundary st) = true) by (apply N.ltb_lt; lia).
    rewrite Hlow. by exists [U_FFFD].
Qed.

Lemma strip_bom_app (x y : list N) :
  x <> [] -> strip_bom (x ++ y) = strip_bom x ++ y.
Proof. destruct x as [|c x]; [done|]. simpl. by destruct (c =? 0xFEFF). Qed.

Lemma strip_bom_last (x : list N) :
  exists x', strip_bom (x ++ [10]) = x' ++ [10].
Proof.
  destruct x as [|c x]; [by exists []|]. simpl.
  destruct (c =? 0xFEFF); [by exists x | by exists (c :: x)].
Qed.

(** A chunk that ends with a line feed decodes to a text that ends with
    one, and a chunk that follows it and begins with an ASCII byte is
    decoded as it would be in one chunk with it. *)
Lemma TextDecoder_decode_cut (c1 c2 : list Byte.byte) :
  last c1 = Some Byte.x0a ->
  (forall b, head c2 = Some b -> Byte.to_N b < 0x80) ->
  exists text,
    TextDecoder_decode c1 = text ++ [10]
    /\ TextDecoder_decode (c1 ++ c2) = text ++ 10 :: TextDecoder_decode c2.
Proof.
  intros Hlast Hhead.
  apply last_Some in Hlast as [c1' ->].
  unfold TextDecoder_decode.
  rewrite <- app_assoc, !map_app. cbn [map app].
  change (Byte.to_N Byte.x0a) with 10.
  destruct (utf8_decode_app (map Byte.to_N c1') utf8_initial) as
    (out1 & st' & Hst' & Hrest); [by left|].
  destruct (utf8_decode_newline st' Hst') as [out2 Hnl].
  rewrite !Hrest, !Hnl. cbn [utf8_decode]. rewrite app_nil_r.
  rewrite !app_assoc. generalize (out1 ++ out2); intros x.
  destruct (strip_bom_last x) as [x' Hx'].
  rewrite (strip_bom_app (x ++ [10])) by (clear; by destruct x).
  rewrite Hx'.
  assert (Hc2 : strip_bom (utf8_decode utf8_initial (map Byte.to_N c2))
                = utf8_decode utf8_initial (map Byte.to_N c2)).
  { destruct c2 as [|b c2]; [done|].
    specialize (Hhead b eq_refl). cbn [map utf8_decode].
    unfold utf8_byte, utf8_lead. cbn [bytes_needed utf8_initial N.eqb].
    assert (Hb : (Byte.to_N b <=? 0x7F) = true) by (apply N.leb_le; lia).
    rewrite Hb. cbn [app strip_bom].
    assert (Hne : (Byte.to_N b =? 0xFEFF) = false) by (apply N.eqb_neq; lia).
    by rewrite Hne. }
  rewrite Hc2. exists (flat_map utf16 x').
  rewrite !flat_map_app. cbn [flat_map]. split; [done|].
  by rewrite <- !app_assoc.
Qed.

(** X10.  Where the body is cut into chunks does not matter so long as it
    is cut after a line feed and the next chunk begins with an ASCII byte
    (the brace of a JSON line, say) or is empty: the turn ends as it does
    with the two chunks in one, however the body ends. *)
Theorem cut_after_line_feed_is_harmless (engine : Engine)
    (st : StreamingChat.ChatState) (status : N)
    (before after : list (list Byte.byte)) (c1 c2 : list Byte.byte)
    (e : stream_end) :
  last c1 = Some Byte.x0a ->
  (forall b, head c2 = Some b -> Byte.to_N b < 0x80) ->
  StreamingChat.sendMessage engine st
    (FetchResponse true status
       (Some {| chunks := before ++ [c1; c2] ++ after; ending := e |}))
  = StreamingChat.sendMessage engine st
      (FetchResponse true status
         (Some {| chunks := before ++ [c1 ++ c2] ++ after; ending := e |})).
Proof.
  intros Hlast Hhead. apply sendMessage_lines.
  rewrite !stream_lines_app. f_equal. f_equal.
  unfold stream_lines. cbn [flat_map]. rewrite !app_nil_r.
  destruct (TextDecoder_decode_cut c1 c2 Hlast Hhead) as (text & -> & ->).
  by rewrite lines_of_newline, lines_of_app.
Qed.

Lemma cut_after_line_feed_is_harmless_witness :
  last chunk_a = Some Byte.x0a
  /\ (forall b, head (chunk_b ++ chunk_done) = Some b -> Byte.to_N b < 0x80)
  /\ StreamingChat.sendMessage example_engine ready
       (FetchResponse true 200
          (Some {| chunks := [] ++ [chunk_a; chunk_b ++ chunk_done] ++ [];
                   ending := EndOfStream |}))
     = StreamingChat.sendMessage example_engine ready
         (FetchResponse true 200
            (Some {| chunks := [] ++ [chunk_a ++ chunk_b ++ chunk_done] ++ [];
                     ending := EndOfStream |})).
Proof.
  assert (Hlast : last chunk_a = Some Byte.x0a) by reflexivity.
  assert (Hhead : forall b, head (chunk_b ++ chunk_done) = Some b ->
                            Byte.to_N b < 0x80).
  { intros b [= <-]. reflexivity. }
  split; [exact Hlast|]. split; [exact Hhead|].
  exact (cut_after_line_feed_is_harmless example_engine ready 200 [] []
           chunk_a (chunk_b ++ chunk_done) EndOfStream Hlast Hhead).
Defined.

(** ** More on the transcript update *)

(** X11.  Whatever the accumulated text and the transcript, the update
    never removes a message and adds at most one, leaves every message
    but the last as it was (so no user message is ever changed), and
    leaves a transcript whose last message is an assistant message that
    begins with the accumulated text. *)
Theorem updater_touches_last_only (acc : jsstring) (prev : list Message) :
  let next := StreamingChat.updater acc prev in
  (length prev <= length next <= S (length prev))%nat
  /\ take (length prev - 1) next = take (length prev - 1) prev
  /\ filter (fun m => is_assistant m = false) next
     = filter (fun m => is_assistant m = false) prev
  /\ exists m, last next = Some m /\ role m = assistant
               /\ startsWith (content m) acc = true.
Proof.
  destruct prev as [|m0 msgs] using rev_ind; cbn zeta.
  - rewrite updater_nil. repeat split; [simpl; lia ..|].
    eexists. repeat split. apply startsWith_refl.
  - clear IHmsgs. rewrite length_app. cbn [length].
    replace (length msgs + 1 - 1)%nat with (length msgs) by lia.
    destruct m0 as [[] c].
    + rewrite updater_push by done.
      change [ {| role := user; content := c |};
               {| role := assistant; content := acc |} ]
        with ([ {| role := user; content := c |} ]
              ++ [ {| role := assistant; content := acc |} ]).
      rewrite app_assoc, !length_app. cbn [length].
      repeat split; [lia .. | | | ].
      * rewrite <- app_assoc. by rewrite !take_app_length.
      * rewrite (filter_app _ (msgs ++ _)). cbn. apply app_nil_r.
      * rewrite last_snoc. eexists. repeat split. apply startsWith_refl.
    + destruct (startsWith c acc) eqn:Hc.
      * rewrite updater_skip by done. rewrite length_app. cbn [length].
        repeat split; [lia .. |]. rewrite last_snoc. by eexists.
      * rewrite updater_replace by done. rewrite length_app. cbn [length].
        repeat split; [lia .. | | | ].
        -- by rewrite !take_app_length.
        -- by rewrite !filter_app.
        -- rewrite last_snoc. eexists. repeat split. apply startsWith_refl.
Qed.

(** X12.  React may run the queued transcript updates in batches, each
    update of a batch seeing the text accumulated at the end of the
    batch.  However the texts a turn delivers are grouped into batches,
    the transcript ends as the turn leaves it. *)
Theorem batching_is_unobservable (engine : Engine)
    (st st1 : StreamingChat.ChatState) (r : request) (status : N)
    (values : list (list Byte.byte)) (e : stream_end)
    (batches : list (list jsstring)) :
  StreamingChat.sendMessage_begin st = Some (st1, r) ->
  concat batches = delivered (map (line_event engine) (stream_lines values)) ->
  run_batches [] (StreamingChat.messages st1) batches
  = StreamingChat.messages
      (fst (StreamingChat.sendMessage engine st
              (FetchResponse true status
                 (Some {| chunks := values; ending := e |})))).
Proof.
  intros Hb Hd. rewrite (sendMessage_stream engine st st1 r) by done.
  rewrite <- Hd.
  apply sendMessage_begin_Some in Hb as (_ & _ & _ & -> & _).
  cbn [StreamingChat.messages].
  pose proof (run_batches_delivered batches [] (StreamingChat.messages st)
                {| role := user; content := trim (StreamingChat.input st) |}
                eq_refl) as H.
  cbn [concat assistant_entry app] in H. rewrite app_nil_r in H.
  rewrite H. by destruct (if completed _ then _ else _).
Qed.

Lemma batching_is_unobservable_witness :
  exists st1 r,
    StreamingChat.sendMessage_begin ready = Some (st1, r)
    /\ concat [[str "a"; str "b"]; []]
       = delivered (map (line_event example_engine)
                      (stream_lines [chunk_a; chunk_b ++ chunk_done]))
    /\ run_batches [] (StreamingChat.messages st1) [[str "a"; str "b"]; []]
       = StreamingChat.messages
           (fst (StreamingChat.sendMessage example_engine ready
                   (FetchResponse true 200
                      (Some {| chunks := [chunk_a; chunk_b ++ chunk_done];
                               ending := EndOfStream |})))).
Proof.
  eexists _, _.
  assert (Hb : StreamingChat.sendMessage_begin ready = Some (_, _))
    by reflexivity.
  assert (Hd : concat [[str "a"; str "b"]; []]
               = delivered (map (line_event example_engine)
                              (stream_lines [chunk_a; chunk_b ++ chunk_done])))
    by (vm_compute; reflexivity).
  split; [exact Hb|]. split; [exact Hd|].
  exact (batching_is_unobservable example_engine ready _ _ 200
           [chunk_a; chunk_b ++ chunk_done] EndOfStream
           [[str "a"; str "b"]; []] Hb Hd).
Defined.

(** ** More on initialization *)

Lemma replace_nonempty (s pat repl : jsstring) :
  s <> [] -> repl <> [] -> replace s pat repl <> [].
Proof.
  intros Hs Hr. rewrite replace_unfold.
  destruct (startsWith s pat); [by destruct repl | by destruct s].
Qed.

Lemma finalUrl_nonempty (p : Platform) (url : jsstring) :
  url <> [] -> StreamingChat.finalUrl p url <> [].
Proof.
  intros Hu. unfold StreamingChat.finalUrl.
  destruct (bool_decide _); [|done]. by apply replace_nonempty.
Qed.

(** [loadServerConfig] when the fetch delivers a value whose length is
    greater than 0. *)
Lemma loadServerConfig_models (engine : Engine) (p : Platform)
    (st : StreamingChat.ChatState) (url model : jsstring)
    (net : fetch_outcome) (models : json) :
  preferences_readable p = true ->
  preferences p !! "ollama_server_url"%string = Some url -> url <> [] ->
  preferences p !! "ollama_model"%string = Some model -> model <> [] ->
  models_fetched engine net models ->
  length_positive engine models = Normal true ->
  StreamingChat.loadServerConfig engine p net st
  = ({| StreamingChat.messages := StreamingChat.messages st;
        StreamingChat.input := StreamingChat.input st;
        StreamingChat.isLoading := false;
        StreamingChat.serverUrl := StreamingChat.finalUrl p url;
        StreamingChat.selectedModel := model;
        StreamingChat.localModels := models;
        StreamingChat.error := None |},
     [Fetch (GET (StreamingChat.finalUrl p url ++ str "/api/tags")
                 [("Accept", "application/json")])]).
Proof.
  intros Hread Hu Hune Hm Hmne Hfetched Hlen.
  rewrite (loadServerConfig_configured engine p _ st url model) by done.
  rewrite (fetchLocalModels_fetched engine _ net models) by done.
  by rewrite Hlen.
Qed.

(** The selector of a list of models that are as [LocalModel] says lists
    their names, which are strings. *)
Lemma selector_LocalModels (engine : Engine) (items : list json) :
  items <> [] ->
  forallb is_LocalModel items = true ->
  exists names,
    StreamingChat.selector engine (JArr items) = Some names
    /\ Forall2 (fun item name =>
                  exists fields text,
                    item = JObj fields
                    /\ own_property (str "name") fields = Some (JStr text)
                    /\ name = Some (JStr text)) items names.
Proof.
  intros Hne Hitems. unfold StreamingChat.selector.
  cbn [length_positive]. destruct items as [|item0 items0]; [done|].
  clear Hne. revert Hitems. generalize (item0 :: items0). clear.
  intros items Hitems.
  assert (H : exists names,
    Forall2 (fun item name =>
               exists fields text,
                 item = JObj fields
                 /\ own_property (str "name") fields = Some (JStr text)
                 /\ name = Some (JStr text)) items names).
  { induction items as [|item items IH]; [by exists []|].
    cbn [forallb] in Hitems. apply andb_true_iff in Hitems as [Hitem Hrest].
    destruct (IH Hrest) as [names Hnames].
    destruct item as [| | | | |fields]; try done.
    unfold is_LocalModel in Hitem.
    destruct (own_property (str "name") fields) as [name|] eqn:Hn; [|done].
    destruct name as [| | |text| |]; try done.
    exists (Some (JStr text) :: names). constructor; [|done].
    by exists fields, text. }
  destruct H as [names Hnames]. exists names. split; [|done].
  apply mapM_Some_2.
  induction Hnames as [|item name items names (fields & text & -> & Hn & ->) _ IH];
    constructor.
  - cbn [get_property]. by rewrite Hn.
  - apply IH. cbn [forallb] in Hitems. by apply andb_true_iff in Hitems as [_ ?].
Qed.

(** X13.  With both settings stored and a model list that is as the
    screen's types say (an array with at least one item, each an object
    whose [name] is a string that is not empty), initialization of the
    streaming screen, once the model-list request has been answered, takes
    over the stored model name (whether or not it is among the names
    listed), shows no error, has made the one model-list request and
    nothing else, has a selector that lists the names of the models, and
    leaves a state from which every input that is not blank can be
    sent. *)
Theorem model_list_success (engine : Engine) (p : Platform)
    (url model : jsstring) (net : fetch_outcome) (items : list json) :
  preferences_readable p = true ->
  preferences p !! "ollama_server_url"%string = Some url -> url <> [] ->
  preferences p !! "ollama_model"%string = Some model -> model <> [] ->
  models_fetched engine net (JArr items) ->
  items <> [] ->
  forallb is_LocalModel items = true ->
  let loaded :=
    StreamingChat.loadServerConfig engine p net StreamingChat.initialState in
  StreamingChat.selectedModel loaded.1 = model
  /\ StreamingChat.localModels loaded.1 = JArr items
  /\ StreamingChat.error loaded.1 = None
  /\ StreamingChat.isLoading loaded.1 = false
  /\ loaded.2 = [Fetch (GET (StreamingChat.finalUrl p url ++ str "/api/tags")
                            [("Accept", "application/json")])]
  /\ (exists names,
        StreamingChat.selector engine (StreamingChat.localModels loaded.1)
        = Some names
        /\ Forall2 (fun item name =>
                      exists fields text,
                        item = JObj fields
                        /\ own_property (str "name") fields = Some (JStr text)
                        /\ name = Some (JStr text)) items names)
  /\ forall input : jsstring,
       trim input <> [] ->
       exists st1 r,
         StreamingChat.sendMessage_begin (StreamingChat.onChange input loaded.1)
         = Some (st1, r)
         /\ StreamingChat.onKeyPress "Enter"
              (StreamingChat.onChange input loaded.1) = Some (st1, r)
         /\ StreamingChat.onClick (StreamingChat.onChange input loaded.1)
            = Some (st1, r).
Proof.
  intros Hread Hu Hune Hm Hmne Hfetched Hitems Htyped loaded. subst loaded.
  assert (Hlen : length_positive engine (JArr items) = Normal true)
    by (by destruct items).
  rewrite (loadServerConfig_models engine p _ url model net (JArr items))
    by done.
  cbn [fst snd StreamingChat.selectedModel StreamingChat.localModels
       StreamingChat.error StreamingChat.isLoading].
  do 5 (split; [done|]). split; [by apply selector_LocalModels|].
  intros input Hi.
  set (st := StreamingChat.onChange _ _).
  destruct (sendMessage_begin_ready st) as (st1 & r & Hb);
    [done | by apply finalUrl_nonempty | done |].
  exists st1, r. split; [done|]. split.
  - unfold StreamingChat.onKeyPress. by rewrite bool_decide_eq_true_2.
  - unfold StreamingChat.onClick, StreamingChat.disabled.
    cbn [st StreamingChat.onChange StreamingChat.setInput
         StreamingChat.isLoading StreamingChat.input orb].
    by destruct (trim input).
Qed.

Lemma model_list_success_witness :
  models_fetched example_engine tags_body
    (JArr [JObj [(str "name", JStr (str "llama3"))]])
  /\ forallb is_LocalModel [JObj [(str "name", JStr (str "llama3"))]] = true
  /\ StreamingChat.selectedModel
       (StreamingChat.loadServerConfig example_engine
          (host configured "http:") tags_body StreamingChat.initialState).1
     = str "llama3".
Proof.
  assert (Hf : models_fetched example_engine tags_body
                 (JArr [JObj [(str "name", JStr (str "llama3"))]])).
  { apply (tags_models example_engine 200 _
             (JObj [(str "models",
                     JArr [JObj [(str "name", JStr (str "llama3"))]])]));
      vm_compute; reflexivity. }
  assert (Ht : forallb is_LocalModel
                 [JObj [(str "name", JStr (str "llama3"))]] = true)
    by reflexivity.
  split; [exact Hf|]. split; [exact Ht|].
  exact (proj1 (model_list_success example_engine (host configured "http:")
                  (str "http://localhost:11434") (str "llama3") tags_body _
                  eq_refl eq_refl ltac:(discriminate)
                  eq_refl ltac:(discriminate) Hf ltac:(discriminate) Ht)).
Defined.

(** X14.  Choosing a model in the selector takes effect at once: the
    next chat request names it, the transcript is untouched, and the toast
    [Model Changed] is shown, whether or not the write to the store is
    done (it is not awaited).  When the write is not done, the store stays
    as it was, so that the choice does not outlive the screen.  When it is
    done, the store holds the name under the model key and the server URL
    stays as stored; then, if the name is not empty, a server URL is
    stored and the store can be read, the next initialization of the
    simple chat screen selects it, and so does that of the streaming
    screen once its model-list request is answered with a list of at
    least one model, each an object whose [name] is a string that is not
    empty. *)
Theorem selected_model_is_kept (engine : Engine) (p : Platform)
    (st : StreamingChat.ChatState) (model_written : bool)
    (modelName url : jsstring) (net : fetch_outcome) (items : list json) :
  modelName <> [] ->
  preferences p !! "ollama_server_url"%string = Some url -> url <> [] ->
  models_fetched engine net (JArr items) ->
  items <> [] ->
  forallb is_LocalModel items = true ->
  let selected := StreamingChat.handleModelSelect model_written modelName st in
  let later :=
    {| preferences := run_effects (preferences p) selected.2;
       preferences_readable := true;
       protocol := protocol p |} in
  (forall st1 url' headers body',
     StreamingChat.sendMessage_begin selected.1
     = Some (st1, POST url' headers body') ->
     model body' = modelName)
  /\ StreamingChat.messages selected.1 = StreamingChat.messages st
  /\ In (Toast "Model Changed" false) selected.2
  /\ (model_written = false -> preferences later = preferences p)
  /\ (model_written = true ->
      preferences later !! "ollama_model"%string = Some modelName
      /\ preferences later !! "ollama_server_url"%string = Some url
      /\ StreamingChat.selectedModel
           (StreamingChat.loadServerConfig engine later net
              StreamingChat.initialState).1
         = modelName
      /\ SimpleChat.loadServerConfig later SimpleChat.initialState
         = ({| SimpleChat.messages := []; SimpleChat.input := [];
               SimpleChat.isLoading := false; SimpleChat.serverUrl := url;
               SimpleChat.selectedModel := modelName;
               SimpleChat.error := None |}, [])).
Proof.
  intros Hname Hu Hune Hfetched Hitems Htyped selected later.
  split.
  { intros st1 url' headers body' Hb.
    apply sendMessage_begin_Some in Hb as (_ & _ & _ & _ & Hr).
    by injection Hr as _ _ ->. }
  split; [done|]. split; [by destruct model_written; cbn; auto|].
  split; [by intros ->|]. intros Hw.
  subst later selected. rewrite Hw.
  set (later := {| preferences := _; preferences_readable := true;
                   protocol := protocol p |}).
  assert (Hm' : preferences later !! "ollama_model"%string = Some modelName).
  { cbn. apply lookup_insert_eq. }
  assert (Hu' : preferences later !! "ollama_server_url"%string = Some url).
  { cbn. by rewrite lookup_insert_ne. }
  do 2 (split; [done|]). split.
  - assert (Hlen : length_positive engine (JArr items) = Normal true)
      by (by destruct items).
    by rewrite (loadServerConfig_models engine later _ url modelName net
                  (JArr items)).
  - unfold SimpleChat.loadServerConfig, Preferences_get.
    cbn [preferences_readable later]. rewrite Hu', Hm'.
    destruct url; [done|]. by destruct modelName.
Qed.

Lemma selected_model_is_kept_witness :
  models_fetched example_engine tags_body
    (JArr [JObj [(str "name", JStr (str "llama3"))]])
  /\ forallb is_LocalModel [JObj [(str "name", JStr (str "llama3"))]] = true
  /\ StreamingChat.selectedModel
       (StreamingChat.loadServerConfig example_engine
          {| preferences :=
               run_effects (preferences (host configured "http:"))
                 (StreamingChat.handleModelSelect true (str "mistral") ready).2;
             preferences_readable := true;
             protocol := protocol (host configured "http:") |}
          tags_body StreamingChat.initialState).1
     = str "mistral".
Proof.
  assert (Hf : models_fetched example_engine tags_body
                 (JArr [JObj [(str "name", JStr (str "llama3"))]])).
  { apply (tags_models example_engine 200 _
             (JObj [(str "models",
                     JArr [JObj [(str "name", JStr (str "llama3"))]])]));
      vm_compute; reflexivity. }
  assert (Ht : forallb is_LocalModel
                 [JObj [(str "name", JStr (str "llama3"))]] = true)
    by reflexivity.
  split; [exact Hf|]. split; [exact Ht|].
  pose proof (selected_model_is_kept example_engine (host configured "http:")
                ready true (str "mistral") (str "http://localhost:11434")
                tags_body _
                ltac:(discriminate) eq_refl ltac:(discriminate) Hf
                ltac:(discriminate) Ht)
    as (_ & _ & _ & _ & H).
  exact (proj1 (proj2 (proj2 (H eq_refl)))).
Defined.

(** X15.  Initialization sends the user to the settings exactly when the
    store can be read and the server URL or the model name is missing or
    empty, on both chat screens and whatever the network does; and it
    never writes to the store. *)
Theorem redirect_iff_unconfigured (engine : Engine) (p : Platform)
    (net : fetch_outcome) (st : StreamingChat.ChatState)
    (st' : SimpleChat.ChatState) :
  let unconfigured :=
    preferences_readable p = true
    /\ (present (preferences p !! "ollama_server_url"%string) = false
        \/ present (preferences p !! "ollama_model"%string) = false) in
  (In (Navigate "/settings") (StreamingChat.loadServerConfig engine p net st).2
   <-> unconfigured)
  /\ (In (Navigate "/settings") (SimpleChat.loadServerConfig p st').2
      <-> unconfigured)
  /\ (forall key value,
        ~ In (PreferencesSet key value)
             (StreamingChat.loadServerConfig engine p net st).2
        /\ ~ In (PreferencesSet key value)
                (SimpleChat.loadServerConfig p st').2).
Proof.
  cbn zeta.
  assert (Hfetch : forall url st0 e,
    In e (StreamingChat.fetchLocalModels engine url net st0).1.2 ->
    e = Fetch (GET (url ++ str "/api/tags") [("Accept", "application/json")])
    \/ e = Toast "Error" true).
  { intros url st0 e.
    destruct (fetchLocalModels_effects engine url net st0)
      as (st2 & toasts & fetched & -> & _ & [-> | ->]); cbn; intuition. }
  unfold StreamingChat.loadServerConfig, SimpleChat.loadServerConfig,
    Preferences_get.
  destruct (preferences_readable p).
  2:{ cbn. repeat split; try tauto; intros []; done. }
  set (u := present (preferences p !! "ollama_server_url"%string)).
  set (m := present (preferences p !! "ollama_model"%string)).
  destruct (negb u || negb m) eqn:Hg.
  - assert (Hum : u = false \/ m = false).
    { destruct u, m; try done; [by right | by left | by left]. }
    cbn. repeat split; try tauto; try (intros [|[|]]; done).
  - assert (Hum : u = true /\ m = true) by (by destruct u, m).
    destruct Hum as [Hu' Hm'].
    set (url := StreamingChat.finalUrl p _).
    set (st1 := StreamingChat.setServerUrl _ _).
    specialize (Hfetch url st1).
    destruct (StreamingChat.fetchLocalModels engine url net st1)
      as [[st2 effects] fetched].
    cbn [fst snd] in Hfetch.
    destruct (length_positive engine fetched) as [[]|];
      [| destruct (negb (present (StreamingChat.error st))) |];
      cbn [snd negb orb]; repeat split.
    all: try (intros [_ [Hx|Hx]]; congruence).
    all: try (intros Hx%Hfetch; by destruct Hx).
    all: try (by intros []).
    all: try match goal with
             | H : In _ _ |- _ =>
                 first [ by destruct H
                       | apply Hfetch in H as [H|H]; discriminate ]
             end.
Qed.

(** ** More on requests and replies *)

(** X16.  On the simple screen, a response whose body is the JSON text of
    an object with a [message] object whose [content] is a string ends the
    turn well: the transcript gains the user message and one assistant
    message with that string (also when it is empty), no error is shown,
    and the request is the only effect. *)
Theorem simple_reply_is_appended (engine : Engine)
    (st st1 : SimpleChat.ChatState) (r : request) (status : N)
    (body : option body_stream) (responseText text : jsstring)
    (members inner : list (jsstring * json)) :
  SimpleChat.sendMessage_begin st = Some (st1, r) ->
  Response_text body = Normal responseText ->
  JSON_parse responseText = Some (JObj members) ->
  own_property (str "message") members = Some (JObj inner) ->
  own_property (str "content") inner = Some (JStr text) ->
  SimpleChat.sendMessage engine st (FetchResponse true status body)
  = ({| SimpleChat.messages :=
          SimpleChat.messages st
          ++ [{| role := user; content := trim (SimpleChat.input st) |};
              {| role := assistant; content := text |}];
        SimpleChat.input := [];
        SimpleChat.isLoading := false;
        SimpleChat.serverUrl := SimpleChat.serverUrl st;
        SimpleChat.selectedModel := SimpleChat.selectedModel st;
        SimpleChat.error := None |},
     [Fetch r]).
Proof.
  intros Hb Ht Hp Hm Hc. unfold SimpleChat.sendMessage. rewrite Hb.
  apply simple_sendMessage_begin_Some in Hb as [-> _].
  unfold SimpleChat.sendMessage_response, SimpleChat.validate.
  cbn [negb]. rewrite Ht, Hp. cbn [get_property]. rewrite Hm.
  cbn [truthy get_property]. rewrite Hc.
  unfold SimpleChat.setIsLoading, SimpleChat.setMessages. cbn.
  by rewrite <- app_assoc.
Qed.

Lemma simple_reply_is_appended_witness :
  exists st1 r,
    SimpleChat.sendMessage_begin simple_ready = Some (st1, r)
    /\ SimpleChat.sendMessage example_engine simple_ready
         (FetchResponse true 200
            (Some {| chunks := [bytesq "{'message':{'content':''}}"];
                     ending := EndOfStream |}))
       = ({| SimpleChat.messages :=
               SimpleChat.messages simple_ready
               ++ [{| role := user;
                      content := trim (SimpleChat.input simple_ready) |};
                   {| role := assistant; content := [] |}];
             SimpleChat.input := [];
             SimpleChat.isLoading := false;
             SimpleChat.serverUrl := SimpleChat.serverUrl simple_ready;
             SimpleChat.selectedModel := SimpleChat.selectedModel simple_ready;
             SimpleChat.error := None |},
          [Fetch r]).
Proof.
  eexists _, _.
  assert (Hb : SimpleChat.sendMessage_begin simple_ready = Some (_, _))
    by reflexivity.
  split; [exact Hb|].
  exact (simple_reply_is_appended example_engine simple_ready _ _ 200
           (Some {| chunks := [bytesq "{'message':{'content':''}}"];
                    ending := EndOfStream |})
           (strq "{'message':{'content':''}}") []
           [(str "message", JObj [(str "content", JStr [])])]
           [(str "content", JStr [])]
           Hb eq_refl eq_refl eq_refl eq_refl).
Defined.

(** A status in a template literal is made of decimal digits. *)
Lemma status_text_digits (status : N) :
  forallb (fun c => (48 <=? c) && (c <=? 57)) (status_text status) = true.
Proof.
  unfold status_text. generalize (N.to_uint status). intros d.
  assert (H : forall d, forallb (fun c => (48 <=? c) && (c <=? 57))
                          (str (NilEmpty.string_of_uint d)) = true).
  { induction d0; simpl; auto. }
  destruct d; try apply H. reflexivity.
Qed.

Lemma includes_other_head (s p : jsstring) (c : N) :
  forallb (fun x => negb (x =? c)) s = true -> includes s (c :: p) = false.
Proof.
  induction s as [|x s IH]; [done|]. simpl.
  intros [Hx Hs]%andb_true_iff. rewrite (IH Hs).
  by destruct (x =? c).
Qed.

(** The message of the error thrown for a bad status does not contain
    [Failed to fetch]. *)
Lemma status_error_is_not_a_fetch_failure (status : N) :
  includes (str "HTTP error! status: " ++ status_text status)
           (str "Failed to fetch") = false.
Proof.
  change (str "Failed to fetch") with (70 :: str "ailed to fetch").
  apply includes_other_head. rewrite forallb_app. apply andb_true_iff.
  split; [reflexivity|].
  pose proof (status_text_digits status) as H.
  induction (status_text status) as [|c s IH]; [done|].
  simpl in *. apply andb_true_iff in H as [Hc Hs]. rewrite (IH Hs).
  apply andb_true_iff in Hc as [_ Hc%N.leb_le].
  rewrite andb_true_r. apply negb_true_iff, N.eqb_neq. lia.
Qed.

(** X17.  A response with a status that is not a success makes both
    screens show the banner [HTTP error! status: ] followed by the
    status in decimal (the simple screen never replaces it by its
    connection hints), with a toast and no reply; the streaming screen
    does the same for a response without body, whatever its status, also a
    success. *)
Theorem http_status_is_reported (engine : Engine)
    (st st1 : StreamingChat.ChatState) (r : request)
    (sst sst1 : SimpleChat.ChatState) (sr : request)
    (ok : bool) (status : N) (body : option body_stream) :
  StreamingChat.sendMessage_begin st = Some (st1, r) ->
  SimpleChat.sendMessage_begin sst = Some (sst1, sr) ->
  ok = false \/ body = None ->
  let banner := Some (str "HTTP error! status: " ++ status_text status) in
  StreamingChat.sendMessage engine st (FetchResponse ok status body)
  = ({| StreamingChat.messages := StreamingChat.messages st1;
        StreamingChat.input := [];
        StreamingChat.isLoading := false;
        StreamingChat.serverUrl := StreamingChat.serverUrl st;
        StreamingChat.selectedModel := StreamingChat.selectedModel st;
        StreamingChat.localModels := StreamingChat.localModels st;
        StreamingChat.error := banner |},
     [Fetch r; Toast "Error" true])
  /\ SimpleChat.sendMessage engine sst (FetchResponse false status body)
     = ({| SimpleChat.messages := SimpleChat.messages sst1;
           SimpleChat.input := [];
           SimpleChat.isLoading := false;
           SimpleChat.serverUrl := SimpleChat.serverUrl sst;
           SimpleChat.selectedModel := SimpleChat.selectedModel sst;
           SimpleChat.error := banner |},
        [Fetch sr; Toast "Error" true]).
Proof.
  intros Hb Hsb Hfail banner. split.
  - unfold StreamingChat.sendMessage. rewrite Hb.
    apply sendMessage_begin_Some in Hb as (_ & _ & _ & -> & _).
    unfold StreamingChat.sendMessage_response.
    assert (Hnone : (if ok then body else None) = None).
    { destruct Hfail as [-> | ->]; [done | by destruct ok]. }
    by rewrite Hnone.
  - unfold SimpleChat.sendMessage. rewrite Hsb.
    apply simple_sendMessage_begin_Some in Hsb as [-> _].
    unfold SimpleChat.sendMessage_response, SimpleChat.caught.
    cbn [negb errorMessage_of].
    by rewrite status_error_is_not_a_fetch_failure.
Qed.

Lemma http_status_is_reported_witness :
  exists st1 r sst1 sr,
    StreamingChat.sendMessage_begin ready = Some (st1, r)
    /\ SimpleChat.sendMessage_begin simple_ready = Some (sst1, sr)
    /\ StreamingChat.error
         (StreamingChat.sendMessage example_engine ready
            (FetchResponse true 204 None)).1
       = Some (str "HTTP error! status: 204")
    /\ SimpleChat.error
         (SimpleChat.sendMessage example_engine simple_ready
            (FetchResponse false 204 None)).1
       = Some (str "HTTP error! status: 204").
Proof.
  eexists _, _, _, _.
  assert (Hb : StreamingChat.sendMessage_begin ready = Some (_, _))
    by reflexivity.
  assert (Hsb : SimpleChat.sendMessage_begin simple_ready = Some (_, _))
    by reflexivity.
  split; [exact Hb|]. split; [exact Hsb|].
  pose proof (http_status_is_reported example_engine ready _ _
                simple_ready _ _ true 204 None Hb Hsb (or_intror eq_refl))
    as [H1 H2].
  split; [exact (f_equal (fun x => StreamingChat.error x.1) H1)
         | exact (f_equal (fun x => SimpleChat.error x.1) H2)].
Defined.

(** X18.  What the streaming screen shows is what it sends next: after a
    turn whose request was answered with a body, the body of the next
    request is the transcript before the turn, its user message, the
    assistant entry of the texts delivered and the new user message; this
    is so also when the turn ended with a rejected read, the partial
    reply going to the server as part of the conversation. *)
Theorem next_request_carries_reply (engine : Engine)
    (st st1 : StreamingChat.ChatState) (r : request) (status : N)
    (values : list (list Byte.byte)) (e : stream_end) (next : jsstring) :
  StreamingChat.sendMessage_begin st = Some (st1, r) ->
  trim next <> [] ->
  let after :=
    (StreamingChat.sendMessage engine st
       (FetchResponse true status (Some {| chunks := values; ending := e |}))).1 in
  exists st2,
    StreamingChat.sendMessage_begin (StreamingChat.onChange next after)
    = Some (st2,
            POST (StreamingChat.serverUrl st ++ str "/api/chat")
                 [("Content-Type", "application/json");
                  ("Accept", "application/json")]
                 {| model := StreamingChat.selectedModel st;
                    body_messages :=
                      (StreamingChat.messages st
                       ++ [{| role := user;
                              content := trim (StreamingChat.input st) |}])
                      ++ assistant_entry
                           (delivered (map (line_event engine)
                                         (stream_lines values)))
                      ++ [{| role := user; content := trim next |}];
                    stream := Some true |}).
Proof.
  intros Hb Hnext after. subst after.
  rewrite (sendMessage_stream engine st st1 r) by done.
  apply sendMessage_begin_Some in Hb as (_ & Hu & Hm & -> & _).
  set (events := map _ _).
  destruct (if completed events then EndOfStream else e); cbn [fst];
    match goal with
    | |- context [StreamingChat.onChange next ?s] =>
        set (st' := StreamingChat.onChange next s)
    end;
    (destruct (sendMessage_begin_ready st') as (st2 & r2 & Hb2); [done..|]);
    exists st2; rewrite Hb2;
    apply sendMessage_begin_Some in Hb2 as (_ & _ & _ & _ & ->);
    cbn; by rewrite <- !app_assoc.
Qed.

Lemma next_request_carries_reply_witness :
  exists st1 r st2,
    StreamingChat.sendMessage_begin ready = Some (st1, r)
    /\ trim (str "more") <> []
    /\ StreamingChat.sendMessage_begin
         (StreamingChat.onChange (str "more")
            (StreamingChat.sendMessage example_engine ready
               (FetchResponse true 200
                  (Some {| chunks := [chunk_a];
                           ending := ReadThrows OtherValue |}))).1)
       = Some (st2,
               POST (StreamingChat.serverUrl ready ++ str "/api/chat")
                    [("Content-Type", "application/json");
                     ("Accept", "application/json")]
                    {| model := StreamingChat.selectedModel ready;
                       body_messages :=
                         (StreamingChat.messages ready
                          ++ [{| role := user;
                                 content := trim (StreamingChat.input ready) |}])
                         ++ assistant_entry
                              (delivered (map (line_event example_engine)
                                            (stream_lines [chunk_a])))
                         ++ [{| role := user; content := trim (str "more") |}];
                       stream := Some true |}).
Proof.
  assert (Hb : StreamingChat.sendMessage_begin ready = Some (_, _))
    by reflexivity.
  assert (Hn : trim (str "more") <> []) by discriminate.
  destruct (next_request_carries_reply example_engine ready _ _ 200 [chunk_a]
              (ReadThrows OtherValue) (str "more") Hb Hn) as [st2 H].
  eexists _, _, st2. split; [exact Hb|]. split; [exact Hn|]. exact H.
Defined.

(** ** The settings screen *)

Lemma trimStart_fixed (s : jsstring) :
  (forall c, head s = Some c -> is_white_space c = false) -> trimStart s = s.
Proof.
  destruct s as [|a s]; [done|]. intros H. simpl. by rewrite (H a eq_refl).
Qed.

(** A string that neither begins nor ends with white space is its own
    [trim]; so trimming twice is trimming once. *)
Lemma trim_fixed (s : jsstring) :
  (forall c, head s = Some c \/ last s = Some c -> is_white_space c = false) ->
  trim s = s.
Proof.
  intros H. unfold trim.
  rewrite (trimStart_fixed s) by (intros c Hc; apply H; by left).
  rewrite (trimStart_fixed (rev s)).
  - apply rev_involutive.
  - intros c Hc. rewrite head_rev in Hc. apply H. by right.
Qed.

Lemma trim_idempotent (s : jsstring) : trim (trim s) = trim s.
Proof. apply trim_fixed. apply trim_ends. Qed.

(** What [fetchModels] leaves, whatever the network does. *)
Lemma fetchModels_outcome (engine : Engine) (url : jsstring)
    (net : fetch_outcome) (st : Settings.SettingsState) :
  exists names toasts,
    Settings.fetchModels engine url net st
    = ({| Settings.serverUrl := Settings.serverUrl st;
          Settings.modelName := Settings.modelName st;
          Settings.availableModels := names;
          Settings.isLoading := false |},
       Fetch (GET (url ++ str "/api/tags") []) :: toasts)
    /\ (toasts = [] \/ toasts = [Toast "Error" true]).
Proof.
  unfold Settings.fetchModels.
  match goal with
  | |- context [match ?t with Some _ => _ | None => _ end] => destruct t
  end; eexists _, _; (split; [reflexivity|]); auto.
Qed.

Ltac in_cases :=
  repeat match goal with
         | H : _ \/ _ |- _ => destruct H as [H | H]
         | H : False |- _ => destruct H
         | H : PreferencesSet _ _ = PreferencesSet _ _ |- _ =>
             injection H as <- <-
         | H : _ = _ |- _ => discriminate H
         end.

Ltac save_case :=
  cbn [negb fst snd nonempty orb];
  split; [done|]; split; [|split; [|split]];
  [ intros key value Hin; cbn in Hin; in_cases;
    (split; [done|]); (split; [done|]);
    first [ left; by split
          | right; split; [done|]; split; [done|]; by left ]
  | split;
    [ intros Hin; cbn in Hin; in_cases; done
    | intros (H1 & H2 & H3 & H4);
      first [ done | discriminate | cbn; tauto ] ]
  | intros Hin Hno; cbn in Hin, Hno; in_cases; done
  | cbn; tauto ].

(** X19.  Saving never changes the form, stores nothing but the trimmed
    fields (which are then not empty and neither begin nor end with white
    space), writes the model name only after the server URL, and goes to
    the chat exactly when both fields are filled in and both writes
    succeed; in every other case it shows an error toast and stays. *)
Theorem saved_settings_are_trimmed (url_written model_written : bool)
    (st : Settings.SettingsState) :
  let saved := Settings.saveSettings url_written model_written st in
  saved.1 = st
  /\ (forall key value,
        In (PreferencesSet key value) saved.2 ->
        value <> [] /\ trim value = value
        /\ (key = "ollama_server_url"%string
            /\ value = trim (Settings.serverUrl st)
            \/ key = "ollama_model"%string
               /\ value = trim (Settings.modelName st)
               /\ In (PreferencesSet "ollama_server_url"
                        (trim (Settings.serverUrl st))) saved.2))
  /\ (In (Navigate "/chat") saved.2
      <-> trim (Settings.serverUrl st) <> []
          /\ trim (Settings.modelName st) <> []
          /\ url_written = true /\ model_written = true)
  /\ (In (Navigate "/chat") saved.2 -> ~ In (Toast "Error" true) saved.2)
  /\ (In (Navigate "/chat") saved.2 \/ In (Toast "Error" true) saved.2).
Proof.
  cbn zeta. unfold Settings.saveSettings.
  destruct (trim (Settings.serverUrl st)) as [|cu u] eqn:Hu; [save_case|].
  destruct (trim (Settings.modelName st)) as [|cm m] eqn:Hm; [save_case|].
  assert (Htu : trim (cu :: u) = cu :: u)
    by (rewrite <- Hu; apply trim_idempotent).
  assert (Htm : trim (cm :: m) = cm :: m)
    by (rewrite <- Hm; apply trim_idempotent).
  destruct url_written, model_written; save_case.
Qed.

(** X20.  What the settings screen saves is what the screens load.  With
    both fields filled in and both writes done, the store holds the
    trimmed URL and model name.  The next initialization of the simple
    chat screen takes them without sending the user back.  That of the
    streaming screen does not send the user back either: it asks for the
    models at the saved URL, with its first [http:] replaced by [https:]
    when the page is served over https, and keeps that URL as its server
    URL.  The settings screen puts the saved URL in its form again and
    asks for the models at the saved URL as it is. *)
Theorem saved_settings_are_loaded (engine : Engine)
    (store : gmap string jsstring) (scheme : jsstring)
    (st : Settings.SettingsState) (net : fetch_outcome) :
  trim (Settings.serverUrl st) <> [] ->
  trim (Settings.modelName st) <> [] ->
  let url := trim (Settings.serverUrl st) in
  let name := trim (Settings.modelName st) in
  let later :=
    {| preferences :=
         run_effects store (Settings.saveSettings true true st).2;
       preferences_readable := true;
       protocol := scheme |} in
  preferences later !! "ollama_server_url"%string = Some url
  /\ preferences later !! "ollama_model"%string = Some name
  /\ SimpleChat.loadServerConfig later SimpleChat.initialState
     = ({| SimpleChat.messages := []; SimpleChat.input := [];
           SimpleChat.isLoading := false; SimpleChat.serverUrl := url;
           SimpleChat.selectedModel := name; SimpleChat.error := None |}, [])
  /\ (exists st' toasts,
        StreamingChat.loadServerConfig engine later net
          StreamingChat.initialState
        = (st',
           Fetch (GET (StreamingChat.finalUrl later url ++ str "/api/tags")
                      [("Accept", "application/json")]) :: toasts)
        /\ StreamingChat.serverUrl st' = StreamingChat.finalUrl later url
        /\ (toasts = [] \/ toasts = [Toast "Error" true]))
  /\ (exists st' toasts,
        Settings.loadSettings engine later net Settings.initialState
        = (st', Fetch (GET (url ++ str "/api/tags") []) :: toasts)
        /\ Settings.serverUrl st' = url
        /\ (toasts = [] \/ toasts = [Toast "Error" true])).
Proof.
  intros Hu Hm. cbn zeta.
  assert (Hsaved : (Settings.saveSettings true true st).2
                   = [PreferencesSet "ollama_server_url"
                        (trim (Settings.serverUrl st));
                      PreferencesSet "ollama_model"
                        (trim (Settings.modelName st));
                      Toast "Success" false; Navigate "/chat"]).
  { unfold Settings.saveSettings.
    destruct (trim (Settings.serverUrl st)); [done|].
    by destruct (trim (Settings.modelName st)). }
  rewrite Hsaved. clear Hsaved.
  revert Hu Hm.
  generalize (trim (Settings.serverUrl st)) (trim (Settings.modelName st)).
  intros url name Hu Hm.
  set (later := {| preferences := _; preferences_readable := true;
                   protocol := scheme |}).
  assert (Hlu : preferences later !! "ollama_server_url"%string = Some url).
  { cbn. rewrite lookup_insert_ne by done. apply lookup_insert_eq. }
  assert (Hlm : preferences later !! "ollama_model"%string = Some name).
  { cbn. apply lookup_insert_eq. }
  assert (Hpu : present (Some url) = true) by (by destruct url).
  assert (Hpm : present (Some name) = true) by (by destruct name).
  do 2 (split; [done|]). split; [|split].
  - unfold SimpleChat.loadServerConfig, Preferences_get.
    cbn [preferences_readable later]. rewrite Hlu, Hlm, Hpu, Hpm. done.
  - destruct (loadServerConfig_url engine later net StreamingChat.initialState
                url name eq_refl Hlu Hu Hlm Hm) as (st' & toasts & H & Hs & Ht).
    by exists st', toasts.
  - unfold Settings.loadSettings, Preferences_get.
    cbn [preferences_readable later]. rewrite Hlu, Hlm, Hpu, Hpm.
    destruct (fetchModels_outcome engine (default [] (Some url)) net
                (Settings.setServerUrl (default [] (Some url))
                   Settings.initialState)) as (names & toasts & -> & Ht).
    eexists _, toasts. split; [reflexivity|]. by split.
Qed.

Lemma saved_settings_are_loaded_witness :
  trim (str " http://localhost:11434 ") <> []
  /\ trim (str "llama3 ") <> []
  /\ SimpleChat.loadServerConfig
       {| preferences :=
            run_effects ∅
              (Settings.saveSettings true true
                 {| Settings.serverUrl := str " http://localhost:11434 ";
                    Settings.modelName := str "llama3 ";
                    Settings.availableModels := [];
                    Settings.isLoading := false |}).2;
          preferences_readable := true;
          protocol := str "http:" |}
       SimpleChat.initialState
     = ({| SimpleChat.messages := []; SimpleChat.input := [];
           SimpleChat.isLoading := false;
           SimpleChat.serverUrl := trim (str " http://localhost:11434 ");
           SimpleChat.selectedModel := trim (str "llama3 ");
           SimpleChat.error := None |}, []).
Proof.
  assert (Hu : trim (str " http://localhost:11434 ") <> []) by discriminate.
  assert (Hm : trim (str "llama3 ") <> []) by discriminate.
  split; [exact Hu|]. split; [exact Hm|].
  pose proof (saved_settings_are_loaded example_engine ∅ (str "http:")
                {| Settings.serverUrl := str " http://localhost:11434 ";
                   Settings.modelName := str "llama3 ";
                   Settings.availableModels := [];
                   Settings.isLoading := false |}
                (FetchRejects OtherValue) Hu Hm) as (_ & _ & H & _).
  exact H.
Defined.

(** X21.  The model-list fetch of the settings screen makes one GET of
    the URL followed by [/api/tags], without headers, ends with the
    loading flag down and leaves the two fields alone.  Either it shows an
    error toast and leaves the list of models as it was, or it shows
    nothing, and then the response was a success whose body is the JSON
    text of an object whose [models] is an array with no [null] item, and
    the list holds the [name] of each item in order ([undefined] where an
    item has none). *)
Theorem settings_model_list (engine : Engine) (url : jsstring)
    (net : fetch_outcome) (st : Settings.SettingsState) :
  exists names toasts,
    Settings.fetchModels engine url net st
    = ({| Settings.serverUrl := Settings.serverUrl st;
          Settings.modelName := Settings.modelName st;
          Settings.availableModels := names;
          Settings.isLoading := false |},
       Fetch (GET (url ++ str "/api/tags") []) :: toasts)
    /\ (toasts = [Toast "Error" true]
        /\ names = Settings.availableModels st
        \/ toasts = []
           /\ exists status body members items,
                net = FetchResponse true status body
                /\ Response_json engine body = Normal (JObj members)
                /\ own_property (str "models") members = Some (JArr items)
                /\ Forall2 (fun item name =>
                              item <> JNull
                              /\ name = match item with
                                        | JObj fields =>
                                            own_property (str "name") fields
                                        | _ => None
                                        end) items names).
Proof.
  unfold Settings.fetchModels.
  assert (Hfail : exists names toasts,
    (Settings.setIsLoading false (Settings.setIsLoading true st),
     [Fetch (GET (url ++ str "/api/tags") []); Toast "Error" true])
    = ({| Settings.serverUrl := Settings.serverUrl st;
          Settings.modelName := Settings.modelName st;
          Settings.availableModels := names;
          Settings.isLoading := false |},
       Fetch (GET (url ++ str "/api/tags") []) :: toasts)
    /\ (toasts = [Toast "Error" true]
        /\ names = Settings.availableModels st
        \/ toasts = []
           /\ exists status body members items,
                net = FetchResponse true status body
                /\ Response_json engine body = Normal (JObj members)
                /\ own_property (str "models") members = Some (JArr items)
                /\ Forall2 (fun item name =>
                              item <> JNull
                              /\ name = match item with
                                        | JObj fields =>
                                            own_property (str "name") fields
                                        | _ => None
                                        end) items names)).
  { eexists _, _. split; [reflexivity|]. by left. }
  destruct net as [e | [] status body]; [done | | done].
  cbn [negb]. destruct (Response_json engine body) as [data|e] eqn:Hd; [|done].
  unfold Settings.model_names.
  destruct data as [| | | | |members]; try done.
  cbn [get_property].
  destruct (own_property (str "models") members) as [[| | | |items|]|] eqn:Hm;
    try done.
  match goal with
  | |- context [mapM ?f items] => destruct (mapM f items) as [names|] eqn:Hn
  end; [|done].
  exists names, []. split; [reflexivity|]. right. split; [done|].
  exists status, body, members, items. do 3 (split; [done|]).
  apply mapM_Some in Hn. clear -Hn.
  induction Hn as [|item name items names Hitem _ IH]; constructor; [|done].
  destruct item; simpl in Hitem; try discriminate;
    by injection Hitem as <-.
Qed.

(** X22.  Loading the settings screen writes nothing and goes nowhere.
    When the store can be read, the stored URL, if any, is put in the form
    and the server is asked for its models, which happens exactly when a
    URL is stored.  The stored model name, if any, is put in the form at
    once when no URL is stored; when one is stored, this is done only
    after the model-list request has settled, in whatever way, and then
    provided the names listed are strings, as the type of the list says
    (the form is rendered in between, and only a list of strings is sure
    to render).  When the store cannot be read, nothing happens at all. *)
Theorem settings_are_shown (engine : Engine) (p : Platform)
    (net : fetch_outcome) (st : Settings.SettingsState) :
  let url := preferences p !! "ollama_server_url"%string in
  let name := preferences p !! "ollama_model"%string in
  let loaded := Settings.loadSettings engine p net st in
  let restored :=
    Settings.modelName loaded.1
    = (if preferences_readable p && present name then default [] name
       else Settings.modelName st) in
  (forall e, In e loaded.2 ->
     e = Fetch (GET (default [] url ++ str "/api/tags") [])
     \/ e = Toast "Error" true)
  /\ (In (Fetch (GET (default [] url ++ str "/api/tags") [])) loaded.2
      <-> preferences_readable p = true /\ present url = true)
  /\ Settings.serverUrl loaded.1
     = (if preferences_readable p && present url then default [] url
        else Settings.serverUrl st)
  /\ (present url = false -> restored)
  /\ (forallb is_string_name (Settings.availableModels loaded.1) = true ->
      restored)
  /\ (preferences_readable p = false -> loaded = (st, [])).
Proof.
  cbn zeta. unfold Settings.loadSettings, Preferences_get.
  destruct (preferences_readable p).
  2:{ cbn. split; [by intros e []|]. split; [|done].
      split; [by intros [] | by intros [? _]]. }
  set (url := preferences p !! "ollama_server_url"%string).
  set (name := preferences p !! "ollama_model"%string).
  destruct (present url) eqn:Hu.
  - destruct (fetchModels_outcome engine (default [] url) net
                (Settings.setServerUrl (default [] url) st))
      as (names & toasts & -> & Ht).
    assert (Hin : forall e,
      In e (Fetch (GET (default [] url ++ str "/api/tags") []) :: toasts) ->
      e = Fetch (GET (default [] url ++ str "/api/tags") [])
      \/ e = Toast "Error" true).
    { intros e [<- | He]; [by left|].
      destruct Ht as [-> | ->]; [done|]. destruct He as [<- | []]. by right. }
    destruct (present name); cbn [fst snd andb Settings.serverUrl
                                  Settings.modelName Settings.setModelName];
      (split; [exact Hin|]); (split; [|done]);
      (split; [done | intros _; by left]).
  - destruct (present name); cbn [fst snd andb Settings.serverUrl
                                  Settings.modelName Settings.setModelName];
      (split; [by intros e []|]); (split; [|done]);
      (split; [by intros [] | by intros [_ ?]]).
Qed.
